(** * PATH-Solutions static-data seeders: a shallow embedding

    The repository holds two one-shot seeding scripts
    ([department-initializer.py], [merit-badge-initializer.py]) and the
    plain data classes of [meritBadge.py].  This development embeds

    - the values [json.load] produces and the Python operations the
      scripts apply to them ([in], subscripting, [dict.get], iteration),
      with the exceptions they raise;
    - the classes [Requirement] and [MeritBadge] with their parsers;
    - the remote client as an oracle threaded through an explicit world
      state that records every remote call, every console line, every
      file read and every attribute assignment;
    - the two seeding procedures and the top-level flow of both scripts,

    and then proves the properties of the specification about them. *)

From Stdlib Require Import String Ascii List ZArith Bool Arith Lia.
Import ListNotations.
Open Scope string_scope.
Open Scope list_scope.

Set Implicit Arguments.
Set Warnings "-register-all".

(** ** Python values *)

(** What [json.load] can return, which is also what the remote client
    hands back in [.data].  [VNone] is Python's [None] (JSON null); a
    float is kept as mantissa and binary exponent; a dict keeps its
    insertion order, as Python dicts do. *)
Inductive value : Type :=
| VNone
| VBool (b : bool)
| VInt (n : Z)
| VFloat (m e : Z)
| VStr (s : string)
| VList (l : list value)
| VDict (d : list (string * value)).

(** The subclasses of [Exception] that the modelled code can meet.
    [APIError] is postgrest's structured backend error; [OtherException]
    stands for any further exception a collaborator raises (network fault,
    JSON syntax error, missing file, ...). *)
Inductive exn : Type :=
| APIError (message : string)
| AttributeError
| IndexError
| KeyError (key : value)
| TypeError
| RecursionError
| OtherException (text : string).

Inductive result (A : Type) : Type :=
| Ok (a : A)
| Raise (e : exn).

Arguments Ok {A} a.
Arguments Raise {A} e.

Definition bind {A B : Type} (m : result A) (k : A -> result B) : result B :=
  match m with
  | Ok a => k a
  | Raise e => Raise e
  end.

Declare Scope result_scope.
Delimit Scope result_scope with result.
Notation "x <- m ;; k" := (bind m (fun x => k))
  (at level 61, m at next level, right associativity) : result_scope.
Open Scope result_scope.

(** A list comprehension [[f(x) for x in items]]: elements in order, the
    first exception ends it. *)
Fixpoint mapM {A B : Type} (f : A -> result B) (items : list A) : result (list B) :=
  match items with
  | [] => Ok []
  | x :: rest =>
      y <- f x ;;
      ys <- mapM f rest ;;
      Ok (y :: ys)
  end.

(** Python's short-circuit [a and b] on two tests that may raise. *)
Definition and_then (a b : result bool) : result bool :=
  x <- a ;; if x then b else Ok false.

(** ** Dicts *)

Definition dict : Type := list (string * value).

Fixpoint dict_get (k : string) (d : dict) : option value :=
  match d with
  | [] => None
  | (k', v) :: rest => if String.eqb k k' then Some v else dict_get k rest
  end.

Definition dict_has (k : string) (d : dict) : bool :=
  match dict_get k d with
  | Some _ => true
  | None => false
  end.

(** [d[k] = v]: overwrite in place, or append as the newest key. *)
Fixpoint dict_set (k : string) (v : value) (d : dict) : dict :=
  match d with
  | [] => [(k, v)]
  | (k', v') :: rest =>
      if String.eqb k k' then (k', v) :: rest else (k', v') :: dict_set k v rest
  end.

(** ** The Python operations the scripts use *)

Definition is_none (v : value) : bool :=
  match v with
  | VNone => true
  | _ => false
  end.

Definition is_substring (k s : string) : bool :=
  match String.index 0 k s with
  | Some _ => true
  | None => false
  end.

Definition value_is_str (k : string) (v : value) : bool :=
  match v with
  | VStr s => String.eqb k s
  | _ => false
  end.

(** ['k' in v] *)
Definition py_contains (k : string) (v : value) : result bool :=
  match v with
  | VDict d => Ok (dict_has k d)
  | VList l => Ok (existsb (value_is_str k) l)
  | VStr s => Ok (is_substring k s)
  | VNone | VBool _ | VInt _ | VFloat _ _ => Raise TypeError
  end.

(** [v['k']] *)
Definition py_getitem (v : value) (k : string) : result value :=
  match v with
  | VDict d =>
      match dict_get k d with
      | Some x => Ok x
      | None => Raise (KeyError (VStr k))
      end
  | _ => Raise TypeError
  end.

(** [v[0]] *)
Definition py_first (v : value) : result value :=
  match v with
  | VList (x :: _) => Ok x
  | VList [] => Raise IndexError
  | VStr (String c _) => Ok (VStr (String c EmptyString))
  | VStr EmptyString => Raise IndexError
  | VDict _ => Raise (KeyError (VInt 0))
  | VNone | VBool _ | VInt _ | VFloat _ _ => Raise TypeError
  end.

(** [v.get('k', default)] *)
Definition py_get (v : value) (k : string) (default : value) : result value :=
  match v with
  | VDict d =>
      match dict_get k d with
      | Some x => Ok x
      | None => Ok default
      end
  | _ => Raise AttributeError
  end.

(** The elements a [for] loop or a comprehension draws from [v]. *)
Definition py_iter (v : value) : result (list value) :=
  match v with
  | VList l => Ok l
  | VDict d => Ok (map (fun kv => VStr (fst kv)) d)
  | VStr s => Ok (map (fun c => VStr (String c EmptyString)) (list_ascii_of_string s))
  | VNone | VBool _ | VInt _ | VFloat _ _ => Raise TypeError
  end.

(** Nesting depth of a value: the recursion depth a parser needs on it. *)
Fixpoint height (v : value) : nat :=
  match v with
  | VList l => S (list_max (map height l))
  | VDict d => S (list_max (map (fun kv => height (snd kv)) d))
  | _ => 0
  end.

(** ** meritBadge.py: class Requirement *)

Module Requirement.

(** An instance.  A slot of [requirements] holds [None] where the parser
    appended Python's [None] for a child it rejected.  Instances are made
    by the parser alone, one fresh object per record, so no object sits
    at two places of a tree and a sequence of objects is given by value. *)
Inductive t : Type := mk {
  rqmt_idnf : value;
  rqmt_desc : value;
  requirements : list (option t);
  parent_rqmt_id : value;
  badge_id : value;
  rqmt_id : value
}.

Definition __init__ (rqmt_idnf rqmt_desc : value) (requirements : list (option t)) : t :=
  mk rqmt_idnf rqmt_desc requirements VNone VNone VNone.

(** The body of the class method; [cls_convert] is the method itself as
    the comprehension calls it on every nested record. *)
Definition convert_body (cls_convert : value -> result (option t)) (dictionary : value)
  : result (option t) :=
  required <- and_then (py_contains "rqmt_idnf" dictionary)
                       (py_contains "rqmt_desc" dictionary) ;;
  if required : bool then
    nested <- and_then (py_contains "requirements" dictionary)
                       (x <- py_getitem dictionary "requirements" ;;
                        Ok (negb (is_none x))) ;;
    requirements <-
      (if nested : bool then
         source <- py_get dictionary "requirements" (VList []) ;;
         items <- py_iter source ;;
         mapM cls_convert items
       else Ok []) ;;
    idnf <- py_getitem dictionary "rqmt_idnf" ;;
    desc <- py_getitem dictionary "rqmt_desc" ;;
    Ok (Some (__init__ idnf desc requirements))
  else Ok None.

(** The recursion, with the number of stack frames still available made
    explicit. *)
Fixpoint convert_requirement_from_json_rec (frames : nat) (dictionary : value)
  : result (option t) :=
  match frames with
  | 0 => Raise RecursionError
  | S frames => convert_body (convert_requirement_from_json_rec frames) dictionary
  end.

(** The class method.  The interpreter's frame limit is idealised away:
    one frame per nesting level of the input is granted, which is always
    enough ([convert_requirement_from_json_unfold] below). *)
Definition convert_requirement_from_json (dictionary : value) : result (option t) :=
  convert_requirement_from_json_rec (S (height dictionary)) dictionary.

Definition with_badge_id (v : value) (r : t) : t :=
  mk (rqmt_idnf r) (rqmt_desc r) (requirements r) (parent_rqmt_id r) v (rqmt_id r).

Definition with_rqmt_id (v : value) (r : t) : t :=
  mk (rqmt_idnf r) (rqmt_desc r) (requirements r) (parent_rqmt_id r) (badge_id r) v.

(** The children are mutated in place; the parent keeps pointing at them. *)
Definition with_requirements (children : list (option t)) (r : t) : t :=
  mk (rqmt_idnf r) (rqmt_desc r) children (parent_rqmt_id r) (badge_id r) (rqmt_id r).

End Requirement.

(** ** meritBadge.py: class MeritBadge *)

Module MeritBadge.

Record t : Type := mk {
  badge_id : value;
  badge_name : value;
  badge_desc : value;
  eagle_badge : value;
  dpmt_name : value;
  requirements : list (option Requirement.t)
}.

Definition __init__ (badge_name badge_desc eagle_badge dpmt_name : value)
           (requirements : list (option Requirement.t)) : t :=
  mk VNone badge_name badge_desc eagle_badge dpmt_name requirements.

Definition convert_merit_badge_from_json (dictionary : value) : result (option t) :=
  required <- and_then (py_contains "badge_name" dictionary)
             (and_then (py_contains "badge_desc" dictionary)
             (and_then (py_contains "eagle_badge" dictionary)
             (and_then (py_contains "dpmt_name" dictionary)
                       (py_contains "requirements" dictionary)))) ;;
  if required : bool then
    source <- py_get dictionary "requirements" (VList []) ;;
    items <- py_iter source ;;
    requirements <- mapM Requirement.convert_requirement_from_json items ;;
    name <- py_getitem dictionary "badge_name" ;;
    desc <- py_getitem dictionary "badge_desc" ;;
    eagle <- py_getitem dictionary "eagle_badge" ;;
    dpmt <- py_getitem dictionary "dpmt_name" ;;
    Ok (Some (__init__ name desc eagle dpmt requirements))
  else Ok None.

Definition with_badge_id (v : value) (b : t) : t :=
  mk v (badge_name b) (badge_desc b) (eagle_badge b) (dpmt_name b) (requirements b).

Definition with_requirements (roots : list (option Requirement.t)) (b : t) : t :=
  mk (badge_id b) (badge_name b) (badge_desc b) (eagle_badge b) (dpmt_name b) roots.

End MeritBadge.

(** ** Input records as the data files have them *)

(** A requirement record: an object whose "requirements" entry, when
    there is one, is null or a list of requirement records. *)
Fixpoint requirement_record (v : value) : bool :=
  match v with
  | VDict d =>
      (fix fields (d : dict) : bool :=
         match d with
         | [] => true
         | (k, x) :: rest =>
             (if String.eqb "requirements" k then
                match x with
                | VNone => true
                | VList l => forallb requirement_record l
                | _ => false
                end
              else true) && fields rest
         end) d
  | _ => false
  end.

Definition badge_keys : list string :=
  ["badge_name"; "badge_desc"; "eagle_badge"; "dpmt_name"; "requirements"].

(** ** The world the scripts run in *)

(** A request to the table-oriented backend, as the scripts build it. *)
Inductive call : Type :=
| Insert (table : string) (row : dict)
    (* supabase.table(table).insert(row).execute() *)
| SelectMaybeSingle (table column ilike_column pattern : string).
    (* sb.table(table).select(column).ilike(ilike_column, pattern)
         .maybe_single().execute() *)

(** What [execute()] does: it raises, or returns [None] (as [maybe_single]
    does on zero rows), or returns a response whose [.data] is a value. *)
Inductive response : Type :=
| Raises (e : exn)
| Returns (r : option value).

Inductive err_line : Type :=
| API_ERROR_DETECTED (message : string)
| GENERAL_ERROR_DETECTED (e : exn).

Inductive out_line : Type :=
| PrintValue (v : value)
| PrintGroups (groups : list (string * list MeritBadge.t))
| PrintRequirement (indent : string) (rqmt_idnf rqmt_desc : value).

(** What the two [except] clauses print for an exception. *)
Definition error_line (e : exn) : err_line :=
  match e with
  | APIError message => API_ERROR_DETECTED message
  | _ => GENERAL_ERROR_DETECTED e
  end.

Section Scripts.

(** The backend: a state and its reaction to each request. *)
Variable St : Type.
Variable execute : call -> St -> response * St.

(** The file system as [json.load(open(file))] sees it, and [str.upper]. *)
Variable load : string -> result value.
Variable upper : string -> string.

Record World : Type := mkWorld {
  backend : St;
  remote_calls : list (call * response);
  stdout : list out_line;
  stderr : list err_line;
  files_read : list string;
  count : nat;
  assignments : list (string * value)
}.

(** Computations that may raise, and computations that cannot. *)
Definition M (A : Type) : Type := World -> result A * World.
Definition T (A : Type) : Type := World -> A * World.

Definition ret {A : Type} (a : A) : M A := fun w => (Ok a, w).

Definition bindM {A B : Type} (m : M A) (k : A -> M B) : M B :=
  fun w =>
    match m w with
    | (Ok a, w') => k a w'
    | (Raise e, w') => (Raise e, w')
    end.

Definition lift {A : Type} (r : result A) : M A := fun w => (r, w).

Definition run {A : Type} (t : T A) : M A :=
  fun w => let (a, w') := t w in (Ok a, w').

Notation "x <~ m ;; k" := (bindM m (fun x => k))
  (at level 61, m at next level, right associativity).

(** [try: body  except APIError: ...  except Exception: ...] where the
    handlers only print: whatever [body] raises ends in [handler]. *)
Definition try_except {A : Type} (body : M A) (handler : exn -> T A) : T A :=
  fun w =>
    match body w with
    | (Ok a, w') => (a, w')
    | (Raise e, w') => handler e w'
    end.

(** A [for] loop over a list of objects whose body cannot raise. *)
Definition for_each {X : Type} (body : X -> T X) : list X -> T (list X) :=
  fix loop (items : list X) (w : World) : list X * World :=
    match items with
    | [] => ([], w)
    | x :: rest =>
        let (x', w1) := body x w in
        let (rest', w2) := loop rest w1 in
        (x' :: rest', w2)
    end.

(** The world once request [c] has been answered by [r]. *)
Definition record_call (c : call) (r : response) (st : St) (w : World) : World :=
  mkWorld st (remote_calls w ++ [(c, r)]) (stdout w) (stderr w)
          (files_read w) (count w) (assignments w).

Definition remote (c : call) : M (option value) :=
  fun w =>
    let (r, st) := execute c (backend w) in
    match r with
    | Raises e => (Raise e, record_call c r st w)
    | Returns x => (Ok x, record_call c r st w)
    end.

(** [execute().data] *)
Definition response_data (r : option value) : result value :=
  match r with
  | Some data => Ok data
  | None => Raise AttributeError
  end.

Definition print (line : out_line) (w : World) : World :=
  mkWorld (backend w) (remote_calls w) (stdout w ++ [line]) (stderr w)
          (files_read w) (count w) (assignments w).

Definition print_err (line : err_line) (w : World) : World :=
  mkWorld (backend w) (remote_calls w) (stdout w) (stderr w ++ [line])
          (files_read w) (count w) (assignments w).

Definition open_file (file : string) (w : World) : World :=
  mkWorld (backend w) (remote_calls w) (stdout w) (stderr w)
          (files_read w ++ [file]) (count w) (assignments w).

Definition count_up (w : World) : World :=
  mkWorld (backend w) (remote_calls w) (stdout w) (stderr w)
          (files_read w) (S (count w)) (assignments w).

(** [object.attr = v]: the statement is noted as executed; the object it
    changes is returned by the code around it. *)
Definition noted (attr : string) (v : value) (w : World) : World :=
  mkWorld (backend w) (remote_calls w) (stdout w) (stderr w)
          (files_read w) (count w) (assignments w ++ [(attr, v)]).

Definition assign (attr : string) (v : value) : M unit :=
  fun w => (Ok tt, noted attr v w).

(** The two [except] clauses every [try] of the scripts ends with. *)
Definition report (e : exn) (w : World) : World := print_err (error_line e) w.

(** ** merit-badge-initializer.py: the seeding procedures *)

(** Lines 60-63: the row of one requirement. *)
Definition new_requirement (badge_id : value) (requirement : Requirement.t)
           (parent_rqmt_id : value) : dict :=
  let row := [("badge_id", badge_id);
              ("rqmt_desc", Requirement.rqmt_desc requirement);
              ("rqmt_idnf", Requirement.rqmt_idnf requirement)] in
  if is_none parent_rqmt_id then row
  else dict_set "parent_rqmt_id" parent_rqmt_id row.

(** One turn of a loop over a children sequence: on a [None] slot the
    first attribute access of the [try] body raises and the handler
    reports it; an object is handed to [visit]. *)
Definition on_slot (visit : Requirement.t -> T Requirement.t)
           (slot : option Requirement.t) : T (option Requirement.t) :=
  match slot with
  | None => fun w => (None, report AttributeError w)
  | Some requirement => fun w => let (r, w') := visit requirement w in (Some r, w')
  end.

(** Lines 58-74: the [try] statement of
    [insert_merit_badge_requirements_recursively] on one object.  Line 59
    changes the object before anything can raise, so [assigned] is the
    object as the handlers find it; the children are handed to the
    recursive call only after the id of line 66 has been read. *)
Fixpoint insert_requirement (badge_id parent_rqmt_id : value)
         (requirement : Requirement.t) {struct requirement} : T Requirement.t :=
  let assigned := Requirement.with_badge_id badge_id requirement in
  try_except
    (_ <~ assign "badge_id" badge_id ;;
     data <~ (r <~ remote (Insert "merit_badge_rqmt"
                             (new_requirement badge_id requirement parent_rqmt_id)) ;;
              lift (response_data r)) ;;
     if is_none data then ret assigned
     else
       rqmt_id <~ lift (first <- py_first data ;; py_getitem first "rqmt_id") ;;
       _ <~ assign "rqmt_id" rqmt_id ;;
       let inserted := Requirement.with_rqmt_id rqmt_id assigned in
       if Nat.ltb 0 (List.length (Requirement.requirements requirement)) then
         children <~ run (for_each (on_slot (insert_requirement badge_id rqmt_id))
                                   (Requirement.requirements requirement)) ;;
         ret (Requirement.with_requirements children inserted)
       else ret inserted)
    (fun e w => (assigned, report e w)).

Definition insert_merit_badge_requirements_recursively (badge_id : value)
           (requirements : list (option Requirement.t)) (parent_rqmt_id : value)
  : T (list (option Requirement.t)) :=
  for_each (on_slot (insert_requirement badge_id parent_rqmt_id)) requirements.

(** Line 41: the row of one badge. *)
Definition new_merit_badge (merit_badge : MeritBadge.t) (dpmt_id : value) : dict :=
  [("badge_name", MeritBadge.badge_name merit_badge);
   ("badge_desc", MeritBadge.badge_desc merit_badge);
   ("eagle_badge", MeritBadge.eagle_badge merit_badge);
   ("dpmt_id", dpmt_id)].

(** Lines 40-53: the [try] statement of [add_merit_badges_by_dpmt] on one
    badge. *)
Definition insert_merit_badge (dpmt_id : value) (merit_badge : MeritBadge.t)
  : T MeritBadge.t :=
  try_except
    (data <~ (r <~ remote (Insert "merit_badge" (new_merit_badge merit_badge dpmt_id)) ;;
              lift (response_data r)) ;;
     if is_none data then ret merit_badge
     else
       merit_badge_id <~ lift (first <- py_first data ;; py_getitem first "badge_id") ;;
       _ <~ assign "badge_id" merit_badge_id ;;
       let inserted := MeritBadge.with_badge_id merit_badge_id merit_badge in
       roots <~ run (insert_merit_badge_requirements_recursively
                       merit_badge_id (MeritBadge.requirements merit_badge) VNone) ;;
       ret (MeritBadge.with_requirements roots inserted))
    (fun e w => (merit_badge, report e w)).

(** Lines 31-35: the department lookup, outside every [try]. *)
Definition resolve_dpmt_id (department : string) : M value :=
  r <~ remote (SelectMaybeSingle "camp_dpmt" "dpmt_id" "dpmt_name" department) ;;
  data <~ lift (response_data r) ;;
  lift (py_getitem data "dpmt_id").

(** Lines 29-53.  The dict is walked entry by entry, which is what
    iterating [.keys()] and subscripting with each key does.  Besides the
    outcome, the dict with its badges as the run left them is returned.
    The lookup goes through the parameter [sb] and the inserts through the
    module's own client; the one call site, line 126, passes that client,
    so both are the one backend of the world. *)
Fixpoint add_merit_badges_by_dpmt
         (departments_with_merit_badges : list (string * list MeritBadge.t))
         (w : World)
  : (result unit * list (string * list MeritBadge.t)) * World :=
  match departments_with_merit_badges with
  | [] => ((Ok tt, []), w)
  | (department, merit_badges) :: rest =>
      match resolve_dpmt_id department w with
      | (Raise e, w1) => ((Raise e, departments_with_merit_badges), w1)
      | (Ok dpmt_id, w1) =>
          let w2 := print (PrintValue dpmt_id) w1 in
          let (inserted, w3) := for_each (insert_merit_badge dpmt_id) merit_badges w2 in
          let '((outcome, rest'), w4) := add_merit_badges_by_dpmt rest w3 in
          ((outcome, (department, inserted) :: rest'), w4)
      end
  end.

(** ** merit-badge-initializer.py: the top-level flow *)

(** A [for] loop whose body may raise: the first exception ends it. *)
Definition for_M {X : Type} (body : X -> M unit) : list X -> M unit :=
  fix loop (items : list X) : M unit :=
    match items with
    | [] => ret tt
    | x :: rest => _ <~ body x ;; loop rest
    end.

Definition say (line : out_line) : M unit := fun w => (Ok tt, print line w).

Definition tab : string := String (ascii_of_nat 9) EmptyString.

(** Lines 21-26 on one slot of the sequence: reading an attribute of
    [None] raises, and nothing here catches it. *)
Definition on_slot_M (visit : Requirement.t -> M unit) (slot : option Requirement.t)
  : M unit :=
  match slot with
  | None => lift (Raise AttributeError)
  | Some requirement => visit requirement
  end.

Fixpoint print_requirement (indent : string) (requirement : Requirement.t)
         {struct requirement} : M unit :=
  _ <~ say (PrintRequirement indent (Requirement.rqmt_idnf requirement)
                             (Requirement.rqmt_desc requirement)) ;;
  _ <~ (fun w => (Ok tt, count_up w)) ;;
  if Nat.ltb 0 (List.length (Requirement.requirements requirement)) then
    for_M (on_slot_M (print_requirement (indent ++ tab)%string))
          (Requirement.requirements requirement)
  else ret tt.

Definition print_all_requirements (requirements : list (option Requirement.t))
           (indent : string) : M unit :=
  for_M (on_slot_M (print_requirement indent)) requirements.

(** [groups.setdefault(key, []).append(merit_badge)] *)
Fixpoint setdefault_append (key : string) (merit_badge : MeritBadge.t)
         (groups : list (string * list MeritBadge.t))
  : list (string * list MeritBadge.t) :=
  match groups with
  | [] => [(key, [merit_badge])]
  | (k, members) :: rest =>
      if String.eqb key k then (k, (members ++ [merit_badge])%list) :: rest
      else (k, members) :: setdefault_append key merit_badge rest
  end.

(** [v.upper()] *)
Definition py_upper (v : value) : result string :=
  match v with
  | VStr s => Ok (upper s)
  | _ => Raise AttributeError
  end.

(** Lines 107-112. *)
Fixpoint load_merit_badges (merit_badge_files : list (string * string))
         (departments_with_merit_badges_out : list (string * list MeritBadge.t))
  : M (list (string * list MeritBadge.t)) :=
  match merit_badge_files with
  | [] => ret departments_with_merit_badges_out
  | (department, file) :: rest =>
      _ <~ (fun w => (Ok tt, open_file file w)) ;;
      data <~ lift (load file) ;;
      merit_badge <~ lift (MeritBadge.convert_merit_badge_from_json data) ;;
      match merit_badge with
      | Some badge =>
          key <~ lift (py_upper (MeritBadge.dpmt_name badge)) ;;
          load_merit_badges rest
            (setdefault_append key badge departments_with_merit_badges_out)
      | None => load_merit_badges rest departments_with_merit_badges_out
      end
  end.

(** Lines 120-125 on one badge. *)
Definition print_merit_badge (merit_badge : MeritBadge.t) : M unit :=
  _ <~ say (PrintValue (MeritBadge.badge_name merit_badge)) ;;
  _ <~ say (PrintValue (MeritBadge.badge_desc merit_badge)) ;;
  _ <~ say (PrintValue (MeritBadge.eagle_badge merit_badge)) ;;
  _ <~ say (PrintValue (MeritBadge.dpmt_name merit_badge)) ;;
  print_all_requirements (MeritBadge.requirements merit_badge) tab.

(** Lines 104-126.  The last line of the script, the call of
    [add_merit_badges_by_dpmt], is a comment in the source and so has no
    counterpart here. *)
Definition merit_badge_initializer (merit_badge_files : list (string * string)) : M unit :=
  departments_with_merit_badges_out <~ load_merit_badges merit_badge_files [] ;;
  _ <~ say (PrintGroups departments_with_merit_badges_out) ;;
  for_M (fun group => for_M print_merit_badge (snd group))
        departments_with_merit_badges_out.

(** ** department-initializer.py *)

(** Lines 29-33: [departments.extend(data)] for every file. *)
Fixpoint load_departments (department_files : list string) (departments : list value)
  : M (list value) :=
  match department_files with
  | [] => ret departments
  | file :: rest =>
      _ <~ (fun w => (Ok tt, open_file file w)) ;;
      data <~ lift (load file) ;;
      items <~ lift (py_iter data) ;;
      load_departments rest (departments ++ items)%list
  end.

(** Lines 36-42: the [try] statement on one entry. *)
Definition insert_department (department : value) : T unit :=
  try_except
    (name <~ lift (py_getitem department "dpmt_name") ;;
     r <~ remote (Insert "camp_dpmt" [("dpmt_name", name)]) ;;
     data <~ lift (response_data r) ;;
     say (PrintValue data))
    (fun e w => (tt, report e w)).

(** Lines 35-42. *)
Fixpoint seed_departments (departments : list value) : T unit :=
  match departments with
  | [] => fun w => (tt, w)
  | department :: rest =>
      fun w => let (_, w1) := insert_department department w in seed_departments rest w1
  end.

Definition department_initializer (department_files : list string) : M unit :=
  departments <~ load_departments department_files [] ;;
  run (seed_departments departments).

End Scripts.

Arguments ret {St A} a _.
Arguments lift {St A} r _.

(** ** Two backends to run the procedures on *)

(** Answers read off a script, one per request; a success without data
    once the script is used up. *)
Definition scripted (c : call) (script : list response) : response * list response :=
  match script with
  | r :: rest => (r, rest)
  | [] => (Returns (Some VNone), [])
  end.

(** The row a successful insert hands back under [.data]. *)
Definition generated (key : string) (id : Z) : response :=
  Returns (Some (VList [VDict [(key, VInt id)]])).

Definition no_files (file : string) : result value :=
  Raise (OtherException "No such file or directory").

Definition fresh_world (script : list response) : World (list response) :=
  mkWorld script [] [] [] [] 0 [].

(** ** Reading a run *)

(** What the lines after an insert make of its answer: the id generated
    under [key], nothing when [.data] is [None], or the exception that
    ends the [try] body. *)
Definition generated_id (key : string) (r : response) : result (option value) :=
  match r with
  | Raises e => Raise e
  | Returns x =>
      data <- response_data x ;;
      if is_none data then Ok None
      else
        first <- py_first data ;;
        id <- py_getitem first key ;;
        Ok (Some id)
  end.

(** The insert succeeded and handed back a generated id. *)
Definition returns_id (key : string) (r : response) : bool :=
  match generated_id key r with
  | Ok (Some id) => negb (is_none id)
  | _ => false
  end.

(** The rows the specification asks for: badge id, identifier code and
    description, and the parent id only under a parent, where it is the
    id captured on the parent node. *)
Definition linked_row (badge_id : value) (parent : option value)
           (node : Requirement.t) : dict :=
  ([("badge_id", badge_id);
    ("rqmt_desc", Requirement.rqmt_desc node);
    ("rqmt_idnf", Requirement.rqmt_idnf node)]
   ++ match parent with
      | Some id => [("parent_rqmt_id", id)]
      | None => []
      end)%list.

Fixpoint linked_rows (badge_id : value) (parent : option value)
         (node : Requirement.t) {struct node} : list dict :=
  linked_row badge_id parent node
  :: flat_map (fun slot =>
                 match slot with
                 | Some child =>
                     linked_rows badge_id (Some (Requirement.rqmt_id node)) child
                 | None => []
                 end)
              (Requirement.requirements node).

Definition slot_rows (badge_id : value) (parent : option value)
           (slot : option Requirement.t) : list dict :=
  match slot with
  | Some node => linked_rows badge_id parent node
  | None => []
  end.

(** The parent a call of the walk stands under. *)
Definition parent_of (parent_rqmt_id : value) : option value :=
  if is_none parent_rqmt_id then None else Some parent_rqmt_id.

(** A walk that went through, read against its input.  [linked badge_id
    parent requirements new out] holds when [new] is the record of
    requests and answers of a walk over [requirements] under [parent] in
    which every insert handed back an id, and [out] is the sequence the
    walk leaves.  A [None] slot sends nothing.  An object sends one row,
    made of the badge id, its own identifier code and description, and
    the parent id only under a parent; the id read from the answer to
    that row is the id captured on the object and the parent id of the
    rows of its children, which follow at once, ahead of the rows of the
    object's later siblings. *)
Inductive linked (badge_id : value)
  : option value -> list (option Requirement.t) -> list (call * response)
    -> list (option Requirement.t) -> Prop :=
| linked_nil (parent : option value) : linked badge_id parent [] [] []
| linked_hole (parent : option value) (rest : list (option Requirement.t))
              (new : list (call * response)) (rest' : list (option Requirement.t)) :
    linked badge_id parent rest new rest' ->
    linked badge_id parent (None :: rest) new (None :: rest')
| linked_node (parent : option value) (node : Requirement.t) (r : response)
              (rqmt_id : value) (below : list (call * response))
              (children rest : list (option Requirement.t))
              (after : list (call * response)) (rest' : list (option Requirement.t)) :
    generated_id "rqmt_id" r = Ok (Some rqmt_id) ->
    is_none rqmt_id = false ->
    linked badge_id (Some rqmt_id) (Requirement.requirements node) below children ->
    linked badge_id parent rest after rest' ->
    linked badge_id parent (Some node :: rest)
           ((Insert "merit_badge_rqmt" (linked_row badge_id parent node), r)
              :: below ++ after)
           (Some (Requirement.with_requirements children
                    (Requirement.with_rqmt_id rqmt_id
                       (Requirement.with_badge_id badge_id node))) :: rest').

(** A department entry's name, when it is a record that has one. *)
Definition entry_name (department : value) : option value :=
  match department with
  | VDict d => dict_get "dpmt_name" d
  | _ => None
  end.

(** What line 38 makes of the answer to a department insert. *)
Definition department_answer (r : response) : result value :=
  match r with
  | Raises e => Raise e
  | Returns x => response_data x
  end.

Definition failure_lines (r : result value) : list err_line :=
  match r with
  | Raise e => [error_line e]
  | Ok _ => []
  end.

(** What the walk adds to the record of requests, node by node. *)
Section RunRecords.

Variable St : Type.
Variable execute : call -> St -> response * St.

Definition all_return_ids (new : list (call * response)) : bool :=
  forallb (fun cr => returns_id "rqmt_id" (snd cr)) new.

Definition node_trace (node : Requirement.t) : Prop :=
  forall badge_id parent_rqmt_id w,
  exists r rest,
    remote_calls (snd (insert_requirement execute badge_id parent_rqmt_id node w)) =
    remote_calls w
    ++ (Insert "merit_badge_rqmt" (new_requirement badge_id node parent_rqmt_id), r)
       :: rest
    /\ (all_return_ids
          ((Insert "merit_badge_rqmt" (new_requirement badge_id node parent_rqmt_id), r)
             :: rest) = true ->
        Insert "merit_badge_rqmt" (new_requirement badge_id node parent_rqmt_id)
        :: map fst rest =
        map (Insert "merit_badge_rqmt")
            (linked_rows badge_id (parent_of parent_rqmt_id)
               (fst (insert_requirement execute badge_id parent_rqmt_id node w)))).

Definition slots_trace (l : list (option Requirement.t)) : Prop :=
  forall badge_id parent_rqmt_id w,
  exists new,
    remote_calls
      (snd (insert_merit_badge_requirements_recursively
              execute badge_id l parent_rqmt_id w)) = remote_calls w ++ new
    /\ (all_return_ids new = true ->
        map fst new =
        map (Insert "merit_badge_rqmt")
            (flat_map (slot_rows badge_id (parent_of parent_rqmt_id))
               (fst (insert_merit_badge_requirements_recursively
                       execute badge_id l parent_rqmt_id w))))
    /\ (forall node, In (Some node) l ->
        In (Insert "merit_badge_rqmt" (new_requirement badge_id node parent_rqmt_id))
           (map fst new)).

(** The same record read against the input of the walk. *)
Definition node_linked (node : Requirement.t) : Prop :=
  forall badge_id parent_rqmt_id w,
  exists r below,
    remote_calls (snd (insert_requirement execute badge_id parent_rqmt_id node w)) =
    remote_calls w
    ++ (Insert "merit_badge_rqmt" (new_requirement badge_id node parent_rqmt_id), r)
       :: below
    /\ (all_return_ids
          ((Insert "merit_badge_rqmt" (new_requirement badge_id node parent_rqmt_id), r)
             :: below) = true ->
        exists rqmt_id children,
          generated_id "rqmt_id" r = Ok (Some rqmt_id)
          /\ is_none rqmt_id = false
          /\ linked badge_id (Some rqmt_id) (Requirement.requirements node) below children
          /\ fst (insert_requirement execute badge_id parent_rqmt_id node w) =
             Requirement.with_requirements children
               (Requirement.with_rqmt_id rqmt_id
                  (Requirement.with_badge_id badge_id node))).

Definition slots_linked (l : list (option Requirement.t)) : Prop :=
  forall badge_id parent_rqmt_id w,
  exists new,
    remote_calls
      (snd (insert_merit_badge_requirements_recursively
              execute badge_id l parent_rqmt_id w)) = remote_calls w ++ new
    /\ (all_return_ids new = true ->
        linked badge_id (parent_of parent_rqmt_id) l new
               (fst (insert_merit_badge_requirements_recursively
                       execute badge_id l parent_rqmt_id w))).

(** The attribute assignments the walk adds to the record: only badge_id
    and rqmt_id are ever written. *)
Definition walk_attr (a : string * value) : Prop :=
  fst a = "badge_id" \/ fst a = "rqmt_id".

Definition node_assigns (node : Requirement.t) : Prop :=
  forall badge_id parent_rqmt_id w,
  exists new,
    assignments (snd (insert_requirement execute badge_id parent_rqmt_id node w)) =
    assignments w ++ new
    /\ Forall walk_attr new.

Definition slots_assign (l : list (option Requirement.t)) : Prop :=
  forall badge_id parent_rqmt_id w,
  exists new,
    assignments
      (snd (insert_merit_badge_requirements_recursively
              execute badge_id l parent_rqmt_id w)) = assignments w ++ new
    /\ Forall walk_attr new.

End RunRecords.

(** Nothing reached the backend, nothing went to the error stream and no
    attribute of an object was assigned. *)
Definition untouched (St : Type) (w w' : World St) : Prop :=
  backend w' = backend w
  /\ remote_calls w' = remote_calls w
  /\ stderr w' = stderr w
  /\ assignments w' = assignments w.

Definition offline (St A : Type) (m : M St A) : Prop :=
  forall w, untouched w (snd (m w)).

(** Induction over a requirement tree, children first. *)
Section RequirementInduction.

Variable P : Requirement.t -> Prop.

Definition on_children (l : list (option Requirement.t)) : Prop :=
  Forall (fun slot => match slot with Some child => P child | None => True end) l.

Hypothesis step : forall node, on_children (Requirement.requirements node) -> P node.

Fixpoint requirement_ind (node : Requirement.t) : P node :=
  step node
       ((fix slots (l : list (option Requirement.t)) : on_children l :=
           match l with
           | [] => Forall_nil _
           | slot :: rest =>
               Forall_cons slot
                 (match slot return match slot with Some c => P c | None => True end with
                  | Some child => requirement_ind child
                  | None => I
                  end)
                 (slots rest)
           end) (Requirement.requirements node)).

End RequirementInduction.

(** ** Sample objects *)

Definition leaf (idnf desc : string) : Requirement.t :=
  Requirement.__init__ (VStr idnf) (VStr desc) [].

(** A three-level tree with a rejected child in it. *)
Definition first_aid_tree : list (option Requirement.t) :=
  [Some (Requirement.__init__ (VStr "1") (VStr "Show first aid")
           [Some (Requirement.__init__ (VStr "1a") (VStr "For cuts")
                    [Some (leaf "1a1" "Clean the wound")]);
            None]);
   Some (leaf "2" "Explain heat reactions")].

Definition first_aid_badge : MeritBadge.t :=
  MeritBadge.__init__ (VStr "First Aid") (VStr "Care for the injured") (VBool true)
                      (VStr "Health") first_aid_tree.

Definition swimming_badge : MeritBadge.t :=
  MeritBadge.__init__ (VStr "Swimming") (VStr "Be safe in the water") (VBool true)
                      (VStr "Aquatics") [Some (leaf "1" "Swim 150 yards")].

(** Answers of a backend that accepts four requirement rows. *)
Definition first_aid_answers : list response :=
  [generated "rqmt_id" 101; generated "rqmt_id" 102;
   generated "rqmt_id" 103; generated "rqmt_id" 104].

(** A parent with one child, its first insert refused by the backend. *)
Definition refusal : list response :=
  [Raises (APIError "new row violates row-level security policy");
   generated "rqmt_id" 102].

Definition camp_departments : list value :=
  [VDict [("dpmt_name", VStr "Camping")]; VDict [("dpmt_name", VStr "Aquatics")]].

Definition seeded_groups : list (string * list MeritBadge.t) :=
  [("HEALTH", [first_aid_badge]); ("AQUATICS", [swimming_badge])].

(** ** Sample records *)

Definition leaf_record (idnf desc : string) : value :=
  VDict [("rqmt_idnf", VStr idnf); ("rqmt_desc", VStr desc)].

(** A requirement record whose second child lacks its description. *)
Definition knots_record : dict :=
  [("rqmt_idnf", VStr "2");
   ("rqmt_desc", VStr "Tie the following knots");
   ("requirements", VList [leaf_record "2a" "Square knot";
                           VDict [("rqmt_idnf", VStr "2b")];
                           leaf_record "2c" "Bowline"])].

Definition camping_record (requirements : value) : dict :=
  [("badge_name", VStr "Camping");
   ("badge_desc", VStr "Outdoor skills");
   ("eagle_badge", VBool true);
   ("dpmt_name", VStr "Outdoor");
   ("requirements", requirements)].

(** ** Shapes of requirement trees *)

(** The objects of a tree, the [None] slots in it, and whether it has
    none of the latter. *)
Fixpoint objects (node : Requirement.t) : nat :=
  S (list_sum (map (fun slot => match slot with
                                | Some child => objects child
                                | None => 0
                                end)
                   (Requirement.requirements node))).

Definition slot_objects (slot : option Requirement.t) : nat :=
  match slot with
  | Some node => objects node
  | None => 0
  end.

Fixpoint holes (node : Requirement.t) : nat :=
  list_sum (map (fun slot => match slot with
                             | Some child => holes child
                             | None => 1
                             end)
                (Requirement.requirements node)).

Definition slot_holes (slot : option Requirement.t) : nat :=
  match slot with
  | Some node => holes node
  | None => 1
  end.

Fixpoint complete (node : Requirement.t) : bool :=
  forallb (fun slot => match slot with
                       | Some child => complete child
                       | None => false
                       end)
          (Requirement.requirements node).

Definition slot_complete (slot : option Requirement.t) : bool :=
  match slot with
  | Some node => complete node
  | None => false
  end.

(** A tree with the two identifiers the seeder writes put back to [None]:
    what is left is what the parser read. *)
Fixpoint erase (node : Requirement.t) : Requirement.t :=
  Requirement.mk (Requirement.rqmt_idnf node) (Requirement.rqmt_desc node)
                 (map (option_map erase) (Requirement.requirements node))
                 (Requirement.parent_rqmt_id node) VNone VNone.

(** No identifier is set anywhere in the tree. *)
Fixpoint unsaved (node : Requirement.t) : bool :=
  is_none (Requirement.parent_rqmt_id node)
  && is_none (Requirement.badge_id node)
  && is_none (Requirement.rqmt_id node)
  && forallb (fun slot => match slot with
                          | Some child => unsaved child
                          | None => true
                          end)
             (Requirement.requirements node).

Definition slot_unsaved (slot : option Requirement.t) : bool :=
  match slot with
  | Some node => unsaved node
  | None => true
  end.

(** Every object of the tree belongs to badge [badge_id] and has its own
    identifier. *)
Fixpoint saved (badge_id : value) (node : Requirement.t) : Prop :=
  Requirement.badge_id node = badge_id
  /\ is_none (Requirement.rqmt_id node) = false
  /\ (fix all (l : list (option Requirement.t)) : Prop :=
        match l with
        | [] => True
        | slot :: rest =>
            match slot with
            | Some child => saved badge_id child
            | None => True
            end /\ all rest
        end) (Requirement.requirements node).

Definition slot_saved (badge_id : value) (slot : option Requirement.t) : Prop :=
  match slot with
  | Some node => saved badge_id node
  | None => True
  end.

(** ** Records every nested record of which is well formed *)

(** A requirement record that has both of its own fields, as has every
    record nested in it; its "requirements" entry is the one [dict_get]
    finds, and is null or a list. *)
Fixpoint strict_record (v : value) : bool :=
  match v with
  | VDict d =>
      dict_has "rqmt_idnf" d && dict_has "rqmt_desc" d
      && (fix nested (d : dict) : bool :=
            match d with
            | [] => true
            | (k, x) :: rest =>
                if String.eqb "requirements" k then
                  match x with
                  | VNone => true
                  | VList l => forallb strict_record l
                  | _ => false
                  end
                else nested rest
            end) d
  | _ => false
  end.

(** The requirement records of a strict record, itself included. *)
Fixpoint records (v : value) : nat :=
  match v with
  | VDict d =>
      S ((fix nested (d : dict) : nat :=
            match d with
            | [] => 0
            | (k, x) :: rest =>
                if String.eqb "requirements" k then
                  match x with
                  | VList l => list_sum (map records l)
                  | _ => 0
                  end
                else nested rest
            end) d)
  | _ => 0
  end.

(** ** What a walk leaves behind *)

(** A request of the walk for badge [badge_id]: an insert into the
    requirement table of a row that names the badge. *)
Definition targets (badge_id : value) (cr : call * response) : Prop :=
  exists row,
    fst cr = Insert "merit_badge_rqmt" row /\ dict_get "badge_id" row = Some badge_id.

(** The lines the [None] slots of a walked tree cost. *)
Definition hole_lines (n : nat) : list err_line :=
  repeat (GENERAL_ERROR_DETECTED AttributeError) n.

Definition is_object (slot : option Requirement.t) : bool :=
  match slot with
  | Some _ => true
  | None => false
  end.

(** An element of a comprehension is parsed into a whole subtree. *)
Definition mirrors (item : value) (slot : option Requirement.t) : Prop :=
  exists node, slot = Some node /\ complete node = true /\ objects node = records item.

Section WalkProfile.

Variable St : Type.
Variable execute : call -> St -> response * St.

Definition node_profile (node : Requirement.t) : Prop :=
  forall badge_id parent_rqmt_id w,
  exists new errs,
    let run := insert_requirement execute badge_id parent_rqmt_id node w in
    remote_calls (snd run) = remote_calls w ++ new
    /\ stderr (snd run) = stderr w ++ errs
    /\ stdout (snd run) = stdout w
    /\ Forall (targets badge_id) new
    /\ 1 <= List.length new <= objects node
    /\ erase (fst run) = erase node
    /\ (all_return_ids new = true ->
        List.length new = objects node
        /\ errs = hole_lines (holes node)
        /\ saved badge_id (fst run)).

Definition slots_profile (l : list (option Requirement.t)) : Prop :=
  forall badge_id parent_rqmt_id w,
  exists new errs,
    let run := insert_merit_badge_requirements_recursively
                 execute badge_id l parent_rqmt_id w in
    remote_calls (snd run) = remote_calls w ++ new
    /\ stderr (snd run) = stderr w ++ errs
    /\ stdout (snd run) = stdout w
    /\ Forall (targets badge_id) new
    /\ List.length (filter is_object l) <= List.length new
       <= list_sum (map slot_objects l)
    /\ map (option_map erase) (fst run) = map (option_map erase) l
    /\ (all_return_ids new = true ->
        List.length new = list_sum (map slot_objects l)
        /\ errs = hole_lines (list_sum (map slot_holes l))
        /\ Forall (slot_saved badge_id) (fst run)).

End WalkProfile.

(** ** Reading a run of the badge seeder *)

(** A request is an insert into the badge table. *)
Definition badge_request (cr : call * response) : bool :=
  match fst cr with
  | Insert table _ => String.eqb table "merit_badge"
  | SelectMaybeSingle _ _ _ _ => false
  end.

(** What lines 31-35 make of the answer to a department lookup. *)
Definition lookup_answer (r : response) : result value :=
  match r with
  | Raises e => Raise e
  | Returns x =>
      data <- response_data x ;;
      py_getitem data "dpmt_id"
  end.

(** A backend on which every department is found. *)
Definition finds_departments (St : Type) (execute : call -> St -> response * St) : Prop :=
  forall pattern st,
  exists dpmt_id,
    lookup_answer
      (fst (execute (SelectMaybeSingle "camp_dpmt" "dpmt_id" "dpmt_name" pattern) st))
    = Ok dpmt_id.

(** A backend that accepts everything: it numbers the rows it is given
    and finds a department for every name. *)
Definition serial (c : call) (next : Z) : response * Z :=
  match c with
  | Insert _ _ =>
      (Returns (Some (VList [VDict [("badge_id", VInt next); ("rqmt_id", VInt next);
                                    ("dpmt_id", VInt next)]])),
       (next + 1)%Z)
  | SelectMaybeSingle _ _ _ _ =>
      (Returns (Some (VDict [("dpmt_id", VInt next)])), (next + 1)%Z)
  end.

Definition serial_world : World Z := mkWorld 1%Z [] [] [] [] 0 [].

(** ** Reading the console and the groups *)

(** The lines [print_all_requirements] owes for a tree: one per object,
    parents first, a tab deeper at every level. *)
Fixpoint requirement_lines (indent : string) (node : Requirement.t) : list out_line :=
  PrintRequirement indent (Requirement.rqmt_idnf node) (Requirement.rqmt_desc node)
  :: flat_map (fun slot =>
                 match slot with
                 | Some child => requirement_lines (indent ++ tab)%string child
                 | None => []
                 end)
              (Requirement.requirements node).

Definition slot_lines (indent : string) (slot : option Requirement.t) : list out_line :=
  match slot with
  | Some node => requirement_lines indent node
  | None => []
  end.

(** The dict of line 105 is well kept: no department twice, no department
    without a badge, every badge under the upper-cased name of its own
    department. *)
Definition grouped (upper : string -> string)
           (groups : list (string * list MeritBadge.t)) : Prop :=
  NoDup (map fst groups)
  /\ Forall (fun group =>
               snd group <> []
               /\ Forall (fun badge =>
                            exists s, MeritBadge.dpmt_name badge = VStr s
                                      /\ upper s = fst group)
                         (snd group))
            groups.

(** An entry of the department list that cannot be given a row. *)
Definition nameless (department : value) : bool :=
  match entry_name department with
  | Some _ => false
  | None => true
  end.

(** The request, if any, the department seeder makes for an entry. *)
Definition entry_requests (department : value) : list call :=
  match entry_name department with
  | Some name => [Insert "camp_dpmt" [("dpmt_name", name)]]
  | None => []
  end.

(** What loading one department file adds to the list. *)
Definition file_entries (load : string -> result value) (file : string)
  : result (list value) :=
  data <- load file ;; py_iter data.

(** ** Sample files *)

Definition upper_ascii (c : ascii) : ascii :=
  let n := nat_of_ascii c in
  if (Nat.leb 97 n && Nat.leb n 122)%bool then ascii_of_nat (n - 32) else c.

Fixpoint upper_sample (s : string) : string :=
  match s with
  | EmptyString => EmptyString
  | String c rest => String (upper_ascii c) (upper_sample rest)
  end.

(** A shelf of three badge files, the second of them without its
    eagle_badge key, and two department files. *)
Definition shelf (file : string) : result value :=
  if String.eqb file "camping.json" then
    Ok (VDict (camping_record (VList [leaf_record "1" "Pitch a tent"])))
  else if String.eqb file "hiking.json" then
    Ok (VDict [("badge_name", VStr "Hiking"); ("badge_desc", VStr "Walk far");
               ("dpmt_name", VStr "Outdoor"); ("requirements", VList [])])
  else if String.eqb file "cooking.json" then
    Ok (VDict [("badge_name", VStr "Cooking"); ("badge_desc", VStr "Feed a patrol");
               ("eagle_badge", VBool true); ("dpmt_name", VStr "outdoor");
               ("requirements", VList [])])
  else if String.eqb file "east.json" then
    Ok (VList [VDict [("dpmt_name", VStr "Camping")]])
  else if String.eqb file "west.json" then
    Ok (VList [VDict [("dpmt_name", VStr "Aquatics")];
               VDict [("dpmt_name", VStr "Handicraft")]])
  else Raise (OtherException "No such file or directory").

(** The answer to a department insert ends in the [except] clauses. *)
Definition failed (cr : call * response) : bool :=
  match department_answer (snd cr) with
  | Raise _ => true
  | Ok _ => false
  end.

(** ** Well-formed badge files *)

(** What a badge file may hold for the script to get through it: a dict
    which, when it has the five required keys, names its department by a
    string and lists requirement records every nested record of which
    has both of its fields. *)
Definition badge_file (v : value) : bool :=
  match v with
  | VDict d =>
      if forallb (fun k => dict_has k d) badge_keys then
        match dict_get "dpmt_name" d, dict_get "requirements" d with
        | Some (VStr _), Some (VList l) => forallb strict_record l
        | _, _ => false
        end
      else true
  | _ => false
  end.

(** The requirement records of a badge file that is accepted. *)
Definition badge_file_records (v : value) : nat :=
  match v with
  | VDict d =>
      if forallb (fun k => dict_has k d) badge_keys then
        match dict_get "requirements" d with
        | Some (VList l) => list_sum (map records l)
        | _ => 0
        end
      else 0
  | _ => 0
  end.

Definition badge_objects (badge : MeritBadge.t) : nat :=
  list_sum (map slot_objects (MeritBadge.requirements badge)).

Definition badge_complete (badge : MeritBadge.t) : bool :=
  forallb slot_complete (MeritBadge.requirements badge).

(** The objects under all the badges of the dict, and whether all their
    trees are without a null slot. *)
Definition groups_objects (groups : list (string * list MeritBadge.t)) : nat :=
  list_sum (map (fun group => list_sum (map badge_objects (snd group))) groups).

Definition groups_complete (groups : list (string * list MeritBadge.t)) : bool :=
  forallb (fun group => forallb badge_complete (snd group)) groups.

Definition loaded_records (load : string -> result value) (file : string) : nat :=
  match load file with
  | Ok v => badge_file_records v
  | Raise _ => 0
  end.

(** * Properties *)

(** ** The result monad and comprehensions *)

Lemma mapM_ext_in (A B : Type) (f g : A -> result B) (items : list A) :
  (forall x, In x items -> f x = g x) -> mapM f items = mapM g items.
Proof.
  induction items as [|x rest IH]; intros H; simpl.
  - reflexivity.
  - rewrite (H x (or_introl eq_refl)), IH; [reflexivity|].
    intros y Hy. apply H. right. exact Hy.
Qed.

Lemma mapM_length (A B : Type) (f : A -> result B) (items : list A) (ys : list B) :
  mapM f items = Ok ys -> List.length ys = List.length items.
Proof.
  revert ys. induction items as [|x rest IH]; intros ys; simpl.
  - intros H. injection H as <-. reflexivity.
  - destruct (f x) as [y|e]; simpl; [|discriminate].
    destruct (mapM f rest) as [ys'|e]; simpl; [|discriminate].
    intros H. injection H as <-. simpl. f_equal. apply IH. reflexivity.
Qed.

Lemma mapM_nth_error (A B : Type) (f : A -> result B) (items : list A) (ys : list B)
      (i : nat) (x : A) :
  mapM f items = Ok ys -> nth_error items i = Some x ->
  exists y, f x = Ok y /\ nth_error ys i = Some y.
Proof.
  revert ys i. induction items as [|x0 rest IH]; intros ys i; simpl.
  - intros _ H. destruct i; discriminate.
  - destruct (f x0) as [y0|e] eqn:E0; simpl; [|discriminate].
    destruct (mapM f rest) as [ys'|e]; simpl; [|discriminate].
    intros H. injection H as <-. destruct i as [|i]; simpl.
    + intros Hx. injection Hx as <-. exists y0. split; [exact E0 | reflexivity].
    + intros Hx. apply (IH ys' i eq_refl Hx).
Qed.

Lemma mapM_total (A B : Type) (f : A -> result B) (items : list A) :
  (forall x, In x items -> exists y, f x = Ok y) -> exists ys, mapM f items = Ok ys.
Proof.
  induction items as [|x rest IH]; intros H; simpl.
  - exists []. reflexivity.
  - destruct (H x (or_introl eq_refl)) as [y ->].
    destruct IH as [ys ->].
    + intros z Hz. apply H. right. exact Hz.
    + exists (y :: ys). reflexivity.
Qed.

(** ** Nesting depth *)

Lemma list_max_in (n : nat) (l : list nat) : In n l -> n <= list_max l.
Proof.
  induction l as [|m l IH]; simpl; [intros []|].
  intros [->|H]; [lia|]. specialize (IH H). lia.
Qed.

Lemma height_in_list (x : value) (l : list value) : In x l -> height x < height (VList l).
Proof.
  intros H. simpl. apply Nat.lt_succ_r, list_max_in, in_map, H.
Qed.

Lemma height_dict_get (k : string) (d : dict) (x : value) :
  dict_get k d = Some x -> height x < height (VDict d).
Proof.
  intros H. simpl. apply Nat.lt_succ_r, list_max_in.
  induction d as [|[k' v] rest IH]; simpl in *; [discriminate|].
  destruct (String.eqb k k').
  - injection H as ->. left. reflexivity.
  - right. apply IH, H.
Qed.

Lemma height_iter (source : value) (items : list value) (x : value) :
  py_iter source = Ok items -> In x items -> height x <= height source.
Proof.
  destruct source; simpl; try discriminate; intros H; injection H as <-; intros Hx.
  - apply in_map_iff in Hx. destruct Hx as [c [<- _]]. simpl. lia.
  - apply Nat.lt_le_incl. apply height_in_list. exact Hx.
  - apply in_map_iff in Hx. destruct Hx as [kv [<- _]]. simpl. lia.
Qed.

(** ** The Requirement parser *)

(** On a dict the body of the class method comes down to this. *)
Lemma convert_body_dict (f : value -> result (option Requirement.t)) (d : dict) :
  Requirement.convert_body f (VDict d) =
  if dict_has "rqmt_idnf" d && dict_has "rqmt_desc" d then
    requirements <-
      match dict_get "requirements" d with
      | None | Some VNone => Ok []
      | Some source => items <- py_iter source ;; mapM f items
      end ;;
    idnf <- py_getitem (VDict d) "rqmt_idnf" ;;
    desc <- py_getitem (VDict d) "rqmt_desc" ;;
    Ok (Some (Requirement.__init__ idnf desc requirements))
  else Ok None.
Proof.
  unfold Requirement.convert_body, and_then, py_contains, py_get, dict_has. simpl.
  destruct (dict_get "rqmt_idnf" d), (dict_get "rqmt_desc" d); simpl; try reflexivity.
  destruct (dict_get "requirements" d) as [[]|]; reflexivity.
Qed.

Lemma convert_body_ext (f g : value -> result (option Requirement.t)) (v : value) :
  (forall x, height x < height v -> f x = g x) ->
  Requirement.convert_body f v = Requirement.convert_body g v.
Proof.
  intros H. destruct v as [| | | |s|l|d].
  1-4: reflexivity.
  - unfold Requirement.convert_body, and_then. simpl.
    destruct (is_substring "rqmt_idnf" s), (is_substring "rqmt_desc" s),
      (is_substring "requirements" s); reflexivity.
  - unfold Requirement.convert_body, and_then. simpl.
    destruct (existsb (value_is_str "rqmt_idnf") l),
      (existsb (value_is_str "rqmt_desc") l),
      (existsb (value_is_str "requirements") l); reflexivity.
  - rewrite !convert_body_dict.
    destruct (dict_has "rqmt_idnf" d && dict_has "rqmt_desc" d); [|reflexivity].
    destruct (dict_get "requirements" d) as [source|] eqn:E; [|reflexivity].
    assert (Hs : forall items, py_iter source = Ok items -> mapM f items = mapM g items).
    { intros items Hi. apply mapM_ext_in. intros x Hx. apply H.
      apply Nat.le_lt_trans with (height source).
      - eapply height_iter; eassumption.
      - eapply height_dict_get; eassumption. }
    destruct source; try reflexivity;
      (destruct (py_iter _) as [items|e] eqn:Ei; [|reflexivity]);
      simpl; rewrite (Hs items eq_refl); reflexivity.
Qed.

(** Frames beyond the nesting depth of the input change nothing. *)
Lemma convert_rec_frames (n m : nat) (v : value) :
  height v < n -> height v < m ->
  Requirement.convert_requirement_from_json_rec n v =
  Requirement.convert_requirement_from_json_rec m v.
Proof.
  revert m v. induction n as [|n IH]; intros m v Hn Hm; [lia|].
  destruct m as [|m]; [lia|]. simpl.
  apply convert_body_ext. intros x Hx. apply IH; lia.
Qed.

(** The class method satisfies the recursion of the source: its body
    calls the method itself on the nested records. *)
Lemma convert_requirement_from_json_unfold (dictionary : value) :
  Requirement.convert_requirement_from_json dictionary =
  Requirement.convert_body Requirement.convert_requirement_from_json dictionary.
Proof.
  unfold Requirement.convert_requirement_from_json at 1. simpl.
  apply convert_body_ext. intros x Hx. apply convert_rec_frames; lia.
Qed.

Lemma convert_dict_absent (d : dict) :
  dict_has "rqmt_idnf" d = false \/ dict_has "rqmt_desc" d = false ->
  Requirement.convert_requirement_from_json (VDict d) = Ok None.
Proof.
  intros H. rewrite convert_requirement_from_json_unfold, convert_body_dict.
  destruct H as [-> | ->]; [reflexivity|].
  rewrite andb_false_r. reflexivity.
Qed.

Lemma convert_dict_present (d : dict) (idnf desc : value) :
  dict_get "rqmt_idnf" d = Some idnf -> dict_get "rqmt_desc" d = Some desc ->
  Requirement.convert_requirement_from_json (VDict d) =
  (requirements <-
     match dict_get "requirements" d with
     | None | Some VNone => Ok []
     | Some source =>
         items <- py_iter source ;; mapM Requirement.convert_requirement_from_json items
     end ;;
   Ok (Some (Requirement.__init__ idnf desc requirements))).
Proof.
  intros Hi Hd. rewrite convert_requirement_from_json_unfold, convert_body_dict.
  unfold dict_has, py_getitem. rewrite Hi, Hd. reflexivity.
Qed.

Lemma requirement_record_cons (k : string) (x : value) (rest : dict) :
  requirement_record (VDict ((k, x) :: rest)) =
  (if String.eqb "requirements" k then
     match x with
     | VNone => true
     | VList l => forallb requirement_record l
     | _ => false
     end
   else true) && requirement_record (VDict rest).
Proof. reflexivity. Qed.

Lemma requirement_record_get (d : dict) (x : value) :
  requirement_record (VDict d) = true -> dict_get "requirements" d = Some x ->
  x = VNone \/ exists l, x = VList l /\ forallb requirement_record l = true.
Proof.
  induction d as [|[k v] rest IH]; [discriminate|].
  rewrite requirement_record_cons. intros H. apply andb_prop in H. destruct H as [Hk Hrest].
  cbn [dict_get]. destruct (String.eqb "requirements" k).
  - intros E. injection E as <-.
    destruct v; try discriminate; [left; reflexivity | right; eauto].
  - apply IH, Hrest.
Qed.

(** On a requirement record the parser returns: it raises nothing. *)
Lemma requirement_record_parses (n : nat) (v : value) :
  height v < n -> requirement_record v = true ->
  exists o, Requirement.convert_requirement_from_json v = Ok o.
Proof.
  revert v. induction n as [|n IH]; intros v Hn Hv; [lia|].
  destruct v as [| | | | | |d]; try discriminate.
  rewrite convert_requirement_from_json_unfold, convert_body_dict.
  destruct (dict_has "rqmt_idnf" d && dict_has "rqmt_desc" d) eqn:Hreq; [|eauto].
  apply andb_prop in Hreq. unfold dict_has, py_getitem in *.
  destruct (dict_get "rqmt_idnf" d) as [idnf|]; [|destruct Hreq; discriminate].
  destruct (dict_get "rqmt_desc" d) as [desc|]; [|destruct Hreq; discriminate].
  destruct (dict_get "requirements" d) as [source|] eqn:E; [|simpl; eauto].
  destruct (requirement_record_get d Hv E) as [-> | [l [-> Hl]]]; [simpl; eauto|].
  simpl. destruct (@mapM_total _ _ Requirement.convert_requirement_from_json l) as [ys ->].
  - intros x Hx. apply IH.
    + pose proof (height_in_list x l Hx). pose proof (height_dict_get _ _ E). lia.
    + rewrite forallb_forall in Hl. apply Hl, Hx.
  - simpl. eauto.
Qed.

Lemma requirement_records_parse (l : list value) :
  forallb requirement_record l = true ->
  exists ys, mapM Requirement.convert_requirement_from_json l = Ok ys.
Proof.
  intros Hl. apply mapM_total. intros x Hx.
  apply (@requirement_record_parses (S (height x)) x); [lia|].
  rewrite forallb_forall in Hl. apply Hl, Hx.
Qed.

(** ** The MeritBadge parser *)

Lemma convert_merit_badge_dict (d : dict) :
  MeritBadge.convert_merit_badge_from_json (VDict d) =
  if forallb (fun k => dict_has k d) badge_keys then
    source <- py_get (VDict d) "requirements" (VList []) ;;
    items <- py_iter source ;;
    requirements <- mapM Requirement.convert_requirement_from_json items ;;
    name <- py_getitem (VDict d) "badge_name" ;;
    desc <- py_getitem (VDict d) "badge_desc" ;;
    eagle <- py_getitem (VDict d) "eagle_badge" ;;
    dpmt <- py_getitem (VDict d) "dpmt_name" ;;
    Ok (Some (MeritBadge.__init__ name desc eagle dpmt requirements))
  else Ok None.
Proof.
  unfold MeritBadge.convert_merit_badge_from_json, and_then, py_contains, badge_keys.
  simpl. destruct (dict_has "badge_name" d), (dict_has "badge_desc" d),
    (dict_has "eagle_badge" d), (dict_has "dpmt_name" d),
    (dict_has "requirements" d); reflexivity.
Qed.

(** ** Claims about the parsers *)

(** C5: the Requirement parser returns null when the identifier code
    (rqmt_idnf) or the description (rqmt_desc) is absent from the input
    record, and on a record that has both and whose "requirements" key is
    absent or null it returns a node whose children sequence is an empty
    list, of length 0. *)
Theorem C5_requirement_parse_validation (d : dict) :
  (dict_has "rqmt_idnf" d = false \/ dict_has "rqmt_desc" d = false ->
   Requirement.convert_requirement_from_json (VDict d) = Ok None)
  /\
  (dict_has "rqmt_idnf" d = true -> dict_has "rqmt_desc" d = true ->
   dict_get "requirements" d = None \/ dict_get "requirements" d = Some VNone ->
   exists node,
     Requirement.convert_requirement_from_json (VDict d) = Ok (Some node)
     /\ Requirement.requirements node = []
     /\ List.length (Requirement.requirements node) = 0).
Proof.
  split.
  - apply convert_dict_absent.
  - unfold dict_has. intros Hi Hd Hr.
    destruct (dict_get "rqmt_idnf" d) as [idnf|] eqn:Ei; [|discriminate].
    destruct (dict_get "rqmt_desc" d) as [desc|] eqn:Ed; [|discriminate].
    exists (Requirement.__init__ idnf desc []).
    rewrite (convert_dict_present d Ei Ed).
    destruct Hr as [-> | ->]; repeat split.
Qed.

Lemma C5_requirement_parse_validation_witness :
  Requirement.convert_requirement_from_json (VDict [("rqmt_desc", VStr "Square knot")])
  = Ok None
  /\ exists node,
       Requirement.convert_requirement_from_json
         (VDict [("rqmt_idnf", VStr "1"); ("rqmt_desc", VStr "Swim");
                 ("requirements", VNone)]) = Ok (Some node)
       /\ Requirement.requirements node = []
       /\ List.length (Requirement.requirements node) = 0.
Proof.
  split.
  - apply (proj1 (C5_requirement_parse_validation [("rqmt_desc", VStr "Square knot")])).
    left. reflexivity.
  - apply (proj2 (C5_requirement_parse_validation
                    [("rqmt_idnf", VStr "1"); ("rqmt_desc", VStr "Swim");
                     ("requirements", VNone)])).
    + reflexivity.
    + reflexivity.
    + right. reflexivity.
Defined.

(** C6: for a requirement record (one that has its own rqmt_idnf and
    rqmt_desc) whose "requirements" list of requirement records contains
    a malformed child, one missing rqmt_idnf or rqmt_desc, the parser
    still returns a non-null parent node; the null that parsing the
    malformed child yields sits in the parent's children sequence at that
    child's position, and the children sequence is as long as the input
    list. *)
Theorem C6_malformed_child_becomes_null (d : dict) (l : list value) (i : nat)
        (child : dict) :
  dict_has "rqmt_idnf" d = true -> dict_has "rqmt_desc" d = true ->
  dict_get "requirements" d = Some (VList l) ->
  forallb requirement_record l = true ->
  nth_error l i = Some (VDict child) ->
  dict_has "rqmt_idnf" child = false \/ dict_has "rqmt_desc" child = false ->
  exists node,
    Requirement.convert_requirement_from_json (VDict d) = Ok (Some node)
    /\ nth_error (Requirement.requirements node) i = Some None
    /\ List.length (Requirement.requirements node) = List.length l.
Proof.
  unfold dict_has. intros Hi Hd Hr Hl Hc Hbad.
  destruct (dict_get "rqmt_idnf" d) as [idnf|] eqn:Ei; [|discriminate].
  destruct (dict_get "rqmt_desc" d) as [desc|] eqn:Ed; [|discriminate].
  destruct (requirement_records_parse l Hl) as [ys Hys].
  exists (Requirement.__init__ idnf desc ys).
  rewrite (convert_dict_present d Ei Ed), Hr. simpl. rewrite Hys. simpl.
  split; [reflexivity|]. split.
  - destruct (mapM_nth_error _ _ i Hys Hc) as [y [Hy Hn]].
    rewrite (convert_dict_absent child Hbad) in Hy. injection Hy as <-. exact Hn.
  - apply (mapM_length _ _ Hys).
Qed.

Lemma C6_malformed_child_becomes_null_witness :
  exists node,
    Requirement.convert_requirement_from_json (VDict knots_record) = Ok (Some node)
    /\ nth_error (Requirement.requirements node) 1 = Some None
    /\ List.length (Requirement.requirements node) = 3.
Proof.
  apply (C6_malformed_child_becomes_null knots_record
           (l := [leaf_record "2a" "Square knot"; VDict [("rqmt_idnf", VStr "2b")];
                  leaf_record "2c" "Bowline"])
           1 (child := [("rqmt_idnf", VStr "2b")])).
  - reflexivity.
  - reflexivity.
  - reflexivity.
  - reflexivity.
  - reflexivity.
  - right. reflexivity.
Defined.

(** A child that is no record at all is another matter: the membership
    test of line 17 raises on it, and the parent is not built. *)
Example number_among_children :
  Requirement.convert_requirement_from_json
    (VDict [("rqmt_idnf", VStr "3"); ("rqmt_desc", VStr "Cook a meal");
            ("requirements", VList [VInt 5])]) = Raise TypeError.
Proof. reflexivity. Qed.

(** A record that lacks one of the five keys badge_name, badge_desc,
    eagle_badge, dpmt_name, requirements is answered with null. *)
Lemma merit_badge_missing_key (d : dict) (k : string) :
  In k badge_keys -> dict_has k d = false ->
  MeritBadge.convert_merit_badge_from_json (VDict d) = Ok None.
Proof.
  intros Hk Hmiss. rewrite convert_merit_badge_dict.
  replace (forallb (fun k => dict_has k d) badge_keys) with false; [reflexivity|].
  symmetry. apply not_true_is_false. intros Hall.
  rewrite forallb_forall in Hall. rewrite (Hall k Hk) in Hmiss. discriminate.
Qed.

(** On a record that has all five keys and whose requirements value is a
    list of requirement records the parser returns an object whose name,
    description, eagle-required flag and department name are the input
    values verbatim and whose root sequence is as long as the list. *)
Lemma merit_badge_parse_on_records (d : dict) (name desc eagle dpmt : value)
      (l : list value) :
  dict_get "badge_name" d = Some name -> dict_get "badge_desc" d = Some desc ->
  dict_get "eagle_badge" d = Some eagle -> dict_get "dpmt_name" d = Some dpmt ->
  dict_get "requirements" d = Some (VList l) ->
  forallb requirement_record l = true ->
  exists badge,
    MeritBadge.convert_merit_badge_from_json (VDict d) = Ok (Some badge)
    /\ MeritBadge.badge_name badge = name
    /\ MeritBadge.badge_desc badge = desc
    /\ MeritBadge.eagle_badge badge = eagle
    /\ MeritBadge.dpmt_name badge = dpmt
    /\ List.length (MeritBadge.requirements badge) = List.length l.
Proof.
  intros Hn Hd He Hp Hr Hl.
  destruct (requirement_records_parse l Hl) as [ys Hys].
  exists (MeritBadge.__init__ name desc eagle dpmt ys).
  rewrite convert_merit_badge_dict. unfold badge_keys, dict_has, py_get, py_getitem.
  simpl forallb. rewrite Hn, Hd, He, Hp, Hr. simpl. rewrite Hys. simpl.
  repeat split. apply (mapM_length _ _ Hys).
Qed.

(** Line 51 iterates whatever value the requirements key holds: on every
    record that has the five keys and a null requirements value the
    comprehension raises, whatever the other four values are. *)
Lemma merit_badge_null_requirements (d : dict) :
  forallb (fun k => dict_has k d) badge_keys = true ->
  dict_get "requirements" d = Some VNone ->
  MeritBadge.convert_merit_badge_from_json (VDict d) = Raise TypeError.
Proof.
  intros Hkeys Hr. rewrite convert_merit_badge_dict, Hkeys.
  unfold py_get. rewrite Hr. reflexivity.
Qed.

Example camping_without_flag_is_null :
  MeritBadge.convert_merit_badge_from_json
    (VDict [("badge_name", VStr "Camping"); ("badge_desc", VStr "Outdoor skills");
            ("dpmt_name", VStr "Outdoor"); ("requirements", VList [])]) = Ok None.
Proof. reflexivity. Qed.

Example camping_with_one_root :
  MeritBadge.convert_merit_badge_from_json
    (VDict (camping_record (VList [leaf_record "1" "Pitch a tent"]))) =
  Ok (Some (MeritBadge.__init__ (VStr "Camping") (VStr "Outdoor skills") (VBool true)
                                (VStr "Outdoor") [Some (leaf "1" "Pitch a tent")])).
Proof. reflexivity. Qed.

(** C4 fails on the code.  The record below has all five keys badge_name,
    badge_desc, eagle_badge, dpmt_name and requirements, so the claim has
    the parser return a non-null object for it.  Its requirements value
    is null: the comprehension of line 51 iterates over [None], the parser
    raises a TypeError and no object is returned.  The Requirement parser
    tests for exactly this value at line 19 and reads a null requirements
    value as no children; the same record with an empty list is parsed as
    the claim says. *)
Theorem C4_null_requirements_raise :
  forallb (fun k => dict_has k (camping_record VNone)) badge_keys = true
  /\ MeritBadge.convert_merit_badge_from_json (VDict (camping_record VNone))
     = Raise TypeError
  /\ ~ (exists badge,
          MeritBadge.convert_merit_badge_from_json (VDict (camping_record VNone))
          = Ok (Some badge))
  /\ Requirement.convert_requirement_from_json
       (VDict [("rqmt_idnf", VStr "1"); ("rqmt_desc", VStr "Pitch a tent");
               ("requirements", VNone)])
     = Ok (Some (Requirement.__init__ (VStr "1") (VStr "Pitch a tent") []))
  /\ MeritBadge.convert_merit_badge_from_json (VDict (camping_record (VList [])))
     = Ok (Some (MeritBadge.__init__ (VStr "Camping") (VStr "Outdoor skills")
                                     (VBool true) (VStr "Outdoor") [])).
Proof.
  split; [reflexivity|]. split; [reflexivity|]. split.
  - intros [badge H]. discriminate H.
  - split; reflexivity.
Qed.

(** ** The requirement walk, step by step *)

Section SeederFacts.

Variable St : Type.
Variable execute : call -> St -> response * St.

Lemma insert_requirement_step (badge_id parent_rqmt_id : value)
      (requirement : Requirement.t) (w : World St) :
  insert_requirement execute badge_id parent_rqmt_id requirement w =
  let request := Insert "merit_badge_rqmt"
                        (new_requirement badge_id requirement parent_rqmt_id) in
  let (r, st) := execute request (backend w) in
  let w1 := record_call request r st (noted "badge_id" badge_id w) in
  let assigned := Requirement.with_badge_id badge_id requirement in
  match generated_id "rqmt_id" r with
  | Raise e => (assigned, report e w1)
  | Ok None => (assigned, w1)
  | Ok (Some rqmt_id) =>
      let (children, w2) :=
        insert_merit_badge_requirements_recursively
          execute badge_id (Requirement.requirements requirement) rqmt_id
          (noted "rqmt_id" rqmt_id w1) in
      (Requirement.with_requirements children
         (Requirement.with_rqmt_id rqmt_id assigned), w2)
  end.
Proof.
  destruct requirement as [idnf desc children p b i].
  cbn [insert_requirement].
  unfold try_except, bindM, remote, lift, run, ret, assign,
    insert_merit_badge_requirements_recursively, generated_id, response_data.
  cbn [Requirement.requirements noted backend].
  destruct (execute _ (backend w)) as [r st].
  destruct r as [e | [data|]]; cbn [bind]; try reflexivity.
  destruct (is_none data); try reflexivity.
  destruct (py_first data) as [first|e]; cbn [bind]; try reflexivity.
  destruct (py_getitem first "rqmt_id") as [id|e]; cbn [bind]; try reflexivity.
  destruct children as [|slot rest]; [reflexivity|].
  cbn [List.length Nat.ltb Nat.leb].
  destruct (for_each _ _ _) as [kids w2]. reflexivity.
Qed.

Lemma walk_cons (badge_id parent_rqmt_id : value) (slot : option Requirement.t)
      (rest : list (option Requirement.t)) (w : World St) :
  insert_merit_badge_requirements_recursively execute badge_id (slot :: rest)
                                              parent_rqmt_id w =
  let (slot', w1) := on_slot (insert_requirement execute badge_id parent_rqmt_id) slot w in
  let (rest', w2) :=
    insert_merit_badge_requirements_recursively execute badge_id rest parent_rqmt_id w1 in
  (slot' :: rest', w2).
Proof. reflexivity. Qed.

Lemma new_requirement_linked (badge_id parent_rqmt_id : value)
      (node node' : Requirement.t) :
  Requirement.rqmt_idnf node' = Requirement.rqmt_idnf node ->
  Requirement.rqmt_desc node' = Requirement.rqmt_desc node ->
  new_requirement badge_id node parent_rqmt_id =
  linked_row badge_id (parent_of parent_rqmt_id) node'.
Proof.
  intros Hi Hd. unfold new_requirement, linked_row, parent_of. rewrite Hi, Hd.
  destruct (is_none parent_rqmt_id); reflexivity.
Qed.

Lemma slots_trace_of_children (l : list (option Requirement.t)) :
  on_children (node_trace execute) l -> slots_trace execute l.
Proof.
  induction 1 as [|slot rest Hslot Hrest IH]; intros b p w.
  - exists []. cbn. rewrite app_nil_r. repeat split. intros node [].
  - rewrite walk_cons. destruct slot as [node|]; cbn [on_slot].
    + destruct (Hslot b p w) as [r [tail [Hcalls Hrows]]].
      destruct (insert_requirement execute b p node w) as [node' w1]. cbn [fst snd] in *.
      destruct (IH b p w1) as [new [Hcalls' [Hrows' Hatt]]].
      destruct (insert_merit_badge_requirements_recursively execute b rest p w1)
        as [rest' w2]. cbn [fst snd] in *.
      exists (((Insert "merit_badge_rqmt" (new_requirement b node p), r) :: tail) ++ new).
      split; [|split].
      * rewrite Hcalls', Hcalls, <- app_assoc. reflexivity.
      * unfold all_return_ids in *. rewrite forallb_app. intros H.
        apply andb_prop in H. destruct H as [H1 H2].
        rewrite map_app. cbn [flat_map slot_rows]. rewrite map_app.
        rewrite <- (Hrows H1), <- (Hrows' H2). reflexivity.
      * intros s [E|Hin].
        -- injection E as <-. left. reflexivity.
        -- rewrite map_app. apply in_or_app. right. apply Hatt, Hin.
    + destruct (IH b p (report AttributeError w)) as [new [Hcalls' [Hrows' Hatt]]].
      destruct (insert_merit_badge_requirements_recursively
                  execute b rest p (report AttributeError w)) as [rest' w2].
      cbn [fst snd] in *. exists new. split; [|split].
      * exact Hcalls'.
      * exact Hrows'.
      * intros s [E|Hin]; [discriminate|]. apply Hatt, Hin.
Qed.

Lemma node_trace_all (node : Requirement.t) : node_trace execute node.
Proof.
  induction node as [node IH] using requirement_ind.
  apply slots_trace_of_children in IH.
  intros b p w. rewrite insert_requirement_step. cbn zeta.
  destruct (execute _ (backend w)) as [r st].
  destruct (generated_id "rqmt_id" r) as [[id|]|e] eqn:G.
  - destruct (IH b id (noted "rqmt_id" id
                         (record_call
                            (Insert "merit_badge_rqmt" (new_requirement b node p)) r st
                            (noted "badge_id" b w))))
      as [new [Hcalls [Hrows _]]].
    destruct (insert_merit_badge_requirements_recursively _ _ _ _ _) as [kids w2].
    cbn [fst snd] in *. exists r, new. split.
    + rewrite Hcalls. cbn [noted record_call remote_calls].
      rewrite <- app_assoc. reflexivity.
    + unfold all_return_ids. cbn [forallb snd]. unfold returns_id at 1. rewrite G.
      intros H. apply andb_prop in H. destruct H as [Hid Hnew].
      cbn [linked_rows map Requirement.requirements Requirement.rqmt_id
             Requirement.with_requirements Requirement.with_rqmt_id].
      f_equal.
      * f_equal. apply new_requirement_linked; reflexivity.
      * rewrite (Hrows Hnew). unfold parent_of.
        apply negb_true_iff in Hid. rewrite Hid. reflexivity.
  - exists r, []. split; [reflexivity|].
    unfold all_return_ids. cbn [forallb snd]. unfold returns_id. rewrite G. discriminate.
  - exists r, []. split; [reflexivity|].
    unfold all_return_ids. cbn [forallb snd]. unfold returns_id. rewrite G. discriminate.
Qed.

Lemma walk_trace (l : list (option Requirement.t)) : slots_trace execute l.
Proof.
  apply slots_trace_of_children. unfold on_children. apply Forall_forall.
  intros [node|] _; [apply node_trace_all | exact I].
Qed.


(** ** The record of a walk against its input *)

Lemma slots_linked_of_children (l : list (option Requirement.t)) :
  on_children (node_linked execute) l -> slots_linked execute l.
Proof.
  induction 1 as [|slot rest Hslot Hrest IH]; intros b p w.
  - exists []. cbn. rewrite app_nil_r. split; [reflexivity|].
    intros _. constructor.
  - rewrite walk_cons. destruct slot as [node|]; cbn [on_slot].
    + destruct (Hslot b p w) as [r [below [Hcalls Hlinked]]].
      destruct (insert_requirement execute b p node w) as [node' w1]. cbn [fst snd] in *.
      destruct (IH b p w1) as [after [Hcalls' Hlinked']].
      destruct (insert_merit_badge_requirements_recursively execute b rest p w1)
        as [rest' w2]. cbn [fst snd] in *.
      exists (((Insert "merit_badge_rqmt" (new_requirement b node p), r) :: below)
                ++ after).
      split.
      * rewrite Hcalls', Hcalls, <- app_assoc. reflexivity.
      * unfold all_return_ids in *. rewrite forallb_app. intros H.
        apply andb_prop in H. destruct H as [H1 H2].
        destruct (Hlinked H1) as [id [kids [G [Hid [Hbelow ->]]]]].
        rewrite (@new_requirement_linked b p node node eq_refl eq_refl).
        cbn [app]. apply linked_node; [exact G | exact Hid | exact Hbelow |].
        apply Hlinked', H2.
    + destruct (IH b p (report AttributeError w)) as [new [Hcalls' Hlinked']].
      destruct (insert_merit_badge_requirements_recursively
                  execute b rest p (report AttributeError w)) as [rest' w2].
      cbn [fst snd] in *. exists new. split; [exact Hcalls'|].
      intros H. apply linked_hole, Hlinked', H.
Qed.

Lemma node_linked_all (node : Requirement.t) : node_linked execute node.
Proof.
  induction node as [node IH] using requirement_ind.
  apply slots_linked_of_children in IH.
  intros b p w. rewrite insert_requirement_step. cbn zeta.
  destruct (execute _ (backend w)) as [r st].
  destruct (generated_id "rqmt_id" r) as [[id|]|e] eqn:G.
  - destruct (IH b id (noted "rqmt_id" id
                         (record_call
                            (Insert "merit_badge_rqmt" (new_requirement b node p)) r st
                            (noted "badge_id" b w))))
      as [new [Hcalls Hlinked]].
    destruct (insert_merit_badge_requirements_recursively _ _ _ _ _) as [kids w2].
    cbn [fst snd] in *. exists r, new. split.
    + rewrite Hcalls. cbn [noted record_call remote_calls].
      rewrite <- app_assoc. reflexivity.
    + unfold all_return_ids. cbn [forallb snd]. unfold returns_id at 1. rewrite G.
      intros H. apply andb_prop in H. destruct H as [Hid Hnew].
      apply negb_true_iff in Hid. exists id, kids.
      split; [reflexivity|]. split; [exact Hid|]. split; [|reflexivity].
      specialize (Hlinked Hnew). unfold parent_of in Hlinked.
      rewrite Hid in Hlinked. exact Hlinked.
  - exists r, []. split; [reflexivity|].
    unfold all_return_ids. cbn [forallb snd]. unfold returns_id. rewrite G. discriminate.
  - exists r, []. split; [reflexivity|].
    unfold all_return_ids. cbn [forallb snd]. unfold returns_id. rewrite G. discriminate.
Qed.

Lemma walk_linked (l : list (option Requirement.t)) : slots_linked execute l.
Proof.
  apply slots_linked_of_children. unfold on_children. apply Forall_forall.
  intros [node|] _; [apply node_linked_all | exact I].
Qed.

(** ** Claims about the requirement walk *)

(** C1: take any requirement tree [roots], any world, and the run of the
    walk over the roots with parent_rqmt_id null; let [new] be the
    requests the run made with the answers it got, and let every answer
    hand back a generated id.  Then the run is linked to its input:
    every object of [roots] had exactly one row sent, parents ahead of
    their children and siblings in order; the row of a root has no
    parent_rqmt_id key; the row of a child carries the parent_rqmt_id
    that was read from the answer to its parent's row, and that same id
    is the rqmt_id left on the parent node.  The rows are also the rows
    of the resulting tree, each child's under the id captured on its
    parent. *)
Theorem C1_parent_linkage (badge_id : value) (roots : list (option Requirement.t))
        (w : World St) (new : list (call * response)) :
  let run := insert_merit_badge_requirements_recursively execute badge_id roots VNone w in
  remote_calls (snd run) = remote_calls w ++ new ->
  all_return_ids new = true ->
  linked badge_id None roots new (fst run)
  /\ map fst new =
     map (Insert "merit_badge_rqmt") (flat_map (slot_rows badge_id None) (fst run))
  /\ (forall node, dict_get "parent_rqmt_id" (linked_row badge_id None node) = None)
  /\ (forall id node,
        dict_get "parent_rqmt_id" (linked_row badge_id (Some id) node) = Some id)
  /\ (forall node,
        dict_get "parent_rqmt_id" (new_requirement badge_id node VNone) = None).
Proof.
  intros run Hcalls Hids. split; [|split; [|split; [|split]]].
  - destruct (walk_linked roots badge_id VNone w) as [new' [Hcalls' Hlinked]].
    fold run in Hcalls', Hlinked. rewrite Hcalls in Hcalls'.
    apply app_inv_head in Hcalls'. subst new'. apply Hlinked, Hids.
  - destruct (walk_trace roots badge_id VNone w) as [new' [Hcalls' [Hrows _]]].
    fold run in Hcalls', Hrows. rewrite Hcalls in Hcalls'.
    apply app_inv_head in Hcalls'. subst new'. apply Hrows, Hids.
  - reflexivity.
  - reflexivity.
  - reflexivity.
Qed.

(** C8: when the insert for one requirement node raises, a backend error
    or any other exception, or the lines reading its answer do, one error
    line is logged and the walk goes on with the next sibling: every later
    sibling is still attempted.  The failed node's children stay as they
    were and the only request made for the node is its own insert, so no
    descendant of it is inserted. *)
Theorem C8_failed_node_skips_subtree (badge_id parent_rqmt_id : value)
        (node : Requirement.t) (siblings : list (option Requirement.t))
        (w : World St) (r : response) (st : St) (e : exn) :
  let request := Insert "merit_badge_rqmt"
                        (new_requirement badge_id node parent_rqmt_id) in
  execute request (backend w) = (r, st) ->
  generated_id "rqmt_id" r = Raise e ->
  let w1 := report e (record_call request r st (noted "badge_id" badge_id w)) in
  let later :=
    insert_merit_badge_requirements_recursively
      execute badge_id siblings parent_rqmt_id w1 in
  insert_merit_badge_requirements_recursively
    execute badge_id (Some node :: siblings) parent_rqmt_id w
  = (Some (Requirement.with_badge_id badge_id node) :: fst later, snd later)
  /\ stderr w1 = stderr w ++ [error_line e]
  /\ remote_calls w1 = remote_calls w ++ [(request, r)]
  /\ Requirement.requirements (Requirement.with_badge_id badge_id node)
     = Requirement.requirements node
  /\ (forall sibling, In (Some sibling) siblings ->
      exists new,
        remote_calls (snd later) = remote_calls w1 ++ new
        /\ In (Insert "merit_badge_rqmt"
                      (new_requirement badge_id sibling parent_rqmt_id))
              (map fst new)).
Proof.
  intros request Hexec Hfail w1 later. repeat split.
  - rewrite walk_cons. cbn [on_slot]. rewrite insert_requirement_step. cbn zeta.
    fold request. rewrite Hexec, Hfail. fold w1. fold later.
    destruct later as [rest' w2]. reflexivity.
  - intros sibling Hin.
    destruct (walk_trace siblings badge_id parent_rqmt_id w1) as [new [Hcalls [_ Hatt]]].
    exists new. split; [exact Hcalls | apply Hatt, Hin].
Qed.

Lemma slots_assign_of_children (l : list (option Requirement.t)) :
  on_children (node_assigns execute) l -> slots_assign execute l.
Proof.
  induction 1 as [|slot rest Hslot Hrest IH]; intros b p w.
  - exists []. cbn. rewrite app_nil_r. split; [reflexivity | constructor].
  - rewrite walk_cons. destruct slot as [node|]; cbn [on_slot].
    + destruct (Hslot b p w) as [new1 [H1 F1]].
      destruct (insert_requirement execute b p node w) as [node' w1]. cbn [snd] in *.
      destruct (IH b p w1) as [new2 [H2 F2]].
      destruct (insert_merit_badge_requirements_recursively execute b rest p w1)
        as [rest' w2]. cbn [snd] in *.
      exists (new1 ++ new2). split.
      * rewrite H2, H1, <- app_assoc. reflexivity.
      * apply Forall_app. split; assumption.
    + destruct (IH b p (report AttributeError w)) as [new [H F]].
      destruct (insert_merit_badge_requirements_recursively
                  execute b rest p (report AttributeError w)) as [rest' w2].
      cbn [snd] in *. exists new. split; [exact H | exact F].
Qed.

Lemma node_assigns_all (node : Requirement.t) : node_assigns execute node.
Proof.
  induction node as [node IH] using requirement_ind.
  apply slots_assign_of_children in IH.
  intros b p w. rewrite insert_requirement_step. cbn zeta.
  destruct (execute _ (backend w)) as [r st].
  destruct (generated_id "rqmt_id" r) as [[id|]|e].
  - destruct (IH b id (noted "rqmt_id" id
                         (record_call
                            (Insert "merit_badge_rqmt" (new_requirement b node p)) r st
                            (noted "badge_id" b w))))
      as [new [H F]].
    destruct (insert_merit_badge_requirements_recursively _ _ _ _ _) as [kids w2].
    cbn [snd] in *. exists (("badge_id", b) :: ("rqmt_id", id) :: new). split.
    + rewrite H. cbn [noted record_call assignments]. rewrite <- !app_assoc. reflexivity.
    + constructor; [left; reflexivity|]. constructor; [right; reflexivity|]. exact F.
  - exists [("badge_id", b)]. split; [reflexivity|].
    constructor; [left; reflexivity | constructor].
  - exists [("badge_id", b)]. split; [reflexivity|].
    constructor; [left; reflexivity | constructor].
Qed.

(** C3, amended: on every node the walk processes, badge_id is assigned
    exactly once, to the badge id and before the insert is attempted,
    whatever the insert then does; rqmt_id is assigned exactly once when
    the insert returns data carrying a generated id, and not at all
    otherwise, so that it keeps its value when the insert fails;
    parent_rqmt_id is never assigned.  The assignments the loop body
    executes on the node are read off the record of the world: they come
    first, what follows them is the walk over the children, and nothing
    in the whole of it writes parent_rqmt_id. *)
Theorem C3_identifier_fields (badge_id parent_rqmt_id : value)
        (node : Requirement.t) (w : World St) :
  let request := Insert "merit_badge_rqmt"
                        (new_requirement badge_id node parent_rqmt_id) in
  let r := fst (execute request (backend w)) in
  let run := insert_requirement execute badge_id parent_rqmt_id node w in
  let node' := fst run in
  Requirement.badge_id node' = badge_id
  /\ Requirement.parent_rqmt_id node' = Requirement.parent_rqmt_id node
  /\ match generated_id "rqmt_id" r with
     | Ok (Some id) =>
         Requirement.rqmt_id node' = id
         /\ exists w1,
             assignments w1 = assignments w ++ [("badge_id", badge_id); ("rqmt_id", id)]
             /\ snd run =
                snd (insert_merit_badge_requirements_recursively
                       execute badge_id (Requirement.requirements node) id w1)
     | _ =>
         Requirement.rqmt_id node' = Requirement.rqmt_id node
         /\ assignments (snd run) = assignments w ++ [("badge_id", badge_id)]
     end
  /\ exists new,
       assignments (snd run) = assignments w ++ new
       /\ Forall (fun a => fst a <> "parent_rqmt_id") new.
Proof.
  cbn zeta. split; [|split; [|split]].
  4:{ destruct (node_assigns_all node badge_id parent_rqmt_id w) as [new [H F]].
      exists new. split; [exact H|].
      apply (Forall_impl _ (P := walk_attr)); [|exact F].
      intros a [E|E]; rewrite E; discriminate. }
  all: rewrite insert_requirement_step; cbn zeta;
    destruct (execute _ (backend w)) as [r st]; cbn [fst];
    destruct (generated_id "rqmt_id" r) as [[id|]|e].
  all: try (destruct (insert_merit_badge_requirements_recursively _ _ _ _ _)
              as [kids w2] eqn:E).
  all: try (repeat split; fail).
  split; [reflexivity|].
  eexists. split.
  2:{ cbn [snd]. rewrite E. reflexivity. }
  cbn [noted record_call assignments]. rewrite <- app_assoc. reflexivity.
Qed.

(** ** Claims about the badge insert *)

Lemma insert_merit_badge_step (dpmt_id : value) (merit_badge : MeritBadge.t)
      (w : World St) :
  insert_merit_badge execute dpmt_id merit_badge w =
  let request := Insert "merit_badge" (new_merit_badge merit_badge dpmt_id) in
  let (r, st) := execute request (backend w) in
  let w1 := record_call request r st w in
  match generated_id "badge_id" r with
  | Raise e => (merit_badge, report e w1)
  | Ok None => (merit_badge, w1)
  | Ok (Some merit_badge_id) =>
      let (roots, w2) :=
        insert_merit_badge_requirements_recursively
          execute merit_badge_id (MeritBadge.requirements merit_badge) VNone
          (noted "badge_id" merit_badge_id w1) in
      (MeritBadge.with_requirements roots
         (MeritBadge.with_badge_id merit_badge_id merit_badge), w2)
  end.
Proof.
  unfold insert_merit_badge, try_except, bindM, remote, lift, run, ret, assign,
    generated_id, response_data.
  destruct (execute _ (backend w)) as [r st].
  destruct r as [e | [data|]]; cbn [bind]; try reflexivity.
  destruct (is_none data); try reflexivity.
  destruct (py_first data) as [first|e]; cbn [bind]; try reflexivity.
  destruct (py_getitem first "badge_id") as [id|e]; cbn [bind]; try reflexivity.
  destruct (insert_merit_badge_requirements_recursively _ _ _ _ _) as [roots w2].
  reflexivity.
Qed.

(** C7: when the remote insert of a badge returns no data (null), the
    badge object is left as it was and no attribute is assigned, so its
    persisted identifier is never set, and the insert of the badge is the
    only request the badge causes: no requirement of its tree is
    inserted. *)
Theorem C7_no_data_skips_requirements (dpmt_id : value) (merit_badge : MeritBadge.t)
        (w : World St) (st : St) :
  let request := Insert "merit_badge" (new_merit_badge merit_badge dpmt_id) in
  execute request (backend w) = (Returns (Some VNone), st) ->
  let run := insert_merit_badge execute dpmt_id merit_badge w in
  fst run = merit_badge
  /\ MeritBadge.badge_id (fst run) = MeritBadge.badge_id merit_badge
  /\ assignments (snd run) = assignments w
  /\ remote_calls (snd run) = remote_calls w ++ [(request, Returns (Some VNone))]
  /\ stderr (snd run) = stderr w.
Proof.
  intros request Hexec run. unfold run. rewrite insert_merit_badge_step. cbn zeta.
  fold request. rewrite Hexec. repeat split.
Qed.


(** ** Claims about the department seeder *)

Lemma insert_department_step (department : value) (w : World St) :
  insert_department execute department w =
  match py_getitem department "dpmt_name" with
  | Raise e => (tt, report e w)
  | Ok name =>
      let request := Insert "camp_dpmt" [("dpmt_name", name)] in
      let (r, st) := execute request (backend w) in
      let w1 := record_call request r st w in
      match department_answer r with
      | Raise e => (tt, report e w1)
      | Ok data => (tt, print (PrintValue data) w1)
      end
  end.
Proof.
  unfold insert_department, try_except, bindM, remote, lift, say, department_answer,
    response_data.
  destruct (py_getitem department "dpmt_name") as [name|e]; [|reflexivity].
  destruct (execute _ (backend w)) as [r st].
  destruct r as [e | [data|]]; reflexivity.
Qed.

Lemma entry_name_getitem (department name : value) :
  entry_name department = Some name -> py_getitem department "dpmt_name" = Ok name.
Proof.
  destruct department; try discriminate. simpl. intros ->. reflexivity.
Qed.

(** C9: the department seeder issues, for every department entry in
    order, exactly one remote insert, into camp_dpmt, whose body is
    {"dpmt_name": the entry's dpmt_name}.  Every failed insert leaves
    exactly one line on the error stream and nothing else does; a
    backend-reported error leaves one API ERROR line, after which the
    seeder goes on with the next entry.  The seeder raises nothing. *)
Theorem C9_department_seeder (departments names : list value) (w : World St) :
  map entry_name departments = map Some names ->
  (exists new,
     remote_calls (snd (seed_departments execute departments w)) = remote_calls w ++ new
     /\ map fst new = map (fun name => Insert "camp_dpmt" [("dpmt_name", name)]) names
     /\ stderr (snd (seed_departments execute departments w)) =
        stderr w ++ flat_map (fun cr => failure_lines (department_answer (snd cr))) new)
  /\ (forall department name rest message st,
        departments = department :: rest ->
        entry_name department = Some name ->
        execute (Insert "camp_dpmt" [("dpmt_name", name)]) (backend w)
        = (Raises (APIError message), st) ->
        seed_departments execute departments w =
        seed_departments execute rest
          (print_err (API_ERROR_DETECTED message)
             (record_call (Insert "camp_dpmt" [("dpmt_name", name)])
                          (Raises (APIError message)) st w))).
Proof.
  intros Hnames. split.
  - revert names w Hnames.
    induction departments as [|department rest IH]; intros names w Hnames.
    + destruct names; [|discriminate]. exists []. cbn. rewrite !app_nil_r. auto.
    + destruct names as [|name names]; [discriminate|].
      cbn [map] in Hnames. injection Hnames as Hname Hrest.
      cbn [seed_departments]. rewrite insert_department_step.
      rewrite (entry_name_getitem _ Hname). cbn zeta.
      destruct (execute _ (backend w)) as [r st].
      set (request := Insert "camp_dpmt" [("dpmt_name", name)]).
      destruct (department_answer r) as [data|e] eqn:Ha.
      * destruct (IH names (print (PrintValue data) (record_call request r st w)) Hrest)
          as [new [Hcalls [Hrows Herr]]].
        exists ((request, r) :: new). split; [|split].
        -- rewrite Hcalls. cbn [print record_call remote_calls].
           rewrite <- app_assoc. reflexivity.
        -- cbn [map fst]. rewrite Hrows. reflexivity.
        -- rewrite Herr. cbn [flat_map snd]. rewrite Ha. reflexivity.
      * destruct (IH names (report e (record_call request r st w)) Hrest)
          as [new [Hcalls [Hrows Herr]]].
        exists ((request, r) :: new). split; [|split].
        -- rewrite Hcalls. cbn [report print_err record_call remote_calls].
           rewrite <- app_assoc. reflexivity.
        -- cbn [map fst]. rewrite Hrows. reflexivity.
        -- rewrite Herr. cbn [flat_map snd]. rewrite Ha.
           cbn [report print_err record_call stderr failure_lines].
           rewrite <- app_assoc. reflexivity.
  - intros department name rest message st -> Hname Hexec.
    cbn [seed_departments]. rewrite insert_department_step.
    rewrite (entry_name_getitem _ Hname). cbn zeta. rewrite Hexec. reflexivity.
Qed.

End SeederFacts.

(** ** The top-level flow of merit-badge-initializer.py *)

Section Offline.

Variable St : Type.
Variable load : string -> result value.
Variable upper : string -> string.

Lemma untouched_refl (w : World St) : untouched w w.
Proof. repeat split. Qed.

Lemma offline_ret (A : Type) (a : A) : offline (ret (St := St) a).
Proof. intros w. apply untouched_refl. Qed.

Lemma offline_lift (A : Type) (r : result A) : offline (lift (St := St) r).
Proof. intros w. apply untouched_refl. Qed.

Lemma offline_bind (A B : Type) (m : M St A) (k : A -> M St B) :
  offline m -> (forall a, offline (k a)) -> offline (bindM m k).
Proof.
  intros Hm Hk w. unfold bindM. specialize (Hm w).
  destruct (m w) as [[a|e] w1]; cbn [snd] in *.
  - specialize (Hk a w1).
    destruct Hm as [H1 [H2 [H3 H4]]], Hk as [K1 [K2 [K3 K4]]].
    repeat split; congruence.
  - exact Hm.
Qed.

Lemma offline_say (line : out_line) : offline (say (St := St) line).
Proof. intros w. repeat split. Qed.

Lemma offline_for_M (X : Type) (body : X -> M St unit) (items : list X) :
  (forall x, In x items -> offline (body x)) -> offline (for_M body items).
Proof.
  induction items as [|x rest IH]; intros H.
  - apply offline_ret.
  - cbn [for_M]. apply offline_bind.
    + apply H. left. reflexivity.
    + intros _. apply IH. intros y Hy. apply H. right. exact Hy.
Qed.

Lemma offline_print_requirement (node : Requirement.t) (indent : string) :
  offline (print_requirement (St := St) indent node).
Proof.
  revert indent. induction node as [node IH] using requirement_ind. intros indent.
  destruct node as [idnf desc children p b i]. cbn [print_requirement].
  cbn [Requirement.requirements] in *.
  apply offline_bind; [apply offline_say|]. intros _.
  apply offline_bind; [intros w; repeat split|]. intros _.
  destruct (Nat.ltb 0 (List.length children)); [|apply offline_ret].
  apply offline_for_M. intros [child|] Hin; cbn [on_slot_M].
  - unfold on_children in IH. rewrite Forall_forall in IH. apply (IH _ Hin).
  - apply offline_lift.
Qed.

Lemma offline_print_all_requirements (l : list (option Requirement.t)) (indent : string) :
  offline (print_all_requirements (St := St) l indent).
Proof.
  apply offline_for_M. intros [child|] _; cbn [on_slot_M].
  - apply offline_print_requirement.
  - apply offline_lift.
Qed.

Lemma offline_load_merit_badges (files : list (string * string))
      (groups : list (string * list MeritBadge.t)) :
  offline (load_merit_badges (St := St) load upper files groups).
Proof.
  revert groups. induction files as [|[department file] rest IH]; intros groups.
  - apply offline_ret.
  - cbn [load_merit_badges].
    apply offline_bind; [intros w; repeat split|]. intros _.
    apply offline_bind; [apply offline_lift|]. intros data.
    apply offline_bind; [apply offline_lift|]. intros [badge|].
    + apply offline_bind; [apply offline_lift|]. intros key. apply IH.
    + apply IH.
Qed.

(** C10: running the merit-badge-initializer script from its first line
    of top-level data handling to its end makes no remote request at all:
    the record of requests and the state of the backend are what they
    were, whatever the files hold and however the run ends; nothing goes
    to the error stream and no attribute of a parsed object is assigned
    either.  What the run does is read files and print. *)
Theorem C10_initializer_inserts_nothing (merit_badge_files : list (string * string))
        (w : World St) :
  let w' := snd (merit_badge_initializer load upper merit_badge_files w) in
  backend w' = backend w
  /\ remote_calls w' = remote_calls w
  /\ stderr w' = stderr w
  /\ assignments w' = assignments w.
Proof.
  assert (H : offline (merit_badge_initializer (St := St) load upper merit_badge_files)).
  { unfold merit_badge_initializer.
    apply offline_bind; [apply offline_load_merit_badges|]. intros groups.
    apply offline_bind; [apply offline_say|]. intros _.
    apply offline_for_M. intros group _. apply offline_for_M. intros badge _.
    unfold print_merit_badge.
    repeat (apply offline_bind; [apply offline_say|]; intros _).
    apply offline_print_all_requirements. }
  exact (H w).
Qed.

End Offline.

(** ** The claims on concrete runs *)

(** The rows a fully successful walk of the sample tree sends: the two
    roots without a parent key, "1a" under 101, "1a1" under 102. *)
Example first_aid_rows :
  map fst
      (remote_calls
         (snd (insert_merit_badge_requirements_recursively
                 scripted (VInt 7) first_aid_tree VNone
                 (fresh_world first_aid_answers)))) =
  [Insert "merit_badge_rqmt"
          [("badge_id", VInt 7); ("rqmt_desc", VStr "Show first aid");
           ("rqmt_idnf", VStr "1")];
   Insert "merit_badge_rqmt"
          [("badge_id", VInt 7); ("rqmt_desc", VStr "For cuts");
           ("rqmt_idnf", VStr "1a"); ("parent_rqmt_id", VInt 101)];
   Insert "merit_badge_rqmt"
          [("badge_id", VInt 7); ("rqmt_desc", VStr "Clean the wound");
           ("rqmt_idnf", VStr "1a1"); ("parent_rqmt_id", VInt 102)];
   Insert "merit_badge_rqmt"
          [("badge_id", VInt 7); ("rqmt_desc", VStr "Explain heat reactions");
           ("rqmt_idnf", VStr "2")]].
Proof. vm_compute. reflexivity. Qed.

(** The relation tells runs apart.  A walk that sends nothing is not
    linked to a tree that holds an object, and neither is a walk that
    sends a child's row under an id other than the one read from the
    answer to its parent's row. *)
Example silent_walk_not_linked (out : list (option Requirement.t)) :
  ~ linked (VInt 7) None first_aid_tree [] out.
Proof. intros H. inversion H. Qed.

Example foreign_parent_not_linked (out : list (option Requirement.t)) :
  let child := leaf "1a" "For cuts" in
  let parent := Requirement.__init__ (VStr "1") (VStr "Show first aid") [Some child] in
  ~ linked (VInt 7) None [Some parent]
      [(Insert "merit_badge_rqmt" (linked_row (VInt 7) None parent),
        generated "rqmt_id" 101);
       (Insert "merit_badge_rqmt" (linked_row (VInt 7) (Some (VInt 0)) child),
        generated "rqmt_id" 102)]
      out.
Proof.
  intros child parent H.
  inversion H as [| |p n r id below kids rest after rest' G Hid Hbelow Hafter].
  subst. cbn in G. injection G as <-.
  inversion Hafter; subst. rewrite app_nil_r in *. subst below.
  inversion Hbelow.
Qed.

Lemma C1_parent_linkage_witness :
  let run := insert_merit_badge_requirements_recursively
               scripted (VInt 7) first_aid_tree VNone (fresh_world first_aid_answers) in
  linked (VInt 7) None first_aid_tree (remote_calls (snd run)) (fst run)
  /\ map fst (remote_calls (snd run)) =
     map (Insert "merit_badge_rqmt") (flat_map (slot_rows (VInt 7) None) (fst run))
  /\ (forall node, dict_get "parent_rqmt_id" (linked_row (VInt 7) None node) = None)
  /\ (forall id node,
        dict_get "parent_rqmt_id" (linked_row (VInt 7) (Some id) node) = Some id)
  /\ (forall node,
        dict_get "parent_rqmt_id" (new_requirement (VInt 7) node VNone) = None).
Proof.
  apply (C1_parent_linkage scripted (VInt 7) first_aid_tree
           (fresh_world first_aid_answers)).
  - reflexivity.
  - vm_compute. reflexivity.
Defined.

Lemma C8_failed_node_skips_subtree_witness :
  let node := Requirement.__init__ (VStr "1") (VStr "Show first aid")
                                   [Some (leaf "1a" "For cuts")] in
  let siblings := [Some (leaf "2" "Explain heat reactions")] in
  let request := Insert "merit_badge_rqmt" (new_requirement (VInt 7) node VNone) in
  let e := APIError "new row violates row-level security policy" in
  let w := fresh_world refusal in
  let w1 := report e (record_call request (Raises e) [generated "rqmt_id" 102]
                                  (noted "badge_id" (VInt 7) w)) in
  let later :=
    insert_merit_badge_requirements_recursively scripted (VInt 7) siblings VNone w1 in
  insert_merit_badge_requirements_recursively
    scripted (VInt 7) (Some node :: siblings) VNone w
  = (Some (Requirement.with_badge_id (VInt 7) node) :: fst later, snd later)
  /\ stderr w1 = stderr w ++ [error_line e]
  /\ remote_calls w1 = remote_calls w ++ [(request, Raises e)]
  /\ Requirement.requirements (Requirement.with_badge_id (VInt 7) node)
     = Requirement.requirements node
  /\ (forall sibling, In (Some sibling) siblings ->
      exists new,
        remote_calls (snd later) = remote_calls w1 ++ new
        /\ In (Insert "merit_badge_rqmt" (new_requirement (VInt 7) sibling VNone))
              (map fst new)).
Proof.
  apply (C8_failed_node_skips_subtree scripted (VInt 7) VNone
           (Requirement.__init__ (VStr "1") (VStr "Show first aid")
                                 [Some (leaf "1a" "For cuts")])
           [Some (leaf "2" "Explain heat reactions")] (fresh_world refusal)).
  - reflexivity.
  - reflexivity.
Defined.

(** The run of the witness above, spelled out: one API ERROR line, the
    child "1a" never sent, the sibling "2" sent and given its id. *)
Example refused_parent_run :
  let run := insert_merit_badge_requirements_recursively
               scripted (VInt 7)
               [Some (Requirement.__init__ (VStr "1") (VStr "Show first aid")
                                           [Some (leaf "1a" "For cuts")]);
                Some (leaf "2" "Explain heat reactions")]
               VNone (fresh_world refusal) in
  map fst (remote_calls (snd run)) =
  [Insert "merit_badge_rqmt"
          [("badge_id", VInt 7); ("rqmt_desc", VStr "Show first aid");
           ("rqmt_idnf", VStr "1")];
   Insert "merit_badge_rqmt"
          [("badge_id", VInt 7); ("rqmt_desc", VStr "Explain heat reactions");
           ("rqmt_idnf", VStr "2")]]
  /\ stderr (snd run)
     = [API_ERROR_DETECTED "new row violates row-level security policy"]
  /\ map (option_map Requirement.rqmt_id) (fst run) = [Some VNone; Some (VInt 102)].
Proof. vm_compute. repeat split. Qed.

(** C3 as stated fails twice over.  A node whose insert the backend
    refuses still has its badge_id changed, from None to the badge id;
    and a child inserted with success, its row carrying the parent's id,
    keeps parent_rqmt_id at None: that field is never written. *)
Lemma C3_counterexample :
  (let node := leaf "1" "Swim 150 yards" in
   let w := fresh_world [Raises (APIError "permission denied")] in
   let request := Insert "merit_badge_rqmt" (new_requirement (VInt 7) node VNone) in
   let node' := fst (insert_requirement scripted (VInt 7) VNone node w) in
   fst (scripted request (backend w)) = Raises (APIError "permission denied")
   /\ Requirement.badge_id node = VNone
   /\ Requirement.badge_id node' = VInt 7
   /\ Requirement.badge_id node' <> Requirement.badge_id node
   /\ assignments (snd (insert_requirement scripted (VInt 7) VNone node w))
      = [("badge_id", VInt 7)])
  /\
  (let w := fresh_world [generated "rqmt_id" 101; generated "rqmt_id" 102] in
   let request := Insert "merit_badge_rqmt"
                         (new_requirement (VInt 7) (leaf "1a" "For cuts") (VInt 101)) in
   let run := insert_merit_badge_requirements_recursively
                scripted (VInt 7)
                [Some (Requirement.__init__ (VStr "1") (VStr "Show first aid")
                                            [Some (leaf "1a" "For cuts")])]
                VNone w in
   In (request, generated "rqmt_id" 102) (remote_calls (snd run))
   /\ dict_get "parent_rqmt_id" (new_requirement (VInt 7) (leaf "1a" "For cuts") (VInt 101))
      = Some (VInt 101)
   /\ map (option_map
             (fun parent =>
                map (option_map
                       (fun child => (Requirement.rqmt_id child,
                                      Requirement.parent_rqmt_id child)))
                    (Requirement.requirements parent)))
          (fst run)
      = [Some [Some (VInt 102, VNone)]]
   /\ assignments (snd run)
      = [("badge_id", VInt 7); ("rqmt_id", VInt 101);
         ("badge_id", VInt 7); ("rqmt_id", VInt 102)]).
Proof.
  split.
  - cbn zeta. repeat split; try (vm_compute; reflexivity).
    vm_compute. discriminate.
  - cbn zeta. repeat split; try (vm_compute; reflexivity).
    vm_compute. right. left. reflexivity.
Qed.

Lemma C7_no_data_skips_requirements_witness :
  let request := Insert "merit_badge" (new_merit_badge first_aid_badge (VInt 3)) in
  let run := insert_merit_badge scripted (VInt 3) first_aid_badge
                                (fresh_world [Returns (Some VNone)]) in
  fst run = first_aid_badge
  /\ MeritBadge.badge_id (fst run) = MeritBadge.badge_id first_aid_badge
  /\ assignments (snd run) = []
  /\ remote_calls (snd run) = [] ++ [(request, Returns (Some VNone))]
  /\ stderr (snd run) = [].
Proof.
  apply (C7_no_data_skips_requirements scripted (VInt 3) first_aid_badge
           (fresh_world [Returns (Some VNone)]) (st := [])).
  reflexivity.
Defined.

Lemma C9_department_seeder_witness :
  let script := [Raises (APIError "duplicate key value"); generated "dpmt_id" 2] in
  let w := fresh_world script in
  let camping := Insert "camp_dpmt" [("dpmt_name", VStr "Camping")] in
  (exists new,
     remote_calls (snd (seed_departments scripted camp_departments w)) = [] ++ new
     /\ map fst new = [camping; Insert "camp_dpmt" [("dpmt_name", VStr "Aquatics")]]
     /\ stderr (snd (seed_departments scripted camp_departments w)) =
        [] ++ flat_map (fun cr => failure_lines (department_answer (snd cr))) new)
  /\ seed_departments scripted camp_departments w =
     seed_departments scripted [VDict [("dpmt_name", VStr "Aquatics")]]
       (print_err (API_ERROR_DETECTED "duplicate key value")
          (record_call camping (Raises (APIError "duplicate key value"))
                       [generated "dpmt_id" 2] w)).
Proof.
  cbn zeta.
  destruct (C9_department_seeder scripted camp_departments
              [VStr "Camping"; VStr "Aquatics"]
              (fresh_world [Raises (APIError "duplicate key value");
                            generated "dpmt_id" 2]) eq_refl) as [Hall Hone].
  split.
  - exact Hall.
  - apply (Hone (VDict [("dpmt_name", VStr "Camping")]) (VStr "Camping")
                [VDict [("dpmt_name", VStr "Aquatics")]]); reflexivity.
Defined.

(** The run of the witness above, spelled out: two inserts in order, one
    API ERROR line for the refused one, the answer to the other printed. *)
Example camp_departments_run :
  let w' := snd (seed_departments scripted camp_departments
                   (fresh_world [Raises (APIError "duplicate key value");
                                 generated "dpmt_id" 2])) in
  map fst (remote_calls w') =
  [Insert "camp_dpmt" [("dpmt_name", VStr "Camping")];
   Insert "camp_dpmt" [("dpmt_name", VStr "Aquatics")]]
  /\ stderr w' = [API_ERROR_DETECTED "duplicate key value"]
  /\ stdout w' = [PrintValue (VList [VDict [("dpmt_id", VInt 2)]])].
Proof. vm_compute. repeat split. Qed.

(** An entry without a name never reaches the backend: the subscript of
    line 37 raises inside the [try], and the loop goes on. *)
Example nameless_department_run :
  let w' := snd (seed_departments scripted
                   [VDict [("name", VStr "Camping")];
                    VDict [("dpmt_name", VStr "Aquatics")]]
                   (fresh_world [generated "dpmt_id" 2])) in
  map fst (remote_calls w') = [Insert "camp_dpmt" [("dpmt_name", VStr "Aquatics")]]
  /\ stderr w' = [GENERAL_ERROR_DETECTED (KeyError (VStr "dpmt_name"))].
Proof. vm_compute. repeat split. Qed.

(** ** The department lookup *)

(** Whatever the lookup of lines 31-35 raises leaves
    [add_merit_badges_by_dpmt]: no [try] encloses it, and the departments
    after it are not visited. *)
Lemma lookup_failure_escapes (St : Type) (execute : call -> St -> response * St)
      (department : string) (merit_badges : list MeritBadge.t)
      (rest : list (string * list MeritBadge.t)) (w w1 : World St) (e : exn) :
  resolve_dpmt_id execute department w = (Raise e, w1) ->
  add_merit_badges_by_dpmt execute ((department, merit_badges) :: rest) w
  = ((Raise e, (department, merit_badges) :: rest), w1).
Proof.
  intros H. cbn [add_merit_badges_by_dpmt]. rewrite H. reflexivity.
Qed.

(** C2 fails on the code.  The lookup for HEALTH finds zero rows, so
    [maybe_single().execute()] returns None and reading [.data] raises;
    the exception leaves [add_merit_badges_by_dpmt] with nothing logged,
    AQUATICS is never looked up and no badge is inserted. *)
Lemma C2_lookup_failure_escapes :
  let run := add_merit_badges_by_dpmt scripted seeded_groups
                                      (fresh_world [Returns None]) in
  fst (fst run) = Raise AttributeError
  /\ snd (fst run) = seeded_groups
  /\ remote_calls (snd run) =
     [(SelectMaybeSingle "camp_dpmt" "dpmt_id" "dpmt_name" "HEALTH", Returns None)]
  /\ stderr (snd run) = [].
Proof. vm_compute. repeat split. Qed.

(** By contrast a failure of a badge insert is caught where it happens:
    the run ends normally, the error is logged, and the next department
    is looked up and seeded. *)
Example badge_failure_is_caught :
  let run := add_merit_badges_by_dpmt
               scripted seeded_groups
               (fresh_world [Returns (Some (VDict [("dpmt_id", VInt 1)]));
                             Raises (OtherException "connection reset");
                             Returns (Some (VDict [("dpmt_id", VInt 2)]));
                             generated "badge_id" 9;
                             generated "rqmt_id" 90]) in
  fst (fst run) = Ok tt
  /\ stderr (snd run)
     = [GENERAL_ERROR_DETECTED (OtherException "connection reset")]
  /\ map fst (remote_calls (snd run)) =
     [SelectMaybeSingle "camp_dpmt" "dpmt_id" "dpmt_name" "HEALTH";
      Insert "merit_badge" (new_merit_badge first_aid_badge (VInt 1));
      SelectMaybeSingle "camp_dpmt" "dpmt_id" "dpmt_name" "AQUATICS";
      Insert "merit_badge" (new_merit_badge swimming_badge (VInt 2));
      Insert "merit_badge_rqmt"
             [("badge_id", VInt 9); ("rqmt_desc", VStr "Swim 150 yards");
              ("rqmt_idnf", VStr "1")]].
Proof. vm_compute. repeat split. Qed.

(** * Further properties of the code *)

(** ** What the parsers return *)

Lemma mapM_Forall2 (A B : Type) (f : A -> result B) (items : list A) (ys : list B) :
  mapM f items = Ok ys <-> Forall2 (fun x y => f x = Ok y) items ys.
Proof.
  revert ys. induction items as [|x rest IH]; intros ys; simpl.
  - split.
    + intros H. injection H as <-. constructor.
    + intros H. inversion H. reflexivity.
  - destruct (f x) as [y|e] eqn:Ex; simpl.
    + destruct (mapM f rest) as [ys'|e] eqn:Er; simpl.
      * split.
        -- intros H. injection H as <-. constructor; [exact Ex | apply IH; reflexivity].
        -- intros H. inversion H as [|x0 y0 l l' Hy Hrest]; subst.
           rewrite Ex in Hy. injection Hy as <-.
           apply IH in Hrest. injection Hrest as <-. reflexivity.
      * split; [discriminate|].
        intros H. inversion H as [|x0 y0 l l' Hy Hrest]; subst.
        apply IH in Hrest. discriminate.
    + split; [discriminate|].
      intros H. inversion H as [|x0 y0 l l' Hy Hrest]; subst.
      rewrite Ex in Hy. discriminate.
Qed.

(** Whatever the body of the class method returns as an object was read
    off a dict. *)
Lemma convert_body_inv (f : value -> result (option Requirement.t)) (v : value)
      (node : Requirement.t) :
  Requirement.convert_body f v = Ok (Some node) ->
  exists d idnf desc,
    v = VDict d
    /\ dict_get "rqmt_idnf" d = Some idnf
    /\ dict_get "rqmt_desc" d = Some desc
    /\ node = Requirement.__init__ idnf desc (Requirement.requirements node)
    /\ match dict_get "requirements" d with
       | None | Some VNone => Requirement.requirements node = []
       | Some source =>
           exists items,
             py_iter source = Ok items
             /\ mapM f items = Ok (Requirement.requirements node)
       end.
Proof.
  destruct v as [| | | |s|l|d].
  1-4: discriminate.
  - unfold Requirement.convert_body, and_then. simpl.
    destruct (is_substring "rqmt_idnf" s), (is_substring "rqmt_desc" s),
      (is_substring "requirements" s); discriminate.
  - unfold Requirement.convert_body, and_then. simpl.
    destruct (existsb (value_is_str "rqmt_idnf") l),
      (existsb (value_is_str "rqmt_desc") l),
      (existsb (value_is_str "requirements") l); discriminate.
  - rewrite convert_body_dict. unfold dict_has, py_getitem.
    destruct (dict_get "rqmt_idnf" d) as [idnf|] eqn:Ei0; [|discriminate].
    destruct (dict_get "rqmt_desc" d) as [desc|] eqn:Ed0; [|discriminate].
    cbn [andb]. intros H. exists d, idnf, desc.
    split; [reflexivity|]. split; [exact Ei0|]. split; [exact Ed0|].
    destruct (dict_get "requirements" d) as [source|].
    + destruct source;
        try (cbn [bind] in H; injection H as <-; split; reflexivity);
        (destruct (py_iter _) as [items|err] eqn:Ei; cbn [bind] in H; [|discriminate]);
        (destruct (mapM f items) as [ys|err] eqn:Em; cbn [bind] in H; [|discriminate]);
        injection H as <-; (split; [reflexivity|]); exists items;
        (split; [first [exact Ei | reflexivity] | exact Em]).
    + cbn [bind] in H. injection H as <-. split; reflexivity.
Qed.

Lemma strict_record_dict (d : dict) :
  strict_record (VDict d) =
  dict_has "rqmt_idnf" d && dict_has "rqmt_desc" d
  && match dict_get "requirements" d with
     | None | Some VNone => true
     | Some (VList l) => forallb strict_record l
     | Some _ => false
     end.
Proof.
  cbn [strict_record]. f_equal.
  induction d as [|[k x] rest IH]; [reflexivity|].
  cbn [dict_get]. destruct (String.eqb "requirements" k); [|exact IH].
  destruct x; reflexivity.
Qed.

Lemma records_dict (d : dict) :
  records (VDict d) =
  S match dict_get "requirements" d with
    | Some (VList l) => list_sum (map records l)
    | _ => 0
    end.
Proof.
  cbn [records]. f_equal.
  induction d as [|[k x] rest IH]; [reflexivity|].
  cbn [dict_get]. destruct (String.eqb "requirements" k); [|exact IH].
  destruct x; reflexivity.
Qed.

Lemma objects_node (node : Requirement.t) :
  objects node = S (list_sum (map slot_objects (Requirement.requirements node))).
Proof. destruct node. reflexivity. Qed.

Lemma holes_node (node : Requirement.t) :
  holes node = list_sum (map slot_holes (Requirement.requirements node)).
Proof. destruct node. reflexivity. Qed.

Lemma complete_node (node : Requirement.t) :
  complete node = forallb slot_complete (Requirement.requirements node).
Proof. destruct node. reflexivity. Qed.

Lemma unsaved_node (node : Requirement.t) :
  unsaved node =
  is_none (Requirement.parent_rqmt_id node) && is_none (Requirement.badge_id node)
  && is_none (Requirement.rqmt_id node)
  && forallb slot_unsaved (Requirement.requirements node).
Proof. destruct node. reflexivity. Qed.

Lemma saved_node (badge_id : value) (node : Requirement.t) :
  saved badge_id node <->
  Requirement.badge_id node = badge_id
  /\ is_none (Requirement.rqmt_id node) = false
  /\ Forall (slot_saved badge_id) (Requirement.requirements node).
Proof.
  destruct node as [idnf desc children p b i]. cbn [saved Requirement.badge_id
    Requirement.rqmt_id Requirement.requirements].
  assert (H : (fix all (l : list (option Requirement.t)) : Prop :=
                 match l with
                 | [] => True
                 | slot :: rest =>
                     match slot with
                     | Some child => saved badge_id child
                     | None => True
                     end /\ all rest
                 end) children <-> Forall (slot_saved badge_id) children).
  { induction children as [|slot rest IH].
    - split; [constructor | exact (fun _ => I)].
    - split.
      + intros [Hs Hr]. constructor; [exact Hs | apply IH, Hr].
      + intros Hf. inversion Hf; subst. split; [assumption | apply IH; assumption]. }
  tauto.
Qed.

Lemma erase_node (node : Requirement.t) :
  erase node =
  Requirement.mk (Requirement.rqmt_idnf node) (Requirement.rqmt_desc node)
                 (map (option_map erase) (Requirement.requirements node))
                 (Requirement.parent_rqmt_id node) VNone VNone.
Proof. destruct node. reflexivity. Qed.

(** X1: whatever object the Requirement parser returns was read off a dict:
    it carries the dict's identifier code and description verbatim, and
    its children sequence holds, slot by slot, what the parser returns on
    the elements of the "requirements" value. *)
Theorem X1_requirement_parse_faithful (v : value) (node : Requirement.t) :
  Requirement.convert_requirement_from_json v = Ok (Some node) ->
  exists d,
    v = VDict d
    /\ dict_get "rqmt_idnf" d = Some (Requirement.rqmt_idnf node)
    /\ dict_get "rqmt_desc" d = Some (Requirement.rqmt_desc node)
    /\ match dict_get "requirements" d with
       | None | Some VNone => Requirement.requirements node = []
       | Some source =>
           exists items,
             py_iter source = Ok items
             /\ Forall2 (fun item slot =>
                           Requirement.convert_requirement_from_json item = Ok slot)
                        items (Requirement.requirements node)
       end.
Proof.
  rewrite convert_requirement_from_json_unfold. intros H.
  destruct (convert_body_inv _ _ H) as [d [idnf [desc [-> [Hi [Hd [Hn Hr]]]]]]].
  exists d. split; [reflexivity|]. rewrite Hn. cbn [Requirement.rqmt_idnf
    Requirement.rqmt_desc Requirement.__init__ Requirement.requirements].
  split; [exact Hi|]. split; [exact Hd|].
  destruct (dict_get "requirements" d) as [source|]; [|exact Hr].
  destruct source; try exact Hr;
    destruct Hr as [items [Hit Hm]]; exists items; (split; [exact Hit|]);
    apply mapM_Forall2; exact Hm.
Qed.

Lemma X1_requirement_parse_faithful_witness :
  exists d,
    VDict knots_record = VDict d
    /\ dict_get "rqmt_idnf" d = Some (VStr "2")
    /\ dict_get "rqmt_desc" d = Some (VStr "Tie the following knots")
    /\ match dict_get "requirements" d with
       | None | Some VNone => [Some (leaf "2a" "Square knot"); None;
                               Some (leaf "2c" "Bowline")] = []
       | Some source =>
           exists items,
             py_iter source = Ok items
             /\ Forall2 (fun item slot =>
                           Requirement.convert_requirement_from_json item = Ok slot)
                        items [Some (leaf "2a" "Square knot"); None;
                               Some (leaf "2c" "Bowline")]
       end.
Proof.
  apply (@X1_requirement_parse_faithful (VDict knots_record)
           (Requirement.__init__ (VStr "2") (VStr "Tie the following knots")
              [Some (leaf "2a" "Square knot"); None; Some (leaf "2c" "Bowline")])).
  reflexivity.
Defined.

Lemma Forall2_in_right (A B : Type) (R : A -> B -> Prop) (l : list A) (l' : list B)
      (y : B) :
  Forall2 R l l' -> In y l' -> exists x, In x l /\ R x y.
Proof.
  induction 1 as [|x0 y0 l l' H0 Hrest IH]; [intros []|].
  intros [<-|Hy].
  - exists x0. split; [left; reflexivity | exact H0].
  - destruct (IH Hy) as [x [Hx Hr]]. exists x. split; [right; exact Hx | exact Hr].
Qed.

Lemma parse_unsaved (n : nat) (v : value) (node : Requirement.t) :
  height v < n ->
  Requirement.convert_requirement_from_json v = Ok (Some node) ->
  unsaved node = true.
Proof.
  revert v node. induction n as [|n IH]; intros v node Hn H; [lia|].
  rewrite convert_requirement_from_json_unfold in H.
  destruct (convert_body_inv _ _ H) as [d [idnf [desc [-> [Hi [Hd [Hnode Hr]]]]]]].
  rewrite unsaved_node, Hnode.
  cbn [Requirement.parent_rqmt_id Requirement.badge_id Requirement.rqmt_id
         Requirement.__init__ Requirement.requirements is_none andb].
  destruct (dict_get "requirements" d) as [source|] eqn:Es; [|rewrite Hr; reflexivity].
  assert (Hitems : forall items,
             py_iter source = Ok items ->
             mapM Requirement.convert_requirement_from_json items
             = Ok (Requirement.requirements node) ->
             forallb slot_unsaved (Requirement.requirements node) = true).
  { intros items Hit Hm. apply mapM_Forall2 in Hm.
    apply forallb_forall. intros slot Hslot.
    destruct (@Forall2_in_right _ _ _ _ _ _ Hm Hslot) as [item [Hin Hp]].
    destruct slot as [child|]; [|reflexivity]. cbn [slot_unsaved].
    apply (IH item child); [|exact Hp].
    pose proof (@height_iter source items item Hit Hin).
    pose proof (@height_dict_get _ _ _ Es). lia. }
  destruct source; try (rewrite Hr; reflexivity);
    destruct Hr as [items [Hit Hm]]; exact (Hitems items Hit Hm).
Qed.

(** X2: whatever object the Requirement parser returns is fresh: nowhere in
    its tree is badge_id, rqmt_id or parent_rqmt_id set. *)
Theorem X2_requirement_parse_fresh (v : value) (node : Requirement.t) :
  Requirement.convert_requirement_from_json v = Ok (Some node) ->
  unsaved node = true.
Proof. apply (@parse_unsaved (S (height v))). lia. Qed.

Lemma X2_requirement_parse_fresh_witness :
  unsaved (Requirement.__init__ (VStr "2") (VStr "Tie the following knots")
             [Some (leaf "2a" "Square knot"); None; Some (leaf "2c" "Bowline")]) = true.
Proof.
  apply (@X2_requirement_parse_fresh (VDict knots_record)). reflexivity.
Defined.

(** X3: only a dict can yield an object.  On any other value the Requirement
    parser returns null or raises a TypeError, and the MeritBadge parser
    returns null or raises a TypeError or an AttributeError. *)
Theorem X3_parsers_reject_non_dicts (v : value) :
  (forall d, v <> VDict d) ->
  (Requirement.convert_requirement_from_json v = Ok None
   \/ Requirement.convert_requirement_from_json v = Raise TypeError)
  /\ (MeritBadge.convert_merit_badge_from_json v = Ok None
      \/ MeritBadge.convert_merit_badge_from_json v = Raise TypeError
      \/ MeritBadge.convert_merit_badge_from_json v = Raise AttributeError).
Proof.
  intros Hv. rewrite convert_requirement_from_json_unfold.
  destruct v as [| | | |s|l|d].
  1-4: split; [right | right; left]; reflexivity.
  - unfold Requirement.convert_body, MeritBadge.convert_merit_badge_from_json, and_then.
    simpl. split.
    + destruct (is_substring "rqmt_idnf" s), (is_substring "rqmt_desc" s),
        (is_substring "requirements" s); auto.
    + destruct (is_substring "badge_name" s), (is_substring "badge_desc" s),
        (is_substring "eagle_badge" s), (is_substring "dpmt_name" s),
        (is_substring "requirements" s); auto.
  - unfold Requirement.convert_body, MeritBadge.convert_merit_badge_from_json, and_then.
    simpl. split.
    + destruct (existsb (value_is_str "rqmt_idnf") l),
        (existsb (value_is_str "rqmt_desc") l),
        (existsb (value_is_str "requirements") l); auto.
    + destruct (existsb (value_is_str "badge_name") l),
        (existsb (value_is_str "badge_desc") l),
        (existsb (value_is_str "eagle_badge") l),
        (existsb (value_is_str "dpmt_name") l),
        (existsb (value_is_str "requirements") l); auto.
  - exfalso. apply (Hv d). reflexivity.
Qed.

Lemma X3_parsers_reject_non_dicts_witness :
  (Requirement.convert_requirement_from_json (VStr "rqmt_idnf, rqmt_desc") = Ok None
   \/ Requirement.convert_requirement_from_json (VStr "rqmt_idnf, rqmt_desc")
      = Raise TypeError)
  /\ (MeritBadge.convert_merit_badge_from_json (VStr "rqmt_idnf, rqmt_desc") = Ok None
      \/ MeritBadge.convert_merit_badge_from_json (VStr "rqmt_idnf, rqmt_desc")
         = Raise TypeError
      \/ MeritBadge.convert_merit_badge_from_json (VStr "rqmt_idnf, rqmt_desc")
         = Raise AttributeError).
Proof.
  apply (@X3_parsers_reject_non_dicts (VStr "rqmt_idnf, rqmt_desc")).
  intros d. discriminate.
Defined.

(** A string that merely mentions both field names passes the membership
    tests of line 17, by substring, and then fails at the subscript. *)
Example string_naming_both_fields :
  Requirement.convert_requirement_from_json (VStr "rqmt_idnf, rqmt_desc")
  = Raise TypeError
  /\ Requirement.convert_requirement_from_json (VStr "rqmt_idnf") = Ok None.
Proof. split; vm_compute; reflexivity. Qed.

Lemma mapM_Forall2_total (A B : Type) (f : A -> result B) (R : A -> B -> Prop)
      (items : list A) :
  (forall x, In x items -> exists y, f x = Ok y /\ R x y) ->
  exists ys, mapM f items = Ok ys /\ Forall2 R items ys.
Proof.
  induction items as [|x rest IH]; intros H.
  - exists []. split; [reflexivity | constructor].
  - destruct (H x (or_introl eq_refl)) as [y [Hy Ry]].
    destruct IH as [ys [Hys Rys]].
    + intros z Hz. apply H. right. exact Hz.
    + exists (y :: ys). simpl. rewrite Hy, Hys. split; [reflexivity|].
      constructor; assumption.
Qed.

Lemma list_sum_cons (n : nat) (l : list nat) : list_sum (n :: l) = n + list_sum l.
Proof. reflexivity. Qed.

Lemma mirrors_forest (items : list value) (slots : list (option Requirement.t)) :
  Forall2 mirrors items slots ->
  forallb slot_complete slots = true
  /\ list_sum (map slot_objects slots) = list_sum (map records items).
Proof.
  induction 1 as [|item slot items slots [node [-> [Hc Ho]]] Hrest [IHc IHo]].
  - split; reflexivity.
  - cbn [forallb map slot_complete slot_objects]. rewrite !list_sum_cons.
    rewrite Hc, IHc, Ho, IHo. split; reflexivity.
Qed.

Lemma strict_record_mirrored (n : nat) (v : value) :
  height v < n -> strict_record v = true ->
  exists node,
    Requirement.convert_requirement_from_json v = Ok (Some node)
    /\ complete node = true /\ objects node = records v.
Proof.
  revert v. induction n as [|n IH]; intros v Hn Hv; [lia|].
  destruct v as [| | | | | |d]; try discriminate.
  rewrite strict_record_dict in Hv.
  apply andb_prop in Hv. destruct Hv as [Hkeys Hnested].
  apply andb_prop in Hkeys. destruct Hkeys as [Hi Hd]. unfold dict_has in Hi, Hd.
  destruct (dict_get "rqmt_idnf" d) as [idnf|] eqn:Ei; [|discriminate].
  destruct (dict_get "rqmt_desc" d) as [desc|] eqn:Ed; [|discriminate].
  rewrite (convert_dict_present d Ei Ed), records_dict.
  destruct (dict_get "requirements" d) as [source|] eqn:Es.
  - destruct source as [| | | | |l|]; try discriminate.
    + eexists. split; [reflexivity|]. split; reflexivity.
    + destruct (@mapM_Forall2_total _ _ Requirement.convert_requirement_from_json
                  mirrors l) as [slots [Hm Hf]].
      * intros x Hx. rewrite forallb_forall in Hnested.
        destruct (IH x) as [node [Hp [Hc Ho]]].
        -- pose proof (height_in_list x l Hx). pose proof (@height_dict_get _ _ _ Es). lia.
        -- apply Hnested, Hx.
        -- exists (Some node). split; [exact Hp|]. exists node. auto.
      * cbn [py_iter bind]. rewrite Hm. cbn [bind]. eexists. split; [reflexivity|].
        destruct (mirrors_forest Hf) as [Hc Ho].
        rewrite complete_node, objects_node. cbn [Requirement.requirements
          Requirement.__init__]. rewrite Hc, Ho. split; reflexivity.
  - eexists. split; [reflexivity|]. split; reflexivity.
Qed.

(** X4: on a requirement record every nested record of which has both of its
    fields, the Requirement parser returns a tree without a null slot
    that has one object per record. *)
Theorem X4_strict_record_parses_complete (v : value) :
  strict_record v = true ->
  exists node,
    Requirement.convert_requirement_from_json v = Ok (Some node)
    /\ complete node = true
    /\ objects node = records v.
Proof. apply (@strict_record_mirrored (S (height v))). lia. Qed.

Lemma X4_strict_record_parses_complete_witness :
  exists node,
    Requirement.convert_requirement_from_json
      (VDict [("rqmt_idnf", VStr "4"); ("rqmt_desc", VStr "Plan a trek");
              ("requirements", VList [leaf_record "4a" "Pack a bag";
                                      VDict [("rqmt_idnf", VStr "4b");
                                             ("rqmt_desc", VStr "Read a map");
                                             ("requirements", VNone)]])])
    = Ok (Some node)
    /\ complete node = true
    /\ objects node = 3.
Proof.
  apply (@X4_strict_record_parses_complete
           (VDict [("rqmt_idnf", VStr "4"); ("rqmt_desc", VStr "Plan a trek");
                   ("requirements", VList [leaf_record "4a" "Pack a bag";
                                           VDict [("rqmt_idnf", VStr "4b");
                                                  ("rqmt_desc", VStr "Read a map");
                                                  ("requirements", VNone)]])])).
  reflexivity.
Defined.

(** X5: whatever object the MeritBadge parser returns was read off a dict
    that has all five keys: it carries the dict's name, description,
    eagle flag and department name verbatim, its own badge_id is not set,
    its root sequence holds, slot by slot, what the Requirement parser
    returns on the elements of the "requirements" value, and no object
    under it has an identifier set. *)
Theorem X5_merit_badge_parse_faithful (v : value) (badge : MeritBadge.t) :
  MeritBadge.convert_merit_badge_from_json v = Ok (Some badge) ->
  exists d source items,
    v = VDict d
    /\ dict_get "badge_name" d = Some (MeritBadge.badge_name badge)
    /\ dict_get "badge_desc" d = Some (MeritBadge.badge_desc badge)
    /\ dict_get "eagle_badge" d = Some (MeritBadge.eagle_badge badge)
    /\ dict_get "dpmt_name" d = Some (MeritBadge.dpmt_name badge)
    /\ MeritBadge.badge_id badge = VNone
    /\ dict_get "requirements" d = Some source
    /\ py_iter source = Ok items
    /\ Forall2 (fun item slot => Requirement.convert_requirement_from_json item = Ok slot)
               items (MeritBadge.requirements badge)
    /\ forallb slot_unsaved (MeritBadge.requirements badge) = true.
Proof.
  destruct v as [| | | |s|l|d].
  1-4: discriminate.
  - unfold MeritBadge.convert_merit_badge_from_json, and_then. simpl.
    destruct (is_substring "badge_name" s), (is_substring "badge_desc" s),
      (is_substring "eagle_badge" s), (is_substring "dpmt_name" s),
      (is_substring "requirements" s); discriminate.
  - unfold MeritBadge.convert_merit_badge_from_json, and_then. simpl.
    destruct (existsb (value_is_str "badge_name") l),
      (existsb (value_is_str "badge_desc") l),
      (existsb (value_is_str "eagle_badge") l),
      (existsb (value_is_str "dpmt_name") l),
      (existsb (value_is_str "requirements") l); discriminate.
  - rewrite convert_merit_badge_dict. unfold badge_keys, dict_has, py_get, py_getitem.
    cbn [forallb].
    destruct (dict_get "badge_name" d) as [name|] eqn:En; [|discriminate].
    destruct (dict_get "badge_desc" d) as [desc|] eqn:Ed; [|discriminate].
    destruct (dict_get "eagle_badge" d) as [eagle|] eqn:Ee; [|discriminate].
    destruct (dict_get "dpmt_name" d) as [dpmt|] eqn:Ep; [|discriminate].
    destruct (dict_get "requirements" d) as [source|] eqn:Es; [|discriminate].
    cbn [andb bind].
    destruct (py_iter source) as [items|err] eqn:Ei; cbn [bind]; [|discriminate].
    destruct (mapM Requirement.convert_requirement_from_json items) as [slots|err]
      eqn:Em; cbn [bind]; [|discriminate].
    intros H. injection H as <-. exists d, source, items.
    apply mapM_Forall2 in Em.
    repeat (split; [first [reflexivity | assumption]|]).
    apply forallb_forall. intros [node|] Hin; [|reflexivity].
    destruct (@Forall2_in_right _ _ _ _ _ _ Em Hin) as [item [_ Hp]].
    apply (@parse_unsaved (S (height item)) item node); [lia | exact Hp].
Qed.

Lemma X5_merit_badge_parse_faithful_witness :
  exists d source items,
    VDict (camping_record (VList [leaf_record "1" "Pitch a tent"])) = VDict d
    /\ dict_get "badge_name" d = Some (VStr "Camping")
    /\ dict_get "badge_desc" d = Some (VStr "Outdoor skills")
    /\ dict_get "eagle_badge" d = Some (VBool true)
    /\ dict_get "dpmt_name" d = Some (VStr "Outdoor")
    /\ VNone = VNone
    /\ dict_get "requirements" d = Some source
    /\ py_iter source = Ok items
    /\ Forall2 (fun item slot => Requirement.convert_requirement_from_json item = Ok slot)
               items [Some (leaf "1" "Pitch a tent")]
    /\ forallb slot_unsaved [Some (leaf "1" "Pitch a tent")] = true.
Proof.
  apply (@X5_merit_badge_parse_faithful
           (VDict (camping_record (VList [leaf_record "1" "Pitch a tent"])))
           (MeritBadge.__init__ (VStr "Camping") (VStr "Outdoor skills") (VBool true)
                                (VStr "Outdoor") [Some (leaf "1" "Pitch a tent")])).
  reflexivity.
Defined.

(** ** What a walk leaves behind *)

Section WalkFacts.

Variable St : Type.
Variable execute : call -> St -> response * St.

Lemma new_requirement_badge (badge_id parent_rqmt_id : value) (node : Requirement.t) :
  dict_get "badge_id" (new_requirement badge_id node parent_rqmt_id) = Some badge_id.
Proof. unfold new_requirement. destruct (is_none parent_rqmt_id); reflexivity. Qed.

Lemma hole_lines_add (a b : nat) : hole_lines (a + b) = hole_lines a ++ hole_lines b.
Proof. apply repeat_app. Qed.

Lemma slots_profile_of_children (l : list (option Requirement.t)) :
  on_children (node_profile execute) l -> slots_profile execute l.
Proof.
  induction 1 as [|slot rest Hslot Hrest IH]; intros b p w.
  - exists [], []. cbn. rewrite !app_nil_r. repeat split; auto.
  - cbn zeta. rewrite walk_cons. destruct slot as [node|]; cbn [on_slot].
    + destruct (Hslot b p w) as [new1 [errs1 H1]]. cbn zeta in H1.
      destruct (insert_requirement execute b p node w) as [node' w1]. cbn [fst snd] in H1.
      destruct H1 as [Hc1 [He1 [Ho1 [Ht1 [[Hlo1 Hhi1] [Hs1 Hok1]]]]]].
      destruct (IH b p w1) as [new2 [errs2 H2]]. cbn zeta in H2.
      destruct (insert_merit_badge_requirements_recursively execute b rest p w1)
        as [rest' w2]. cbn [fst snd] in *.
      destruct H2 as [Hc2 [He2 [Ho2 [Ht2 [[Hlo2 Hhi2] [Hs2 Hok2]]]]]].
      exists (new1 ++ new2), (errs1 ++ errs2).
      split; [rewrite Hc2, Hc1, <- app_assoc; reflexivity|].
      split; [rewrite He2, He1, <- app_assoc; reflexivity|].
      split; [congruence|].
      split; [apply Forall_app; split; assumption|].
      cbn [filter is_object map slot_objects slot_holes option_map List.length].
      rewrite !list_sum_cons, length_app.
      split; [lia|]. split; [rewrite Hs1, Hs2; reflexivity|].
      unfold all_return_ids in *. rewrite forallb_app. intros H.
      apply andb_prop in H. destruct H as [Ha Hb].
      destruct (Hok1 Ha) as [Hn1 [Hh1 Hv1]]. destruct (Hok2 Hb) as [Hn2 [Hh2 Hv2]].
      split; [lia|]. split.
      * rewrite hole_lines_add, Hh1, Hh2. reflexivity.
      * constructor; assumption.
    + destruct (IH b p (report AttributeError w)) as [new [errs H2]]. cbn zeta in H2.
      destruct (insert_merit_badge_requirements_recursively
                  execute b rest p (report AttributeError w)) as [rest' w2].
      cbn [fst snd] in *.
      destruct H2 as [Hc2 [He2 [Ho2 [Ht2 [[Hlo2 Hhi2] [Hs2 Hok2]]]]]].
      exists new, (GENERAL_ERROR_DETECTED AttributeError :: errs).
      split; [exact Hc2|].
      split; [rewrite He2; cbn [report print_err stderr error_line];
              rewrite <- app_assoc; reflexivity|].
      split; [exact Ho2|]. split; [exact Ht2|].
      cbn [filter is_object map slot_objects slot_holes option_map].
      rewrite !list_sum_cons.
      split; [lia|]. split; [rewrite Hs2; reflexivity|].
      intros H. destruct (Hok2 H) as [Hn2 [Hh2 Hv2]].
      split; [lia|]. split.
      * rewrite Hh2. reflexivity.
      * constructor; [exact I | exact Hv2].
Qed.

Lemma node_profile_all (node : Requirement.t) : node_profile execute node.
Proof.
  induction node as [node IH] using requirement_ind.
  apply slots_profile_of_children in IH.
  intros b p w. cbn zeta. rewrite insert_requirement_step. cbn zeta.
  destruct (execute _ (backend w)) as [r st].
  set (request := Insert "merit_badge_rqmt" (new_requirement b node p)).
  assert (Htarget : targets b (request, r)).
  { exists (new_requirement b node p). split; [reflexivity|].
    apply new_requirement_badge. }
  pose proof (objects_node node) as Hobj.
  destruct (generated_id "rqmt_id" r) as [[id|]|e] eqn:G.
  - destruct (IH b id (noted "rqmt_id" id (record_call request r st (noted "badge_id" b w))))
      as [new [errs H]]. cbn zeta in H.
    destruct (insert_merit_badge_requirements_recursively _ _ _ _ _) as [kids w2].
    cbn [fst snd] in *.
    destruct H as [Hc [He [Ho [Ht [[Hlo Hhi] [Hs Hok]]]]]].
    exists ((request, r) :: new), errs.
    split; [rewrite Hc; cbn [noted record_call remote_calls];
            rewrite <- app_assoc; reflexivity|].
    split; [exact He|]. split; [exact Ho|].
    split; [constructor; assumption|].
    cbn [List.length]. split; [lia|]. split.
    + rewrite (erase_node node), erase_node.
      cbn [Requirement.rqmt_idnf Requirement.rqmt_desc Requirement.requirements
             Requirement.parent_rqmt_id Requirement.with_requirements
             Requirement.with_rqmt_id Requirement.with_badge_id].
      rewrite Hs. reflexivity.
    + unfold all_return_ids. cbn [forallb snd]. unfold returns_id at 1. rewrite G.
      intros H. apply andb_prop in H. destruct H as [Hid Hnew].
      destruct (Hok Hnew) as [Hn [Hh Hv]].
      split; [lia|]. split; [rewrite holes_node; exact Hh|].
      apply saved_node. cbn [Requirement.badge_id Requirement.rqmt_id
        Requirement.requirements Requirement.with_requirements
        Requirement.with_rqmt_id Requirement.with_badge_id].
      split; [reflexivity|]. split; [apply negb_true_iff, Hid | exact Hv].
  - exists [(request, r)], []. cbn [fst snd].
    split; [reflexivity|]. split; [rewrite app_nil_r; reflexivity|].
    split; [reflexivity|]. split; [constructor; [exact Htarget | constructor]|].
    cbn [List.length]. split; [lia|]. split.
    + rewrite (erase_node node), erase_node. reflexivity.
    + unfold all_return_ids. cbn [forallb snd]. unfold returns_id. rewrite G.
      discriminate.
  - exists [(request, r)], [error_line e]. cbn [fst snd].
    split; [reflexivity|]. split; [reflexivity|].
    split; [reflexivity|]. split; [constructor; [exact Htarget | constructor]|].
    cbn [List.length]. split; [lia|]. split.
    + rewrite (erase_node node), erase_node. reflexivity.
    + unfold all_return_ids. cbn [forallb snd]. unfold returns_id. rewrite G.
      discriminate.
Qed.

Lemma walk_profile (l : list (option Requirement.t)) : slots_profile execute l.
Proof.
  apply slots_profile_of_children. unfold on_children. apply Forall_forall.
  intros [node|] _; [apply node_profile_all | exact I].
Qed.


(** X6: the walk keeps the tree: whatever the backend answers, the sequence
    it hands back has the objects and the null slots of the sequence it
    was given, in the same places, with their identifier codes,
    descriptions and children; only badge_id and rqmt_id can differ. *)
Theorem X6_walk_keeps_tree (badge_id parent_rqmt_id : value)
        (requirements : list (option Requirement.t)) (w : World St) :
  let run := insert_merit_badge_requirements_recursively
               execute badge_id requirements parent_rqmt_id w in
  map (option_map erase) (fst run) = map (option_map erase) requirements
  /\ List.length (fst run) = List.length requirements.
Proof.
  cbn zeta.
  destruct (walk_profile requirements badge_id parent_rqmt_id w) as [new [errs H]].
  cbn zeta in H. destruct H as [_ [_ [_ [_ [_ [Hs _]]]]]].
  split; [exact Hs|].
  rewrite <- (length_map (option_map erase)), Hs. apply length_map.
Qed.

(** X7: every request of the walk is an insert into merit_badge_rqmt of a row
    naming the badge it was called for.  There are at least as many
    requests as the given sequence has objects and at most as many as the
    whole tree has; nothing is printed to the output stream. *)
Theorem X7_walk_requests (badge_id parent_rqmt_id : value)
        (requirements : list (option Requirement.t)) (w : World St) :
  let run := insert_merit_badge_requirements_recursively
               execute badge_id requirements parent_rqmt_id w in
  exists new,
    remote_calls (snd run) = remote_calls w ++ new
    /\ Forall (targets badge_id) new
    /\ List.length (filter is_object requirements) <= List.length new
    /\ List.length new <= list_sum (map slot_objects requirements)
    /\ stdout (snd run) = stdout w.
Proof.
  cbn zeta.
  destruct (walk_profile requirements badge_id parent_rqmt_id w) as [new [errs H]].
  cbn zeta in H. destruct H as [Hc [_ [Ho [Ht [[Hlo Hhi] _]]]]].
  exists new. auto.
Qed.

(** X8: a walk in which every insert returns a generated id reaches the whole
    tree: it makes one request per object, every object ends with the
    badge id and an identifier of its own, and the error stream gains one
    GENERAL ERROR line for each null slot of the tree and nothing else. *)
Theorem X8_walk_full_success (badge_id parent_rqmt_id : value)
        (requirements : list (option Requirement.t)) (w : World St)
        (new : list (call * response)) :
  let run := insert_merit_badge_requirements_recursively
               execute badge_id requirements parent_rqmt_id w in
  remote_calls (snd run) = remote_calls w ++ new ->
  all_return_ids new = true ->
  List.length new = list_sum (map slot_objects requirements)
  /\ Forall (slot_saved badge_id) (fst run)
  /\ stderr (snd run) =
     stderr w ++ hole_lines (list_sum (map slot_holes requirements)).
Proof.
  intros run Hcalls Hids.
  destruct (walk_profile requirements badge_id parent_rqmt_id w) as [new' [errs H]].
  cbn zeta in H. fold run in H. destruct H as [Hc [He [_ [_ [_ [_ Hok]]]]]].
  rewrite Hcalls in Hc. apply app_inv_head in Hc. subst new'.
  destruct (Hok Hids) as [Hn [Hh Hv]]. rewrite He, Hh. auto.
Qed.

(** X9: when the insert for a node returns no data, the node is passed over
    in silence: badge_id is all that changes on it, its children are not
    visited, no line is logged, and the walk goes on with the next
    sibling. *)
Theorem X9_walk_no_data_skips_children (badge_id parent_rqmt_id : value)
        (node : Requirement.t) (siblings : list (option Requirement.t))
        (w : World St) (r : response) (st : St) :
  let request := Insert "merit_badge_rqmt"
                        (new_requirement badge_id node parent_rqmt_id) in
  execute request (backend w) = (r, st) ->
  generated_id "rqmt_id" r = Ok None ->
  let w1 := record_call request r st (noted "badge_id" badge_id w) in
  let later :=
    insert_merit_badge_requirements_recursively
      execute badge_id siblings parent_rqmt_id w1 in
  insert_merit_badge_requirements_recursively
    execute badge_id (Some node :: siblings) parent_rqmt_id w
  = (Some (Requirement.with_badge_id badge_id node) :: fst later, snd later)
  /\ stderr w1 = stderr w
  /\ remote_calls w1 = remote_calls w ++ [(request, r)]
  /\ assignments w1 = assignments w ++ [("badge_id", badge_id)].
Proof.
  intros request Hexec Hnone w1 later. repeat split.
  rewrite walk_cons. cbn [on_slot]. rewrite insert_requirement_step. cbn zeta.
  fold request. rewrite Hexec, Hnone. fold w1. fold later.
  destruct later as [rest' w2]. reflexivity.
Qed.

(** X10: when the row an insert hands back carries a null rqmt_id, the
    children of the node are inserted as if they were roots: the request
    for each child object is made with a row that has no parent_rqmt_id
    key. *)
Theorem X10_null_id_children_become_roots (badge_id parent_rqmt_id : value)
        (node child : Requirement.t) (w : World St) (r : response) (st : St) :
  let request := Insert "merit_badge_rqmt"
                        (new_requirement badge_id node parent_rqmt_id) in
  execute request (backend w) = (r, st) ->
  generated_id "rqmt_id" r = Ok (Some VNone) ->
  In (Some child) (Requirement.requirements node) ->
  let run := insert_requirement execute badge_id parent_rqmt_id node w in
  exists new,
    remote_calls (snd run) = remote_calls w ++ (request, r) :: new
    /\ In (Insert "merit_badge_rqmt" (new_requirement badge_id child VNone))
          (map fst new)
    /\ dict_get "parent_rqmt_id" (new_requirement badge_id child VNone) = None
    /\ Requirement.rqmt_id (fst run) = VNone.
Proof.
  intros request Hexec Hnull Hchild run. unfold run.
  rewrite insert_requirement_step. cbn zeta. fold request. rewrite Hexec, Hnull.
  destruct (walk_trace execute (Requirement.requirements node) badge_id VNone
              (noted "rqmt_id" VNone
                 (record_call request r st (noted "badge_id" badge_id w))))
    as [new [Hc [_ Hatt]]].
  destruct (insert_merit_badge_requirements_recursively _ _ _ _ _) as [kids w2].
  cbn [fst snd] in *. exists new. split; [|split; [|split]].
  - rewrite Hc. cbn [noted record_call remote_calls]. rewrite <- app_assoc. reflexivity.
  - apply Hatt, Hchild.
  - reflexivity.
  - reflexivity.
Qed.

End WalkFacts.

(** ** The badge seeder *)

Section BadgeFacts.

Variable St : Type.
Variable execute : call -> St -> response * St.

Lemma targets_not_badge_request (badge_id : value) (new : list (call * response)) :
  Forall (targets badge_id) new -> filter badge_request new = [].
Proof.
  induction 1 as [|cr rest [row [Hcr _]] Hrest IH]; [reflexivity|].
  cbn [filter]. unfold badge_request at 1. rewrite Hcr, IH. reflexivity.
Qed.

(** What one turn of the loop over the badges of a department adds to the
    record of requests: the insert of the badge, then requests that all
    belong to the requirement walk. *)
Lemma insert_merit_badge_trace (dpmt_id : value) (merit_badge : MeritBadge.t)
      (w : World St) :
  exists r rest,
    remote_calls (snd (insert_merit_badge execute dpmt_id merit_badge w)) =
    remote_calls w ++ (Insert "merit_badge" (new_merit_badge merit_badge dpmt_id), r) :: rest
    /\ filter badge_request rest = [].
Proof.
  rewrite insert_merit_badge_step. cbn zeta.
  destruct (execute _ (backend w)) as [r st].
  destruct (generated_id "badge_id" r) as [[id|]|e].
  - destruct (walk_profile execute (MeritBadge.requirements merit_badge) id VNone
                (noted "badge_id" id
                   (record_call (Insert "merit_badge" (new_merit_badge merit_badge dpmt_id))
                                r st w)))
      as [new [errs H]]. cbn zeta in H.
    destruct (insert_merit_badge_requirements_recursively _ _ _ _ _) as [roots w2].
    cbn [fst snd] in *. destruct H as [Hc [_ [_ [Ht _]]]].
    exists r, new. split.
    + rewrite Hc. cbn [noted record_call remote_calls]. rewrite <- app_assoc. reflexivity.
    + apply (targets_not_badge_request Ht).
  - exists r, []. split; reflexivity.
  - exists r, []. split; reflexivity.
Qed.

Lemma badges_trace (dpmt_id : value) (merit_badges : list MeritBadge.t) (w : World St) :
  let run := for_each (insert_merit_badge execute dpmt_id) merit_badges w in
  exists new,
    remote_calls (snd run) = remote_calls w ++ new
    /\ map fst (filter badge_request new) =
       map (fun merit_badge => Insert "merit_badge" (new_merit_badge merit_badge dpmt_id))
           merit_badges
    /\ List.length (fst run) = List.length merit_badges.
Proof.
  cbn zeta. revert w. induction merit_badges as [|merit_badge rest IH]; intros w.
  - exists []. cbn. rewrite app_nil_r. auto.
  - cbn [for_each].
    destruct (insert_merit_badge_trace dpmt_id merit_badge w) as [r [tail [Hc Hf]]].
    destruct (insert_merit_badge execute dpmt_id merit_badge w) as [badge' w1].
    cbn [snd] in Hc.
    destruct (IH w1) as [new [Hc' [Hrows Hlen]]].
    destruct (for_each (insert_merit_badge execute dpmt_id) rest w1) as [rest' w2].
    cbn [fst snd] in *.
    exists (((Insert "merit_badge" (new_merit_badge merit_badge dpmt_id), r) :: tail)
              ++ new).
    split; [rewrite Hc', Hc, <- app_assoc; reflexivity|]. split.
    + rewrite filter_app. cbn [filter]. unfold badge_request at 1. cbn [fst].
      rewrite String.eqb_refl, Hf. cbn [app map fst]. rewrite Hrows. reflexivity.
    + cbn [List.length]. rewrite Hlen. reflexivity.
Qed.

(** X11: every badge of a department is inserted exactly once, in the order of
    the list and with the department's id in its row, whatever happens to
    the badges before it: the inserts into merit_badge that the loop over
    a department's badges makes are the rows of its badges. *)
Theorem X11_department_badges_all_attempted (dpmt_id : value)
        (merit_badges : list MeritBadge.t) (w : World St) :
  let run := for_each (insert_merit_badge execute dpmt_id) merit_badges w in
  exists new,
    remote_calls (snd run) = remote_calls w ++ new
    /\ map fst (filter badge_request new) =
       map (fun merit_badge => Insert "merit_badge" (new_merit_badge merit_badge dpmt_id))
           merit_badges
    /\ List.length (fst run) = List.length merit_badges.
Proof. apply badges_trace. Qed.

(** X12: when the insert of a badge returns a generated id, the id is captured
    on the badge, whose other fields stay, and its requirement tree is
    walked from the roots for that id: every request after the badge's own
    is an insert into merit_badge_rqmt naming the generated badge id. *)
Theorem X12_badge_insert_links_requirements (dpmt_id merit_badge_id : value)
        (merit_badge : MeritBadge.t) (w : World St) (r : response) (st : St) :
  let request := Insert "merit_badge" (new_merit_badge merit_badge dpmt_id) in
  execute request (backend w) = (r, st) ->
  generated_id "badge_id" r = Ok (Some merit_badge_id) ->
  let run := insert_merit_badge execute dpmt_id merit_badge w in
  let walk :=
    insert_merit_badge_requirements_recursively
      execute merit_badge_id (MeritBadge.requirements merit_badge) VNone
      (noted "badge_id" merit_badge_id (record_call request r st w)) in
  fst run = MeritBadge.with_requirements
              (fst walk) (MeritBadge.with_badge_id merit_badge_id merit_badge)
  /\ snd run = snd walk
  /\ MeritBadge.badge_id (fst run) = merit_badge_id
  /\ map (option_map erase) (MeritBadge.requirements (fst run))
     = map (option_map erase) (MeritBadge.requirements merit_badge)
  /\ exists new,
       remote_calls (snd run) = remote_calls w ++ (request, r) :: new
       /\ Forall (targets merit_badge_id) new.
Proof.
  intros request Hexec Hid run walk. unfold run.
  rewrite insert_merit_badge_step. cbn zeta. fold request. rewrite Hexec, Hid.
  fold walk.
  destruct (walk_profile execute (MeritBadge.requirements merit_badge) merit_badge_id
              VNone (noted "badge_id" merit_badge_id (record_call request r st w)))
    as [new [errs H]]. cbn zeta in H. fold walk in H.
  destruct walk as [roots w2]. cbn [fst snd] in *.
  destruct H as [Hc [_ [_ [Ht [_ [Hs _]]]]]].
  repeat split; try assumption.
  exists new. split; [|exact Ht].
  rewrite Hc. cbn [noted record_call remote_calls]. rewrite <- app_assoc. reflexivity.
Qed.

(** X13: when the insert of a badge raises, or the lines reading its answer
    do, one error line is logged, the badge object stays as it was and no
    request is made for its requirement tree. *)
Theorem X13_badge_insert_failure_contained (dpmt_id : value) (merit_badge : MeritBadge.t)
        (w : World St) (r : response) (st : St) (e : exn) :
  let request := Insert "merit_badge" (new_merit_badge merit_badge dpmt_id) in
  execute request (backend w) = (r, st) ->
  generated_id "badge_id" r = Raise e ->
  let run := insert_merit_badge execute dpmt_id merit_badge w in
  fst run = merit_badge
  /\ remote_calls (snd run) = remote_calls w ++ [(request, r)]
  /\ stderr (snd run) = stderr w ++ [error_line e]
  /\ assignments (snd run) = assignments w.
Proof.
  intros request Hexec Hfail run. unfold run.
  rewrite insert_merit_badge_step. cbn zeta. fold request. rewrite Hexec, Hfail.
  repeat split.
Qed.

End BadgeFacts.

Section SeedAllFacts.

Variable St : Type.
Variable execute : call -> St -> response * St.

Lemma resolve_dpmt_id_step (department : string) (w : World St) :
  resolve_dpmt_id execute department w =
  let request := SelectMaybeSingle "camp_dpmt" "dpmt_id" "dpmt_name" department in
  let (r, st) := execute request (backend w) in
  (lookup_answer r, record_call request r st w).
Proof.
  unfold resolve_dpmt_id, bindM, remote, lift, lookup_answer. cbn zeta.
  destruct (execute _ (backend w)) as [r st].
  destruct r as [e | [data|]]; reflexivity.
Qed.

(** X14: on a backend that finds every department, the badge seeder ends
    normally whatever the inserts do, and hands the dict back with the
    same departments in the same order and as many badges under each. *)
Theorem X14_seed_all_ends_normally
        (departments_with_merit_badges : list (string * list MeritBadge.t))
        (w : World St) :
  finds_departments execute ->
  let run := add_merit_badges_by_dpmt execute departments_with_merit_badges w in
  fst (fst run) = Ok tt
  /\ map fst (snd (fst run)) = map fst departments_with_merit_badges
  /\ map (fun group => List.length (snd group)) (snd (fst run))
     = map (fun group => List.length (snd group)) departments_with_merit_badges.
Proof.
  intros Hfinds. cbn zeta. revert w.
  induction departments_with_merit_badges as [|[department merit_badges] rest IH];
    intros w.
  - repeat split.
  - cbn [add_merit_badges_by_dpmt]. rewrite resolve_dpmt_id_step. cbn zeta.
    destruct (Hfinds department (backend w)) as [dpmt_id Hid].
    destruct (execute _ (backend w)) as [r st]. cbn [fst] in Hid. rewrite Hid.
    destruct (badges_trace execute dpmt_id merit_badges
                (print (PrintValue dpmt_id)
                   (record_call (SelectMaybeSingle "camp_dpmt" "dpmt_id" "dpmt_name"
                                                   department) r st w)))
      as [new [_ [_ Hlen]]]. cbn zeta in Hlen.
    destruct (for_each _ _ _) as [inserted w3]. cbn [fst] in Hlen.
    destruct (IH w3) as [Hok [Hkeys Hsizes]].
    destruct (add_merit_badges_by_dpmt execute rest w3) as [[outcome rest'] w4].
    cbn [fst snd map] in *. rewrite Hok, Hkeys, Hsizes, Hlen. repeat split.
Qed.

(** X15: the one thing that makes the badge seeder raise is a department
    lookup: when it raises, the last request on record is the lookup of
    one of the departments, the exception is what that lookup came to,
    and the dict is handed back with that department and all after it as
    they were. *)
Theorem X15_seed_all_raises_at_lookup_only
        (departments_with_merit_badges : list (string * list MeritBadge.t))
        (w : World St) (e : exn) :
  let run := add_merit_badges_by_dpmt execute departments_with_merit_badges w in
  fst (fst run) = Raise e ->
  exists before department merit_badges after seeded earlier r,
    departments_with_merit_badges = before ++ (department, merit_badges) :: after
    /\ snd (fst run) = seeded ++ (department, merit_badges) :: after
    /\ map fst seeded = map fst before
    /\ remote_calls (snd run) =
       earlier ++ [(SelectMaybeSingle "camp_dpmt" "dpmt_id" "dpmt_name" department, r)]
    /\ lookup_answer r = Raise e.
Proof.
  cbn zeta. revert w.
  induction departments_with_merit_badges as [|[department merit_badges] rest IH];
    intros w; [discriminate|].
  cbn [add_merit_badges_by_dpmt]. rewrite resolve_dpmt_id_step. cbn zeta.
  destruct (execute _ (backend w)) as [r st].
  destruct (lookup_answer r) as [dpmt_id|e'] eqn:Ha.
  - destruct (for_each _ _ _) as [inserted w3].
    specialize (IH w3).
    destruct (add_merit_badges_by_dpmt execute rest w3) as [[outcome rest'] w4].
    cbn [fst snd] in *. intros Hraise.
    destruct (IH Hraise)
      as [before [d [bs [after [seeded [earlier [r' [Hsplit [Hout [Hkeys [Hc Hr]]]]]]]]]]].
    exists ((department, merit_badges) :: before), d, bs, after,
      ((department, inserted) :: seeded), earlier, r'.
    rewrite Hsplit, Hout. cbn [map fst app]. rewrite Hkeys. auto.
  - cbn [fst snd]. intros Hraise. injection Hraise as ->.
    exists [], department, merit_badges, rest, [], (remote_calls w), r.
    repeat split. exact Ha.
Qed.

End SeedAllFacts.

Lemma serial_finds_departments : finds_departments serial.
Proof. intros pattern st. eexists. reflexivity. Qed.

Lemma X14_seed_all_ends_normally_witness :
  let run := add_merit_badges_by_dpmt serial seeded_groups serial_world in
  fst (fst run) = Ok tt
  /\ map fst (snd (fst run)) = map fst seeded_groups
  /\ map (fun group => List.length (snd group)) (snd (fst run))
     = map (fun group => List.length (snd group)) seeded_groups.
Proof.
  apply (@X14_seed_all_ends_normally Z serial seeded_groups serial_world).
  exact serial_finds_departments.
Defined.

(** The run of the witness above: two lookups, two badges, five
    requirement rows, and one line for the null slot of the sample
    tree. *)
Example serial_run :
  let run := add_merit_badges_by_dpmt serial seeded_groups serial_world in
  map (fun cr => match fst cr with
                 | Insert table _ => table
                 | SelectMaybeSingle table _ _ _ => table
                 end) (remote_calls (snd run))
  = ["camp_dpmt"; "merit_badge"; "merit_badge_rqmt"; "merit_badge_rqmt";
     "merit_badge_rqmt"; "merit_badge_rqmt";
     "camp_dpmt"; "merit_badge"; "merit_badge_rqmt"]
  /\ stderr (snd run) = [GENERAL_ERROR_DETECTED AttributeError]
  /\ map (fun group => map MeritBadge.badge_id (snd group)) (snd (fst run))
     = [[VInt 2]; [VInt 8]].
Proof. vm_compute. repeat split. Qed.

Lemma X15_seed_all_raises_at_lookup_only_witness :
  exists before department merit_badges after seeded earlier r,
    seeded_groups = before ++ (department, merit_badges) :: after
    /\ snd (fst (add_merit_badges_by_dpmt
                   scripted seeded_groups
                   (fresh_world [Returns (Some (VDict [("dpmt_id", VInt 1)]));
                                 Returns (Some VNone);
                                 Returns (Some (VDict [("id", VInt 2)]))])))
       = seeded ++ (department, merit_badges) :: after
    /\ map fst seeded = map fst before
    /\ remote_calls
         (snd (add_merit_badges_by_dpmt
                 scripted seeded_groups
                 (fresh_world [Returns (Some (VDict [("dpmt_id", VInt 1)]));
                               Returns (Some VNone);
                               Returns (Some (VDict [("id", VInt 2)]))]))) =
       earlier ++ [(SelectMaybeSingle "camp_dpmt" "dpmt_id" "dpmt_name" department, r)]
    /\ lookup_answer r = Raise (KeyError (VStr "dpmt_id")).
Proof.
  apply (@X15_seed_all_raises_at_lookup_only
           _ scripted seeded_groups
           (fresh_world [Returns (Some (VDict [("dpmt_id", VInt 1)]));
                         Returns (Some VNone);
                         Returns (Some (VDict [("id", VInt 2)]))])
           (KeyError (VStr "dpmt_id"))).
  reflexivity.
Defined.

(** ** Printing the parsed badges *)

Section PrintFacts.

Variable St : Type.

Lemma requirement_lines_node (indent : string) (node : Requirement.t) :
  requirement_lines indent node =
  PrintRequirement indent (Requirement.rqmt_idnf node) (Requirement.rqmt_desc node)
  :: flat_map (slot_lines (indent ++ tab)%string) (Requirement.requirements node).
Proof. destruct node. reflexivity. Qed.

Lemma print_slots_outcome (l : list (option Requirement.t)) :
  on_children
    (fun node =>
       forall indent (w : World St),
         let run := print_requirement indent node w in
         fst run = (if complete node then Ok tt else Raise AttributeError)
         /\ (complete node = true ->
             stdout (snd run) = stdout w ++ requirement_lines indent node
             /\ count (snd run) = count w + objects node)) l ->
  forall indent (w : World St),
    let run := for_M (on_slot_M (print_requirement indent)) l w in
    fst run = (if forallb slot_complete l then Ok tt else Raise AttributeError)
    /\ (forallb slot_complete l = true ->
        stdout (snd run) = stdout w ++ flat_map (slot_lines indent) l
        /\ count (snd run) = count w + list_sum (map slot_objects l)).
Proof.
  induction 1 as [|slot rest Hslot Hrest IH]; intros indent w; cbn zeta.
  - cbn. rewrite app_nil_r, Nat.add_0_r. auto.
  - cbn [for_M forallb flat_map map]. rewrite list_sum_cons. unfold bindM.
    destruct slot as [node|]; cbn [on_slot_M slot_complete slot_lines slot_objects].
    + destruct (Hslot indent w) as [Hout Hok]. cbn zeta in Hout, Hok.
      destruct (print_requirement indent node w) as [[[]|e] w1]; cbn [fst snd] in *.
      * destruct (complete node); [|discriminate].
        destruct (Hok eq_refl) as [Hs Hc].
        destruct (IH indent w1) as [Hout' Hok']. cbn zeta in Hout', Hok'.
        cbn [andb]. split; [exact Hout'|]. intros Hall.
        destruct (Hok' Hall) as [Hs' Hc']. rewrite Hs', Hc', Hs, Hc.
        rewrite <- app_assoc. split; [reflexivity | lia].
      * destruct (complete node); [discriminate|]. cbn [andb].
        split; [exact Hout | discriminate].
    + cbn [lift fst snd andb]. split; [reflexivity | discriminate].
Qed.

Lemma print_requirement_outcome (node : Requirement.t) (indent : string)
      (w : World St) :
  let run := print_requirement indent node w in
  fst run = (if complete node then Ok tt else Raise AttributeError)
  /\ (complete node = true ->
      stdout (snd run) = stdout w ++ requirement_lines indent node
      /\ count (snd run) = count w + objects node).
Proof.
  revert indent w. induction node as [node IH] using requirement_ind.
  intros indent w.
  pose proof (@print_slots_outcome _ IH (indent ++ tab)%string
                (count_up (print (PrintRequirement indent (Requirement.rqmt_idnf node)
                                                   (Requirement.rqmt_desc node)) w)))
    as Hkids.
  clear IH. rename Hkids into IH.
  rewrite complete_node, requirement_lines_node, objects_node.
  destruct node as [idnf desc children p b i].
  cbn [print_requirement Requirement.requirements Requirement.rqmt_idnf
         Requirement.rqmt_desc] in *.
  unfold bindM, say. cbn zeta in IH.
  destruct children as [|slot rest].
  - cbn. split; [reflexivity|]. intros _. split; [reflexivity | lia].
  - cbn [List.length Nat.ltb Nat.leb].
    destruct IH as [Hout Hok]. split; [exact Hout|]. intros Hall.
    destruct (Hok Hall) as [Hs Hc]. rewrite Hs, Hc.
    cbn [count_up print stdout count]. rewrite <- app_assoc. split; [reflexivity | lia].
Qed.

Lemma print_all_outcome (l : list (option Requirement.t)) (indent : string)
      (w : World St) :
  let run := print_all_requirements l indent w in
  fst run = (if forallb slot_complete l then Ok tt else Raise AttributeError)
  /\ (forallb slot_complete l = true ->
      stdout (snd run) = stdout w ++ flat_map (slot_lines indent) l
      /\ count (snd run) = count w + list_sum (map slot_objects l)).
Proof.
  unfold print_all_requirements. apply print_slots_outcome.
  unfold on_children. apply Forall_forall.
  intros [node|] _; [|exact I]. intros i w0. apply print_requirement_outcome.
Qed.

(** X16: [print_all_requirements] ends normally exactly on a sequence without
    a null slot at any depth, and raises an AttributeError, which nothing
    catches, on any other.  When it ends normally it has printed one
    line per object, parents before children and one tab deeper per
    level, and has counted the objects into the module's counter. *)
Theorem X16_print_all_requirements_outcome (requirements : list (option Requirement.t))
        (indent : string) (w : World St) :
  let run := print_all_requirements requirements indent w in
  fst run = (if forallb slot_complete requirements then Ok tt else Raise AttributeError)
  /\ (forallb slot_complete requirements = true ->
      stdout (snd run) = stdout w ++ flat_map (slot_lines indent) requirements
      /\ count (snd run) = count w + list_sum (map slot_objects requirements)).
Proof. apply print_all_outcome. Qed.

(** X17: the parsers and the printing together: a badge record whose
    requirements list holds a malformed requirement record is parsed
    into a badge, and printing that badge raises an AttributeError, so
    the script ends there. *)
Theorem X17_malformed_child_aborts_printing (d : dict) (l : list value) (i : nat)
        (child : dict) (w : World St) :
  forallb (fun k => dict_has k d) badge_keys = true ->
  dict_get "requirements" d = Some (VList l) ->
  forallb requirement_record l = true ->
  nth_error l i = Some (VDict child) ->
  dict_has "rqmt_idnf" child = false \/ dict_has "rqmt_desc" child = false ->
  exists badge,
    MeritBadge.convert_merit_badge_from_json (VDict d) = Ok (Some badge)
    /\ fst (print_merit_badge badge w) = Raise AttributeError.
Proof.
  intros Hkeys Hr Hl Hc Hbad.
  destruct (requirement_records_parse l Hl) as [slots Hslots].
  destruct (mapM_nth_error _ _ i Hslots Hc) as [slot [Hslot Hn]].
  rewrite (convert_dict_absent child Hbad) in Hslot. injection Hslot as <-.
  rewrite convert_merit_badge_dict, Hkeys. unfold py_get, py_getitem. rewrite Hr.
  cbn [py_iter bind]. rewrite Hslots. cbn [bind].
  unfold badge_keys, dict_has in Hkeys. cbn [forallb] in Hkeys.
  destruct (dict_get "badge_name" d) as [name|]; [|discriminate].
  destruct (dict_get "badge_desc" d) as [desc|]; [|discriminate].
  destruct (dict_get "eagle_badge" d) as [eagle|]; [|discriminate].
  destruct (dict_get "dpmt_name" d) as [dpmt|]; [|discriminate].
  cbn [bind]. eexists. split; [reflexivity|].
  cbv [print_merit_badge bindM say].
  cbn [MeritBadge.requirements MeritBadge.__init__].
  destruct (print_all_outcome slots tab
              (print (PrintValue dpmt)
                 (print (PrintValue eagle)
                    (print (PrintValue desc) (print (PrintValue name) w)))))
    as [Hout _]. cbn zeta in Hout.
  cbn [MeritBadge.badge_name MeritBadge.badge_desc MeritBadge.eagle_badge
         MeritBadge.dpmt_name MeritBadge.__init__].
  rewrite Hout.
  replace (forallb slot_complete slots) with false; [reflexivity|].
  symmetry. apply not_true_is_false. intros Hall.
  rewrite forallb_forall in Hall.
  specialize (Hall None (nth_error_In _ _ Hn)). discriminate.
Qed.

End PrintFacts.

Lemma X17_malformed_child_aborts_printing_witness :
  exists badge,
    MeritBadge.convert_merit_badge_from_json
      (VDict (camping_record (VList [VDict knots_record; VDict [("rqmt_idnf", VStr "3")]])))
    = Ok (Some badge)
    /\ fst (print_merit_badge badge (fresh_world [])) = Raise AttributeError.
Proof.
  apply (@X17_malformed_child_aborts_printing
           _ (camping_record (VList [VDict knots_record; VDict [("rqmt_idnf", VStr "3")]]))
           [VDict knots_record; VDict [("rqmt_idnf", VStr "3")]]
           1 [("rqmt_idnf", VStr "3")] (fresh_world [])).
  - reflexivity.
  - reflexivity.
  - reflexivity.
  - reflexivity.
  - right. reflexivity.
Defined.

(** What the script prints for a parsed tree of three objects. *)
Example trek_lines :
  let run := print_all_requirements
               [Some (Requirement.__init__ (VStr "4") (VStr "Plan a trek")
                        [Some (leaf "4a" "Pack a bag"); Some (leaf "4b" "Read a map")])]
               tab (fresh_world []) in
  fst run = Ok tt
  /\ stdout (snd run) =
     [PrintRequirement tab (VStr "4") (VStr "Plan a trek");
      PrintRequirement (tab ++ tab)%string (VStr "4a") (VStr "Pack a bag");
      PrintRequirement (tab ++ tab)%string (VStr "4b") (VStr "Read a map")]
  /\ count (snd run) = 3.
Proof. vm_compute. repeat split. Qed.

(** ** Grouping the parsed badges *)

Section GroupFacts.

Variable St : Type.
Variable load : string -> result value.
Variable upper : string -> string.

Lemma setdefault_append_in (key k : string) (badge : MeritBadge.t)
      (groups : list (string * list MeritBadge.t)) :
  In k (map fst (setdefault_append key badge groups)) <->
  k = key \/ In k (map fst groups).
Proof.
  induction groups as [|[k0 members] rest IH]; cbn [setdefault_append map fst In].
  - split; [intros [H|[]]; left; symmetry; exact H | intros [H|[]]; left; symmetry; exact H].
  - destruct (String.eqb key k0) eqn:E; cbn [map fst In].
    + apply String.eqb_eq in E. subst k0. split; [auto|]. intros [->|H]; auto.
    + rewrite IH. tauto.
Qed.

Lemma setdefault_append_grouped (s : string) (badge : MeritBadge.t)
      (groups : list (string * list MeritBadge.t)) :
  MeritBadge.dpmt_name badge = VStr s ->
  grouped upper groups -> grouped upper (setdefault_append (upper s) badge groups).
Proof.
  intros Hname [Hkeys Hall].
  induction groups as [|[k0 members] rest IH]; cbn [setdefault_append].
  - split.
    + cbn. constructor; [intros [] | constructor].
    + constructor; [|constructor]. cbn [fst snd]. split; [discriminate|].
      constructor; [|constructor]. exists s. auto.
  - cbn [map fst] in Hkeys. inversion Hkeys as [|x l Hnot Hrest]; subst.
    inversion Hall as [|x l [Hne Hmem] Hall']; subst. cbn [fst snd] in *.
    destruct (String.eqb (upper s) k0) eqn:E.
    + apply String.eqb_eq in E. split.
      * exact Hkeys.
      * constructor; [|exact Hall']. cbn [fst snd]. split.
        -- destruct members; discriminate.
        -- apply Forall_app. split; [exact Hmem|].
           constructor; [|constructor]. exists s. auto.
    + destruct (IH Hrest Hall') as [Hkeys' Hall''].
      split.
      * cbn [map fst]. constructor; [|exact Hkeys'].
        intros Hin. apply setdefault_append_in in Hin. destruct Hin as [->|Hin].
        -- rewrite String.eqb_refl in E. discriminate.
        -- exact (Hnot Hin).
      * constructor; [|exact Hall'']. cbn [fst snd]. auto.
Qed.

Lemma load_merit_badges_grouped (files : list (string * string))
      (groups : list (string * list MeritBadge.t)) (w : World St)
      (out : list (string * list MeritBadge.t)) :
  grouped upper groups ->
  fst (load_merit_badges load upper files groups w) = Ok out ->
  grouped upper out
  /\ files_read (snd (load_merit_badges load upper files groups w))
     = files_read w ++ map snd files.
Proof.
  revert groups w. induction files as [|[department file] rest IH]; intros groups w Hg.
  - cbn. intros H. injection H as <-. rewrite app_nil_r. auto.
  - cbn [load_merit_badges map snd]. unfold bindM, lift.
    destruct (load file) as [data|e]; [|discriminate].
    destruct (MeritBadge.convert_merit_badge_from_json data) as [[badge|]|e];
      [| |discriminate].
    + unfold py_upper.
      destruct (MeritBadge.dpmt_name badge) as [| | | |s| |] eqn:En; try discriminate.
      intros H.
      destruct (IH (setdefault_append (upper s) badge groups) (open_file file w)
                   (setdefault_append_grouped badge En Hg) H) as [Hout Hfiles].
      split; [exact Hout|]. rewrite Hfiles. cbn [open_file files_read].
      rewrite <- app_assoc. reflexivity.
    + intros H. destruct (IH groups (open_file file w) Hg H) as [Hout Hfiles].
      split; [exact Hout|]. rewrite Hfiles. cbn [open_file files_read].
      rewrite <- app_assoc. reflexivity.
Qed.

(** X18: when the loading loop of lines 107-112 ends normally, the dict it
    built has no department twice and none without a badge, every badge
    sits under the upper-cased name of its own department, and every
    file of the list has been opened, in order. *)
Theorem X18_loaded_groups_well_kept (merit_badge_files : list (string * string))
        (w : World St) (out : list (string * list MeritBadge.t)) :
  fst (load_merit_badges load upper merit_badge_files [] w) = Ok out ->
  grouped upper out
  /\ files_read (snd (load_merit_badges load upper merit_badge_files [] w))
     = files_read w ++ map snd merit_badge_files.
Proof.
  apply load_merit_badges_grouped. split; constructor.
Qed.

Lemma load_merit_badges_labels (files files' : list (string * string))
      (groups : list (string * list MeritBadge.t)) (w : World St) :
  map snd files = map snd files' ->
  load_merit_badges load upper files groups w
  = load_merit_badges load upper files' groups w.
Proof.
  revert files' groups w. induction files as [|[department file] rest IH];
    intros [|[department' file'] rest'] groups w H; try discriminate; [reflexivity|].
  cbn [map snd] in H. injection H as <- Hrest.
  cbn [load_merit_badges]. unfold bindM, lift.
  destruct (load file) as [data|e]; [|reflexivity].
  destruct (MeritBadge.convert_merit_badge_from_json data) as [[badge|]|e];
    [| |reflexivity].
  - destruct (py_upper upper (MeritBadge.dpmt_name badge)) as [key|e]; [|reflexivity].
    apply IH, Hrest.
  - apply IH, Hrest.
Qed.

(** X19: the folder a badge file was found in plays no part in the grouping:
    two lists of the same files under different department labels load
    to the same dict, with the same effects. *)
Theorem X19_grouping_ignores_folders (files files' : list (string * string))
        (w : World St) :
  map snd files = map snd files' ->
  load_merit_badges load upper files [] w = load_merit_badges load upper files' [] w.
Proof. apply load_merit_badges_labels. Qed.

Lemma load_merit_badges_world (files : list (string * string))
      (groups : list (string * list MeritBadge.t)) (w w' : World St) :
  fst (load_merit_badges load upper files groups w)
  = fst (load_merit_badges load upper files groups w').
Proof.
  revert groups w w'. induction files as [|[department file] rest IH]; intros groups w w'.
  - reflexivity.
  - cbn [load_merit_badges]. unfold bindM, lift.
    destruct (load file) as [data|e]; [|reflexivity].
    destruct (MeritBadge.convert_merit_badge_from_json data) as [[badge|]|e];
      [| |reflexivity].
    + destruct (py_upper upper (MeritBadge.dpmt_name badge)) as [key|e]; [|reflexivity].
      apply IH.
    + apply IH.
Qed.

(** X20: a badge file whose record lacks one of the five required keys leaves
    no trace in the grouping: with the file or without it, the loop
    comes to the same dict, or to the same exception. *)
Theorem X20_rejected_file_contributes_nothing (before after : list (string * string))
        (department file : string) (d : dict) (w : World St) :
  load file = Ok (VDict d) ->
  (exists k, In k badge_keys /\ dict_has k d = false) ->
  fst (load_merit_badges load upper (before ++ (department, file) :: after) [] w)
  = fst (load_merit_badges load upper (before ++ after) [] w).
Proof.
  intros Hload [k [Hk Hmiss]].
  assert (Hnone : MeritBadge.convert_merit_badge_from_json (VDict d) = Ok None).
  { rewrite convert_merit_badge_dict.
    replace (forallb (fun k => dict_has k d) badge_keys) with false; [reflexivity|].
    symmetry. apply not_true_is_false. intros Hall.
    rewrite forallb_forall in Hall. rewrite (Hall k Hk) in Hmiss. discriminate. }
  generalize (@nil (string * list MeritBadge.t)) as groups. revert w.
  induction before as [|[department' file'] rest IH]; intros w groups.
  - cbn [app load_merit_badges]. unfold bindM, lift. rewrite Hload, Hnone.
    apply load_merit_badges_world.
  - cbn [app load_merit_badges]. unfold bindM, lift.
    destruct (load file') as [data|e]; [|reflexivity].
    destruct (MeritBadge.convert_merit_badge_from_json data) as [[badge|]|e];
      [| |reflexivity].
    + destruct (py_upper upper (MeritBadge.dpmt_name badge)) as [key|e]; [|reflexivity].
      apply IH.
    + apply IH.
Qed.

End GroupFacts.

Lemma X18_loaded_groups_well_kept_witness :
  grouped upper_sample
          [("OUTDOOR",
            [MeritBadge.__init__ (VStr "Camping") (VStr "Outdoor skills") (VBool true)
                                 (VStr "Outdoor") [Some (leaf "1" "Pitch a tent")];
             MeritBadge.__init__ (VStr "Cooking") (VStr "Feed a patrol") (VBool true)
                                 (VStr "outdoor") []])]
  /\ files_read
       (snd (load_merit_badges shelf upper_sample
               [("OUTDOOR", "camping.json"); ("OUTDOOR", "hiking.json");
                ("KITCHEN", "cooking.json")] [] (fresh_world [])))
     = [] ++ map snd [("OUTDOOR", "camping.json"); ("OUTDOOR", "hiking.json");
                      ("KITCHEN", "cooking.json")].
Proof.
  apply (@X18_loaded_groups_well_kept
           _ shelf upper_sample
           [("OUTDOOR", "camping.json"); ("OUTDOOR", "hiking.json");
            ("KITCHEN", "cooking.json")] (fresh_world [])).
  vm_compute. reflexivity.
Defined.

Lemma X19_grouping_ignores_folders_witness :
  load_merit_badges shelf upper_sample
                    [("OUTDOOR", "camping.json"); ("KITCHEN", "cooking.json")] []
                    (fresh_world [])
  = load_merit_badges shelf upper_sample
                      [("AQUATICS", "camping.json"); ("", "cooking.json")] []
                      (fresh_world []).
Proof.
  apply (@X19_grouping_ignores_folders
           _ shelf upper_sample
           [("OUTDOOR", "camping.json"); ("KITCHEN", "cooking.json")]
           [("AQUATICS", "camping.json"); ("", "cooking.json")] (fresh_world [])).
  reflexivity.
Defined.

Lemma X20_rejected_file_contributes_nothing_witness :
  fst (load_merit_badges shelf upper_sample
         ([("OUTDOOR", "camping.json")] ++ ("OUTDOOR", "hiking.json")
            :: [("KITCHEN", "cooking.json")]) [] (fresh_world []))
  = fst (load_merit_badges shelf upper_sample
           ([("OUTDOOR", "camping.json")] ++ [("KITCHEN", "cooking.json")]) []
           (fresh_world [])).
Proof.
  apply (@X20_rejected_file_contributes_nothing
           _ shelf upper_sample [("OUTDOOR", "camping.json")]
           [("KITCHEN", "cooking.json")] "OUTDOOR" "hiking.json"
           [("badge_name", VStr "Hiking"); ("badge_desc", VStr "Walk far");
            ("dpmt_name", VStr "Outdoor"); ("requirements", VList [])]
           (fresh_world [])).
  - reflexivity.
  - exists "eagle_badge". split.
    + right. right. left. reflexivity.
    + reflexivity.
Defined.

(** ** The department script *)

Section DepartmentFacts.

Variable St : Type.
Variable execute : call -> St -> response * St.
Variable load : string -> result value.

Lemma nameless_getitem (department : value) :
  entry_name department = None ->
  exists e, py_getitem department "dpmt_name" = Raise e.
Proof.
  destruct department; simpl; try (intros _; eexists; reflexivity).
  intros ->. eexists. reflexivity.
Qed.

(** What the loop of lines 35-42 adds to the records, entry by entry. *)
Lemma seed_departments_trace (departments : list value) (w : World St) :
  let w' := snd (seed_departments execute departments w) in
  exists new,
    remote_calls w' = remote_calls w ++ new
    /\ map fst new = flat_map entry_requests departments
    /\ List.length (stderr w') =
       List.length (stderr w) + List.length (filter nameless departments)
       + List.length (filter failed new)
    /\ List.length (stdout w') + List.length (stderr w') =
       List.length (stdout w) + List.length (stderr w) + List.length departments.
Proof.
  cbn zeta. revert w. induction departments as [|department rest IH]; intros w.
  - exists []. cbn. rewrite app_nil_r. repeat split; lia.
  - cbn [seed_departments]. rewrite insert_department_step.
    cbn [flat_map filter List.length]. unfold entry_requests at 1, nameless at 1.
    destruct (entry_name department) as [name|] eqn:En.
    + rewrite (entry_name_getitem _ En). cbn zeta.
      destruct (execute _ (backend w)) as [r st].
      set (request := Insert "camp_dpmt" [("dpmt_name", name)]).
      destruct (department_answer r) as [data|e] eqn:Ha.
      * destruct (IH (print (PrintValue data) (record_call request r st w)))
          as [new [Hc [Hrows [Herr Hall]]]].
        exists ((request, r) :: new). cbn [filter]. unfold failed at 1. cbn [snd].
        rewrite Ha. cbn [print record_call remote_calls stdout stderr] in *.
        rewrite length_app in Hall. cbn [List.length] in Hall.
        split; [rewrite Hc, <- app_assoc; reflexivity|].
        split; [cbn [map fst app]; rewrite Hrows; reflexivity|].
        split; lia.
      * destruct (IH (report e (record_call request r st w)))
          as [new [Hc [Hrows [Herr Hall]]]].
        exists ((request, r) :: new). cbn [filter]. unfold failed at 1. cbn [snd].
        rewrite Ha.
        cbn [report print_err record_call remote_calls stdout stderr] in *.
        rewrite length_app in Herr, Hall. cbn [List.length] in *.
        split; [rewrite Hc, <- app_assoc; reflexivity|].
        split; [cbn [map fst app]; rewrite Hrows; reflexivity|].
        split; lia.
    + destruct (nameless_getitem department En) as [e ->].
      destruct (IH (report e w)) as [new [Hc [Hrows [Herr Hall]]]].
      exists new. cbn [report print_err remote_calls stdout stderr] in *.
      rewrite length_app in Herr, Hall. cbn [List.length app] in *.
      split; [exact Hc|]. split; [exact Hrows|]. split; lia.
Qed.

(** X21: the department seeder accounts for every entry of its list, whatever
    the entries are and whatever the backend answers.  It makes one
    insert into camp_dpmt for each entry that is a record with a
    dpmt_name, in order, and none for any other; every entry leaves
    exactly one line on the console, on the error stream when the entry
    has no name or its insert failed, on the output stream otherwise. *)
Theorem X21_every_department_accounted_for (departments : list value) (w : World St) :
  let w' := snd (seed_departments execute departments w) in
  exists new,
    remote_calls w' = remote_calls w ++ new
    /\ map fst new = flat_map entry_requests departments
    /\ List.length (stderr w') =
       List.length (stderr w) + List.length (filter nameless departments)
       + List.length (filter failed new)
    /\ List.length (stdout w') + List.length (stderr w') =
       List.length (stdout w) + List.length (stderr w) + List.length departments.
Proof. apply seed_departments_trace. Qed.

Lemma seed_departments_app (first second : list value) (w : World St) :
  seed_departments execute (first ++ second) w
  = seed_departments execute second (snd (seed_departments execute first w)).
Proof.
  revert w. induction first as [|department rest IH]; intros w; [reflexivity|].
  cbn [app seed_departments].
  destruct (insert_department execute department w) as [[] w1]. apply IH.
Qed.

(** X22: the seeder checks nothing before it inserts: a second run over the
    same entries repeats every insert of the first, in the same order,
    whatever the backend answered the first time. *)
Theorem X22_seeding_twice_inserts_twice (departments : list value) (w : World St) :
  let w1 := snd (seed_departments execute departments w) in
  let w2 := snd (seed_departments execute departments w1) in
  exists first second,
    remote_calls w1 = remote_calls w ++ first
    /\ remote_calls w2 = remote_calls w1 ++ second
    /\ map fst first = flat_map entry_requests departments
    /\ map fst second = map fst first
    /\ w2 = snd (seed_departments execute (departments ++ departments) w).
Proof.
  cbn zeta.
  destruct (seed_departments_trace departments w) as [first [Hc1 [Hr1 _]]].
  destruct (seed_departments_trace
              departments (snd (seed_departments execute departments w)))
    as [second [Hc2 [Hr2 _]]].
  cbn zeta in *. exists first, second. rewrite seed_departments_app.
  repeat split; try assumption. congruence.
Qed.

Lemma load_departments_all (files : list string) (batches : list (list value))
      (departments : list value) (w : World St) :
  Forall2 (fun file items => file_entries load file = Ok items) files batches ->
  load_departments load files departments w
  = (Ok (departments ++ concat batches),
     fold_left (fun world file => open_file file world) files w).
Proof.
  intros H. revert departments w.
  induction H as [|file items files batches Hf Hrest IH]; intros departments w.
  - cbn. rewrite app_nil_r. reflexivity.
  - cbn [load_departments fold_left concat]. unfold bindM, lift.
    unfold file_entries in Hf.
    destruct (load file) as [data|e]; [|discriminate]. cbn [bind] in Hf.
    rewrite Hf, IH, <- app_assoc. reflexivity.
Qed.

Lemma opened_files (files : list string) (w : World St) :
  let w' := fold_left (fun world file => open_file file world) files w in
  files_read w' = files_read w ++ files
  /\ backend w' = backend w
  /\ remote_calls w' = remote_calls w
  /\ stdout w' = stdout w
  /\ stderr w' = stderr w.
Proof.
  cbn zeta. revert w. induction files as [|file rest IH]; intros w.
  - cbn. rewrite app_nil_r. auto.
  - cbn [fold_left]. destruct (IH (open_file file w)) as [H1 [H2 [H3 [H4 H5]]]].
    rewrite H1, H2, H3, H4, H5. cbn [open_file files_read]. rewrite <- app_assoc. auto.
Qed.

(** X23: when every department file loads and holds something iterable, the
    script ends normally: it opens the files in order and then makes the
    inserts of all their entries, file after file and, within a file, in
    the order of the array. *)
Theorem X23_department_initializer_inserts_all (department_files : list string)
        (batches : list (list value)) (w : World St) :
  Forall2 (fun file items => file_entries load file = Ok items)
          department_files batches ->
  let run := department_initializer execute load department_files w in
  fst run = Ok tt
  /\ files_read (snd run) = files_read w ++ department_files
  /\ exists new,
       remote_calls (snd run) = remote_calls w ++ new
       /\ map fst new = flat_map entry_requests (concat batches).
Proof.
  intros Hfiles. cbn zeta. unfold department_initializer, bindM, run.
  rewrite (load_departments_all [] w Hfiles). cbn [app].
  set (w0 := fold_left (fun world file => open_file file world) department_files w).
  destruct (opened_files department_files w) as [Hf [_ [Hc _]]]. fold w0 in Hf, Hc.
  destruct (seed_departments_trace (concat batches) w0) as [new [Hc' [Hr _]]].
  cbn zeta in Hc'.
  assert (Hfr : forall l w1, files_read (snd (seed_departments execute l w1))
                             = files_read w1).
  { induction l as [|department rest IH]; intros w1; [reflexivity|].
    cbn [seed_departments]. rewrite insert_department_step.
    destruct (py_getitem department "dpmt_name") as [name|e];
      [|rewrite IH; reflexivity].
    cbn zeta. destruct (execute _ (backend w1)) as [r st].
    destruct (department_answer r); rewrite IH; reflexivity. }
  specialize (Hfr (concat batches) w0).
  destruct (seed_departments execute (concat batches) w0) as [[] w']. cbn [fst snd] in *.
  split; [reflexivity|]. split; [congruence|].
  exists new. split; [congruence | exact Hr].
Qed.

Lemma load_departments_failure (before after : list string) (file : string)
      (batches : list (list value)) (departments : list value) (w : World St)
      (e : exn) :
  Forall2 (fun file items => file_entries load file = Ok items) before batches ->
  file_entries load file = Raise e ->
  load_departments load (before ++ file :: after) departments w
  = (Raise e,
     open_file file (fold_left (fun world file => open_file file world) before w)).
Proof.
  intros H Hfail. revert departments w.
  induction H as [|file0 items files batches Hf Hrest IH]; intros departments w.
  - cbn [app load_departments fold_left]. unfold bindM, lift.
    unfold file_entries in Hfail.
    destruct (load file) as [data|e0]; cbn [bind] in Hfail.
    + rewrite Hfail. reflexivity.
    + injection Hfail as ->. reflexivity.
  - cbn [app load_departments fold_left]. unfold bindM, lift.
    unfold file_entries in Hf.
    destruct (load file0) as [data|e0]; [|discriminate]. cbn [bind] in Hf.
    rewrite Hf. apply IH.
Qed.

(** X24: a department file that fails to load, or holds something that cannot
    be iterated, ends the script with that exception before any insert
    is made: not even the entries of the files read before it reach the
    backend, and the files after it are not opened. *)
Theorem X24_department_file_failure_aborts (before after : list string) (file : string)
        (batches : list (list value)) (w : World St) (e : exn) :
  Forall2 (fun file items => file_entries load file = Ok items) before batches ->
  file_entries load file = Raise e ->
  let run := department_initializer execute load (before ++ file :: after) w in
  fst run = Raise e
  /\ remote_calls (snd run) = remote_calls w
  /\ stderr (snd run) = stderr w
  /\ files_read (snd run) = files_read w ++ before ++ [file].
Proof.
  intros Hbefore Hfail. cbn zeta. unfold department_initializer, bindM.
  rewrite (@load_departments_failure before after file batches [] w e Hbefore Hfail).
  cbn [fst snd].
  destruct (opened_files before w) as [Hf [_ [Hc [_ He]]]]. cbn zeta in *.
  cbn [open_file remote_calls stderr files_read].
  rewrite Hf, Hc, He, <- app_assoc. auto.
Qed.

End DepartmentFacts.

Lemma X23_department_initializer_inserts_all_witness :
  let run := department_initializer scripted shelf ["east.json"; "west.json"]
                                    (fresh_world []) in
  fst run = Ok tt
  /\ files_read (snd run) = [] ++ ["east.json"; "west.json"]
  /\ exists new,
       remote_calls (snd run) = [] ++ new
       /\ map fst new =
          flat_map entry_requests
                   (concat [[VDict [("dpmt_name", VStr "Camping")]];
                            [VDict [("dpmt_name", VStr "Aquatics")];
                             VDict [("dpmt_name", VStr "Handicraft")]]]).
Proof.
  apply (@X23_department_initializer_inserts_all
           _ scripted shelf ["east.json"; "west.json"]
           [[VDict [("dpmt_name", VStr "Camping")]];
            [VDict [("dpmt_name", VStr "Aquatics")];
             VDict [("dpmt_name", VStr "Handicraft")]]]
           (fresh_world [])).
  repeat constructor.
Defined.

Lemma X24_department_file_failure_aborts_witness :
  let run := department_initializer scripted shelf
                                    (["east.json"] ++ "north.json" :: ["west.json"])
                                    (fresh_world []) in
  fst run = Raise (OtherException "No such file or directory")
  /\ remote_calls (snd run) = []
  /\ stderr (snd run) = []
  /\ files_read (snd run) = [] ++ ["east.json"] ++ ["north.json"].
Proof.
  apply (@X24_department_file_failure_aborts
           _ scripted shelf ["east.json"] ["west.json"] "north.json"
           [[VDict [("dpmt_name", VStr "Camping")]]] (fresh_world [])
           (OtherException "No such file or directory")).
  - repeat constructor.
  - reflexivity.
Defined.

(** ** The further properties on concrete runs *)

Lemma X8_walk_full_success_witness :
  let run := insert_merit_badge_requirements_recursively
               scripted (VInt 7) first_aid_tree VNone (fresh_world first_aid_answers) in
  List.length (remote_calls (snd run)) = list_sum (map slot_objects first_aid_tree)
  /\ Forall (slot_saved (VInt 7)) (fst run)
  /\ stderr (snd run) = [] ++ hole_lines (list_sum (map slot_holes first_aid_tree)).
Proof.
  apply (@X8_walk_full_success _ scripted (VInt 7) VNone first_aid_tree
                            (fresh_world first_aid_answers)).
  - reflexivity.
  - vm_compute. reflexivity.
Defined.

Lemma X9_walk_no_data_skips_children_witness :
  let node := Requirement.__init__ (VStr "1") (VStr "Show first aid")
                                   [Some (leaf "1a" "For cuts")] in
  let siblings := [Some (leaf "2" "Explain heat reactions")] in
  let request := Insert "merit_badge_rqmt" (new_requirement (VInt 7) node VNone) in
  let w := fresh_world [Returns (Some VNone); generated "rqmt_id" 102] in
  let w1 := record_call request (Returns (Some VNone)) [generated "rqmt_id" 102]
                        (noted "badge_id" (VInt 7) w) in
  let later :=
    insert_merit_badge_requirements_recursively scripted (VInt 7) siblings VNone w1 in
  insert_merit_badge_requirements_recursively
    scripted (VInt 7) (Some node :: siblings) VNone w
  = (Some (Requirement.with_badge_id (VInt 7) node) :: fst later, snd later)
  /\ stderr w1 = stderr w
  /\ remote_calls w1 = remote_calls w ++ [(request, Returns (Some VNone))]
  /\ assignments w1 = assignments w ++ [("badge_id", VInt 7)].
Proof.
  apply (@X9_walk_no_data_skips_children
           _ scripted (VInt 7) VNone
           (Requirement.__init__ (VStr "1") (VStr "Show first aid")
                                 [Some (leaf "1a" "For cuts")])
           [Some (leaf "2" "Explain heat reactions")]
           (fresh_world [Returns (Some VNone); generated "rqmt_id" 102])).
  - reflexivity.
  - reflexivity.
Defined.

Lemma X10_null_id_children_become_roots_witness :
  let node := Requirement.__init__ (VStr "1") (VStr "Show first aid")
                                   [Some (leaf "1a" "For cuts")] in
  let request := Insert "merit_badge_rqmt" (new_requirement (VInt 7) node VNone) in
  let answer := Returns (Some (VList [VDict [("rqmt_id", VNone)]])) in
  let w := fresh_world [answer; generated "rqmt_id" 102] in
  let run := insert_requirement scripted (VInt 7) VNone node w in
  exists new,
    remote_calls (snd run) = remote_calls w ++ (request, answer) :: new
    /\ In (Insert "merit_badge_rqmt"
                  (new_requirement (VInt 7) (leaf "1a" "For cuts") VNone))
          (map fst new)
    /\ dict_get "parent_rqmt_id" (new_requirement (VInt 7) (leaf "1a" "For cuts") VNone)
       = None
    /\ Requirement.rqmt_id (fst run) = VNone.
Proof.
  apply (@X10_null_id_children_become_roots
           _ scripted (VInt 7) VNone
           (Requirement.__init__ (VStr "1") (VStr "Show first aid")
                                 [Some (leaf "1a" "For cuts")])
           (leaf "1a" "For cuts")
           (fresh_world [Returns (Some (VList [VDict [("rqmt_id", VNone)]]));
                         generated "rqmt_id" 102])
           (Returns (Some (VList [VDict [("rqmt_id", VNone)]])))
           [generated "rqmt_id" 102]).
  - reflexivity.
  - reflexivity.
  - left. reflexivity.
Defined.

Lemma X12_badge_insert_links_requirements_witness :
  let request := Insert "merit_badge" (new_merit_badge swimming_badge (VInt 3)) in
  let w := fresh_world [generated "badge_id" 9; generated "rqmt_id" 90] in
  let run := insert_merit_badge scripted (VInt 3) swimming_badge w in
  let walk :=
    insert_merit_badge_requirements_recursively
      scripted (VInt 9) (MeritBadge.requirements swimming_badge) VNone
      (noted "badge_id" (VInt 9)
             (record_call request (generated "badge_id" 9) [generated "rqmt_id" 90] w)) in
  fst run = MeritBadge.with_requirements
              (fst walk) (MeritBadge.with_badge_id (VInt 9) swimming_badge)
  /\ snd run = snd walk
  /\ MeritBadge.badge_id (fst run) = VInt 9
  /\ map (option_map erase) (MeritBadge.requirements (fst run))
     = map (option_map erase) (MeritBadge.requirements swimming_badge)
  /\ exists new,
       remote_calls (snd run) = remote_calls w ++ (request, generated "badge_id" 9) :: new
       /\ Forall (targets (VInt 9)) new.
Proof.
  apply (@X12_badge_insert_links_requirements
           _ scripted (VInt 3) (VInt 9) swimming_badge
           (fresh_world [generated "badge_id" 9; generated "rqmt_id" 90])).
  - reflexivity.
  - reflexivity.
Defined.

Lemma X13_badge_insert_failure_contained_witness :
  let request := Insert "merit_badge" (new_merit_badge swimming_badge (VInt 3)) in
  let w := fresh_world [Returns (Some (VList []))] in
  let run := insert_merit_badge scripted (VInt 3) swimming_badge w in
  fst run = swimming_badge
  /\ remote_calls (snd run) = remote_calls w ++ [(request, Returns (Some (VList [])))]
  /\ stderr (snd run) = stderr w ++ [error_line IndexError]
  /\ assignments (snd run) = assignments w.
Proof.
  apply (@X13_badge_insert_failure_contained
           _ scripted (VInt 3) swimming_badge
           (fresh_world [Returns (Some (VList []))])
           (Returns (Some (VList []))) []).
  - reflexivity.
  - reflexivity.
Defined.

(** ** The script on well-formed files *)

Lemma badge_file_parses (v : value) :
  badge_file v = true ->
  (MeritBadge.convert_merit_badge_from_json v = Ok None /\ badge_file_records v = 0)
  \/ exists badge s,
       MeritBadge.convert_merit_badge_from_json v = Ok (Some badge)
       /\ MeritBadge.dpmt_name badge = VStr s
       /\ badge_complete badge = true
       /\ badge_objects badge = badge_file_records v.
Proof.
  destruct v as [| | | | | |d]; try discriminate.
  unfold badge_file, badge_file_records. rewrite convert_merit_badge_dict.
  destruct (forallb (fun k => dict_has k d) badge_keys) eqn:Hkeys; [|auto].
  unfold badge_keys, dict_has in Hkeys. cbn [forallb] in Hkeys.
  unfold py_get, py_getitem.
  destruct (dict_get "badge_name" d) as [name|]; [|discriminate].
  destruct (dict_get "badge_desc" d) as [desc|]; [|discriminate].
  destruct (dict_get "eagle_badge" d) as [eagle|]; [|discriminate].
  destruct (dict_get "dpmt_name" d) as [dpmt|]; [|discriminate].
  destruct dpmt as [| | | |s| |]; try discriminate.
  destruct (dict_get "requirements" d) as [source|]; [|discriminate].
  destruct source as [| | | | |l|]; try discriminate.
  intros Hl. right.
  destruct (@mapM_Forall2_total _ _ Requirement.convert_requirement_from_json
              mirrors l) as [slots [Hm Hf]].
  - intros x Hx. rewrite forallb_forall in Hl.
    destruct (@strict_record_mirrored (S (height x)) x) as [node [Hp [Hc Ho]]];
      [lia | apply Hl, Hx |].
    exists (Some node). split; [exact Hp|]. exists node. auto.
  - cbn [py_iter bind]. rewrite Hm. cbn [bind].
    destruct (mirrors_forest Hf) as [Hc Ho].
    eexists. exists s. split; [reflexivity|]. split; [reflexivity|].
    unfold badge_complete, badge_objects. cbn [MeritBadge.requirements
      MeritBadge.__init__]. auto.
Qed.

Section ScriptFacts.

Variable St : Type.
Variable load : string -> result value.
Variable upper : string -> string.

Lemma setdefault_append_measures (key : string) (badge : MeritBadge.t)
      (groups : list (string * list MeritBadge.t)) :
  groups_objects (setdefault_append key badge groups)
  = groups_objects groups + badge_objects badge
  /\ groups_complete (setdefault_append key badge groups)
     = groups_complete groups && badge_complete badge.
Proof.
  unfold groups_objects, groups_complete.
  induction groups as [|[k members] rest [IHo IHc]]; cbn [setdefault_append].
  - cbn [map forallb snd]. rewrite !list_sum_cons. cbn [list_sum fold_right].
    split; [lia|]. destruct (badge_complete badge); reflexivity.
  - destruct (String.eqb key k); cbn [map forallb snd]; rewrite !list_sum_cons.
    + rewrite map_app, list_sum_app, forallb_app. cbn [map forallb].
      rewrite list_sum_cons. cbn [list_sum fold_right].
      split; [lia|].
      destruct (forallb badge_complete members), (badge_complete badge),
        (forallb (fun group => forallb badge_complete (snd group)) rest); reflexivity.
    + rewrite IHo, IHc. split; [lia|]. rewrite andb_assoc. reflexivity.
Qed.

Lemma load_well_formed (files : list (string * string))
      (groups : list (string * list MeritBadge.t)) (w : World St) :
  Forall (fun entry => exists v, load (snd entry) = Ok v /\ badge_file v = true) files ->
  groups_complete groups = true ->
  exists out,
    fst (load_merit_badges load upper files groups w) = Ok out
    /\ groups_complete out = true
    /\ groups_objects out
       = groups_objects groups + list_sum (map (fun entry => loaded_records load (snd entry))
                                               files).
Proof.
  intros H. revert groups w.
  induction H as [|[department file] rest [v [Hload Hv]] Hrest IH]; intros groups w Hg.
  - exists groups. cbn. auto.
  - cbn [load_merit_badges map snd]. rewrite list_sum_cons. unfold bindM, lift.
    unfold loaded_records at 1. cbn [snd] in Hload. rewrite Hload.
    destruct (badge_file_parses v Hv) as [[-> ->] | [badge [s [-> [Hs [Hc Ho]]]]]].
    + destruct (IH groups (open_file file w) Hg) as [out [H1 [H2 H3]]].
      exists out. split; [exact H1|]. split; [exact H2 | lia].
    + rewrite Hs. cbn [py_upper].
      destruct (setdefault_append_measures (upper s) badge groups) as [Mo Mc].
      destruct (IH (setdefault_append (upper s) badge groups) (open_file file w))
        as [out [H1 [H2 H3]]].
      * rewrite Mc, Hg, Hc. reflexivity.
      * exists out. split; [exact H1|]. split; [exact H2 | lia].
Qed.

Lemma print_merit_badge_complete (badge : MeritBadge.t) (w : World St) :
  badge_complete badge = true ->
  fst (print_merit_badge badge w) = Ok tt
  /\ count (snd (print_merit_badge badge w)) = count w + badge_objects badge.
Proof.
  intros Hc. cbv [print_merit_badge bindM say].
  destruct (print_all_outcome (MeritBadge.requirements badge) tab
              (print (PrintValue (MeritBadge.dpmt_name badge))
                 (print (PrintValue (MeritBadge.eagle_badge badge))
                    (print (PrintValue (MeritBadge.badge_desc badge))
                       (print (PrintValue (MeritBadge.badge_name badge)) w)))))
    as [Hout Hok]. cbn zeta in Hout, Hok.
  unfold badge_complete in Hc. rewrite Hc in Hout.
  destruct (Hok Hc) as [_ Hcount]. split; [exact Hout | exact Hcount].
Qed.

Lemma print_badges_complete (badges : list MeritBadge.t) (w : World St) :
  forallb badge_complete badges = true ->
  fst (for_M (@print_merit_badge St) badges w) = Ok tt
  /\ count (snd (for_M (@print_merit_badge St) badges w))
     = count w + list_sum (map badge_objects badges).
Proof.
  revert w. induction badges as [|badge rest IH]; intros w Hall.
  - cbn. auto.
  - cbn [forallb] in Hall. apply andb_prop in Hall. destruct Hall as [Hb Hr].
    cbn [for_M map]. rewrite list_sum_cons. unfold bindM.
    destruct (print_merit_badge_complete badge w Hb) as [Hout Hcount].
    destruct (print_merit_badge badge w) as [[[]|e] w1]; cbn [fst snd] in *;
      [|discriminate].
    destruct (IH w1 Hr) as [Hout' Hcount']. split; [exact Hout' | lia].
Qed.

Lemma print_groups_complete (groups : list (string * list MeritBadge.t)) (w : World St) :
  groups_complete groups = true ->
  fst (for_M (fun group => for_M (@print_merit_badge St) (snd group)) groups w) = Ok tt
  /\ count (snd (for_M (fun group => for_M (@print_merit_badge St) (snd group)) groups w))
     = count w + groups_objects groups.
Proof.
  unfold groups_complete, groups_objects.
  revert w. induction groups as [|group rest IH]; intros w Hall.
  - cbn. auto.
  - cbn [forallb] in Hall. apply andb_prop in Hall. destruct Hall as [Hg Hr].
    cbn [for_M map]. rewrite list_sum_cons. unfold bindM.
    destruct (print_badges_complete (snd group) w Hg) as [Hout Hcount].
    destruct (for_M (@print_merit_badge St) (snd group) w) as [[[]|e] w1]; cbn [fst snd] in *;
      [|discriminate].
    destruct (IH w1 Hr) as [Hout' Hcount']. split; [exact Hout' | lia].
Qed.

Lemma load_merit_badges_count (files : list (string * string))
      (groups : list (string * list MeritBadge.t)) (w : World St) :
  count (snd (load_merit_badges load upper files groups w)) = count w.
Proof.
  revert groups w. induction files as [|[department file] rest IH]; intros groups w.
  - reflexivity.
  - cbn [load_merit_badges]. unfold bindM, lift.
    destruct (load file) as [data|e]; [|reflexivity].
    destruct (MeritBadge.convert_merit_badge_from_json data) as [[badge|]|e];
      [| |reflexivity].
    + destruct (py_upper upper (MeritBadge.dpmt_name badge)) as [key|e]; [|reflexivity].
      rewrite IH. reflexivity.
    + rewrite IH. reflexivity.
Qed.

(** X25: on well-formed files the script gets through: when every badge file
    loads and holds a dict that, if it has the five required keys, names
    its department by a string and lists requirement records with both
    of their fields at every level, the top-level flow ends normally, and
    the module's counter has grown by the number of requirement records
    of the accepted files. *)
Theorem X25_initializer_gets_through_well_formed_files
        (merit_badge_files : list (string * string)) (w : World St) :
  Forall (fun entry => exists v, load (snd entry) = Ok v /\ badge_file v = true)
         merit_badge_files ->
  let run := merit_badge_initializer load upper merit_badge_files w in
  fst run = Ok tt
  /\ count (snd run) =
     count w + list_sum (map (fun entry => loaded_records load (snd entry))
                             merit_badge_files).
Proof.
  intros Hfiles. cbn zeta. unfold merit_badge_initializer, bindM, say.
  destruct (load_well_formed [] w Hfiles eq_refl) as [out [Hout [Hc Ho]]].
  pose proof (load_merit_badges_count merit_badge_files [] w) as Hcount.
  destruct (load_merit_badges load upper merit_badge_files [] w) as [[groups|e] w1];
    cbn [fst snd] in *; [|discriminate].
  injection Hout as ->.
  destruct (print_groups_complete out (print (PrintGroups out) w1) Hc) as [Hp Hn].
  split; [exact Hp|]. rewrite Hn, Ho. cbn [print count groups_objects]. cbn. lia.
Qed.

End ScriptFacts.

Lemma X25_initializer_gets_through_well_formed_files_witness :
  let files := [("OUTDOOR", "camping.json"); ("OUTDOOR", "hiking.json");
                ("KITCHEN", "cooking.json")] in
  let run := merit_badge_initializer shelf upper_sample files (fresh_world []) in
  fst run = Ok tt
  /\ count (snd run) =
     0 + list_sum (map (fun entry => loaded_records shelf (snd entry)) files).
Proof.
  apply (@X25_initializer_gets_through_well_formed_files
           _ shelf upper_sample
           [("OUTDOOR", "camping.json"); ("OUTDOOR", "hiking.json");
            ("KITCHEN", "cooking.json")] (fresh_world [])).
  repeat constructor; eexists; (split; [reflexivity | reflexivity]).
Defined.
